(** * Library management API: the borrowing transaction engine

    A shallow embedding of the circulation core of the library management
    API (books, borrowers, borrowings) and the properties its specification
    states about checkout, return, due-date extension, inventory edits,
    deletion guards and overdue reporting.

    Modelling conventions.
    - The PostgreSQL database is a record of three tables, each a list of
      rows in insertion order, plus the three SERIAL sequences.  The CHECK,
      UNIQUE and FOREIGN KEY ... ON DELETE CASCADE constraints of the
      migrations are part of the statements that insert, update or delete.
      Length limits of VARCHAR columns and the e-mail pattern of the
      borrowers table are not modelled, nor are the timestamp columns and
      the is_returned column, which no modelled query reads.  The
      borrowings table has the columns of its migration and no other: a
      statement that assigns a column the table does not have is rejected
      by the database (undefined column, SQLSTATE 42703).
    - An async function is a function from the database to an outcome
      (resolved value or rejection) and the database it leaves behind.
      A BEGIN ... COMMIT block is [transaction]: on rejection the snapshot
      taken at BEGIN is restored (ROLLBACK), sequences included (PostgreSQL
      would skip the ids drawn; nothing here depends on which fresh id a
      row gets).  Each transaction is one atomic step, as the row locks
      (SELECT ... FOR UPDATE) make it.
    - A calendar date is the number of days since 1970-01-01 (UTC); an
      instant is the number of milliseconds since the epoch.  The clock is
      read once per request ([now]); server and database run in UTC, so
      CURRENT_DATE is [today now] and [new Date(d)] of a date-only string
      is midnight of that day.
    - Identifiers and quantities are integers ([Z]).  The range of the
      INTEGER columns is modelled only where a parameter of the query
      string reaches the database unchecked (the filters and the paging
      of the list of borrowings).
    - The query string reaches the services as Express parses it: page,
      limit and the ids are read through parseInt and are integers here;
      status, sortBy and sortOrder are used as they come, strings or, for
      a repeated or bracketed parameter, arrays or objects ([qvalue]). *)

From Stdlib Require Import ZArith List String Ascii Bool Lia.
From Stdlib Require Import Permutation Sorted.
Import ListNotations.
Local Open Scope Z_scope.

(** ** Outcomes of async functions *)

Inductive exn : Type :=
| Error (message : string)      (* throw new Error(message) *)
| PgError (constraint : string) (* the database rejects the statement *).

Inductive outcome (A : Type) : Type :=
| Resolved (value : A)
| Rejected (reason : exn).
Arguments Resolved {A} value.
Arguments Rejected {A} reason.

(** ** Dates and the clock *)

Definition ms_per_day : Z := 1000 * 60 * 60 * 24.

(** [new Date(t).toISOString().split('T')[0]] as a day number. *)
Definition today (now : Z) : Z := now / ms_per_day.

(** [new Date(d)] for a date-only value: midnight UTC of that day. *)
Definition new_Date (d : Z) : Z := d * ms_per_day.

(** [Math.ceil(a / b)] for an integer numerator and a positive divisor. *)
Definition ceil_div (a b : Z) : Z := - ((- a) / b).

(** JavaScript [a || b] on numbers: 0 is falsy. *)
Definition js_or (a b : Z) : Z := if a =? 0 then b else a.

(** JavaScript [a || b] where [a] may be undefined. *)
Definition js_or_undef (a : option Z) (b : Z) : Z :=
  match a with
  | Some v => js_or v b
  | None => b
  end.

(** ** Rows of the three tables *)

Module Book.
Record t : Type := mk {
  id : Z;
  title : string;
  author : string;
  isbn : string;
  available_quantity : Z;
  total_quantity : Z;
  shelf_location : option string
}.
End Book.

Module Borrower.
Record t : Type := mk {
  id : Z;
  name : string;
  email : string;
  registered_date : Z
}.
End Borrower.

Module Borrowing.
Record t : Type := mk {
  id : Z;
  book_id : Z;
  borrower_id : Z;
  checkout_date : Z;
  due_date : Z;
  return_date : option Z         (* NULL while the loan is active *)
}.

Definition active (r : t) : bool :=
  match return_date r with
  | None => true
  | Some _ => false
  end.
End Borrowing.

(** ** The database *)

Record db : Type := mkdb {
  books : list Book.t;
  borrowers : list Borrower.t;
  borrowings : list Borrowing.t;
  books_id_seq : Z;
  borrowers_id_seq : Z;
  borrowings_id_seq : Z
}.

Definition empty_db : db := mkdb [] [] [] 1 1 1.

Definition set_books (s : db) (t : list Book.t) : db :=
  mkdb t (borrowers s) (borrowings s)
       (books_id_seq s) (borrowers_id_seq s) (borrowings_id_seq s).

Definition set_borrowers (s : db) (t : list Borrower.t) : db :=
  mkdb (books s) t (borrowings s)
       (books_id_seq s) (borrowers_id_seq s) (borrowings_id_seq s).

Definition set_borrowings (s : db) (t : list Borrowing.t) : db :=
  mkdb (books s) (borrowers s) t
       (books_id_seq s) (borrowers_id_seq s) (borrowings_id_seq s).

Definition insert_book (s : db) (row : Book.t) : db :=
  mkdb (books s ++ [row]) (borrowers s) (borrowings s)
       (books_id_seq s + 1) (borrowers_id_seq s) (borrowings_id_seq s).

Definition insert_borrower (s : db) (row : Borrower.t) : db :=
  mkdb (books s) (borrowers s ++ [row]) (borrowings s)
       (books_id_seq s) (borrowers_id_seq s + 1) (borrowings_id_seq s).

Definition insert_borrowing (s : db) (row : Borrowing.t) : db :=
  mkdb (books s) (borrowers s) (borrowings s ++ [row])
       (books_id_seq s) (borrowers_id_seq s) (borrowings_id_seq s + 1).

(** *** CHECK constraints of the migrations *)

Definition books_check (b : Book.t) : option string :=
  if Book.available_quantity b >? Book.total_quantity b
  then Some "books_available_lte_total"%string
  else if Book.available_quantity b <? 0
  then Some "books_quantity_check"%string
  else if Book.total_quantity b <? 0
  then Some "books_total_quantity_check"%string
  else None.

Definition borrowings_check (r : Borrowing.t) : option string :=
  if Borrowing.due_date r <? Borrowing.checkout_date r
  then Some "borrowings_due_date_check"%string
  else match Borrowing.return_date r with
       | Some d => if d <? Borrowing.checkout_date r
                   then Some "borrowings_return_date_check"%string
                   else None
       | None => None
       end.

(** The first constraint violated by one of the rows a statement writes. *)
Fixpoint first_violation {R : Type} (check : R -> option string)
         (rows : list R) : option string :=
  match rows with
  | [] => None
  | r :: rest => match check r with
                 | Some c => Some c
                 | None => first_violation check rest
                 end
  end.

(** ON DELETE CASCADE: the borrowings that survive the deletion of rows. *)
Definition cascade_books (deleted : list Book.t)
           (t : list Borrowing.t) : list Borrowing.t :=
  filter (fun r => negb (existsb (fun b => Book.id b =? Borrowing.book_id r)
                                 deleted)) t.

Definition cascade_borrowers (deleted : list Borrower.t)
           (t : list Borrowing.t) : list Borrowing.t :=
  filter (fun r => negb (existsb
                           (fun b => Borrower.id b =? Borrowing.borrower_id r)
                           deleted)) t.

(** ORDER BY: insertion sort under a boolean order. *)
Fixpoint insert_by {R : Type} (le : R -> R -> bool) (x : R)
         (l : list R) : list R :=
  match l with
  | [] => [x]
  | y :: rest => if le x y then x :: l else y :: insert_by le x rest
  end.

Definition order_by {R : Type} (le : R -> R -> bool) (l : list R) : list R :=
  fold_right (insert_by le) [] l.

(** ** The monad of async functions over the database *)

Definition io (A : Type) : Type := db -> outcome A * db.

Definition ret {A : Type} (a : A) : io A := fun s => (Resolved a, s).

Definition throw {A : Type} (e : exn) : io A := fun s => (Rejected e, s).

Definition bind {A B : Type} (m : io A) (k : A -> io B) : io B :=
  fun s => match m s with
           | (Resolved a, s') => k a s'
           | (Rejected e, s') => (Rejected e, s')
           end.

(** A read-only query. *)
Definition query {A : Type} (q : db -> A) : io A :=
  fun s => (Resolved (q s), s).

(** BEGIN; body; COMMIT, with ROLLBACK in the catch clause. *)
Definition transaction {A : Type} (body : io A) : io A :=
  fun s => match body s with
           | (Resolved a, s') => (Resolved a, s')
           | (Rejected e, _) => (Rejected e, s)
           end.

Notation "x <- m ;; k" := (bind m (fun x => k))
  (at level 61, m at next level, right associativity).
Notation "m ;; k" := (bind m (fun _ => k))
  (at level 61, right associativity).

(** ** Strings: the JavaScript helpers the DTOs use (ASCII) *)

Definition is_space (c : ascii) : bool :=
  let n := nat_of_ascii c in
  (Nat.eqb n 32 || (Nat.leb 9 n && Nat.leb n 13))%bool.

Fixpoint trim_start (s : string) : string :=
  match s with
  | EmptyString => EmptyString
  | String c rest => if is_space c then trim_start rest else s
  end.

Fixpoint trim_end (s : string) : string :=
  match s with
  | EmptyString => EmptyString
  | String c rest =>
      match trim_end rest with
      | EmptyString => if is_space c then EmptyString else String c EmptyString
      | kept => String c kept
      end
  end.

(** [s.trim()] *)
Definition trim (s : string) : string := trim_end (trim_start s).

Definition lower (c : ascii) : ascii :=
  let n := nat_of_ascii c in
  if (Nat.leb 65 n && Nat.leb n 90)%bool then ascii_of_nat (n + 32) else c.

(** [s.toLowerCase()] *)
Fixpoint toLowerCase (s : string) : string :=
  match s with
  | EmptyString => EmptyString
  | String c rest => String (lower c) (toLowerCase rest)
  end.

Definition upper (c : ascii) : ascii :=
  let n := nat_of_ascii c in
  if (Nat.leb 97 n && Nat.leb n 122)%bool then ascii_of_nat (n - 32) else c.

(** [s.toUpperCase()] *)
Fixpoint toUpperCase (s : string) : string :=
  match s with
  | EmptyString => EmptyString
  | String c rest => String (upper c) (toUpperCase rest)
  end.

(** [list.includes(x)] *)
Definition includes (l : list string) (x : string) : bool :=
  existsb (String.eqb x) l.

(** A string is truthy when it is not empty. *)
Definition truthy (s : string) : bool :=
  match s with
  | EmptyString => false
  | String _ _ => true
  end.

(** A value of the parsed query string ([req.query]): a string, or the
    array or object that a repeated or bracketed parameter is parsed
    to. *)
Inductive qvalue : Type :=
| QString (value : string)
| QOther.

(** An array or object is truthy. *)
Definition qtruthy (v : qvalue) : bool :=
  match v with
  | QString value => truthy value
  | QOther => true
  end.

(** [v === literal]: an array or object is not equal to a string. *)
Definition qeqb (v : qvalue) (literal : string) : bool :=
  match v with
  | QString value => String.eqb value literal
  | QOther => false
  end.

(** [list.includes(v) ? v : d], for a list of strings. *)
Definition qone_of (l : list string) (v : qvalue) (d : string) : string :=
  match v with
  | QString value => if includes l value then value else d
  | QOther => d
  end.

(** The class [[^\s@]]. *)
Definition email_char (c : ascii) : bool :=
  (negb (is_space c) && negb (Ascii.eqb c "@"))%bool.

Fixpoint all_chars (p : ascii -> bool) (s : string) : bool :=
  match s with
  | EmptyString => true
  | String c rest => (p c && all_chars p rest)%bool
  end.

(** Splits at the first occurrence of [sep]. *)
Fixpoint split_first (sep : ascii) (s : string) : option (string * string) :=
  match s with
  | EmptyString => None
  | String c rest =>
      if Ascii.eqb c sep then Some (EmptyString, rest)
      else match split_first sep rest with
           | Some (l, r) => Some (String c l, r)
           | None => None
           end
  end.

(** Some "." of [s] has a character before it and a character after it. *)
Fixpoint inner_dot (before : bool) (s : string) : bool :=
  match s with
  | EmptyString => false
  | String c rest =>
      ((before && Ascii.eqb c "." && truthy rest) || inner_dot true rest)%bool
  end.

(** [/^[^\s@]+@[^\s@]+\.[^\s@]+$/.test(s)] *)
Definition emailRegex_test (s : string) : bool :=
  match split_first "@" s with
  | Some (local, domain) =>
      (truthy local && all_chars email_char local
       && all_chars email_char domain && inner_dot false domain)%bool
  | None => false
  end.

(** ** Validation results: [{ isValid, message }] *)

Inductive validation : Type :=
| Valid
| Invalid (message : string).

Definition isValid (v : validation) : bool :=
  match v with
  | Valid => true
  | Invalid _ => false
  end.

(** ** BookDTO *)

Module BookDTO.

Module CreateRequest.
Record t : Type := mk {
  title : string;
  author : string;
  isbn : string;
  available_quantity : option Z;
  total_quantity : option Z;
  shelf_location : option string
}.
End CreateRequest.

Module BookData.
Record t : Type := mk {
  title : string;
  author : string;
  isbn : string;
  available_quantity : Z;
  total_quantity : Z;
  shelf_location : option string
}.
End BookData.

(** Both the body of an update request and the sanitized update:
    [None] is an absent (undefined) field. *)
Module UpdateData.
Record t : Type := mk {
  title : option string;
  author : option string;
  isbn : option string;
  available_quantity : option Z;
  total_quantity : option Z;
  shelf_location : option string
}.
End UpdateData.

Definition fromCreateRequest (requestData : CreateRequest.t) : BookData.t :=
  let available_quantity := CreateRequest.available_quantity requestData in
  let total_quantity := CreateRequest.total_quantity requestData in
  let finalTotalQuantity :=
    js_or_undef total_quantity (js_or_undef available_quantity 0) in
  let finalAvailableQuantity := js_or_undef available_quantity 0 in
  BookData.mk (trim (CreateRequest.title requestData))
              (trim (CreateRequest.author requestData))
              (trim (CreateRequest.isbn requestData))
              finalAvailableQuantity
              finalTotalQuantity
              (option_map trim (CreateRequest.shelf_location requestData)).

Definition fromUpdateRequest (requestData : UpdateData.t) : UpdateData.t :=
  UpdateData.mk (option_map trim (UpdateData.title requestData))
                (option_map trim (UpdateData.author requestData))
                (option_map trim (UpdateData.isbn requestData))
                (UpdateData.available_quantity requestData)
                (UpdateData.total_quantity requestData)
                (option_map trim (UpdateData.shelf_location requestData)).

Definition validateQuantities (available_quantity total_quantity : Z)
  : validation :=
  if available_quantity <? 0
  then Invalid "Available quantity cannot be negative"
  else if total_quantity <? 0
  then Invalid "Total quantity cannot be negative"
  else if available_quantity >? total_quantity
  then Invalid "Available quantity cannot exceed total quantity"
  else Valid.

End BookDTO.

(** ** BorrowerDTO *)

Module BorrowerDTO.

Module CreateRequest.
Record t : Type := mk {
  name : string;
  email : string;
  registered_date : option Z
}.
End CreateRequest.

Module BorrowerData.
Record t : Type := mk {
  name : string;
  email : string;
  registered_date : Z
}.
End BorrowerData.

Module UpdateData.
Record t : Type := mk {
  name : option string;
  email : option string;
  registered_date : option Z
}.
End UpdateData.

Definition fromCreateRequest (now : Z) (requestData : CreateRequest.t)
  : BorrowerData.t :=
  BorrowerData.mk
    (trim (CreateRequest.name requestData))
    (toLowerCase (trim (CreateRequest.email requestData)))
    (match CreateRequest.registered_date requestData with
     | Some d => d
     | None => today now
     end).

Definition fromUpdateRequest (requestData : UpdateData.t) : UpdateData.t :=
  UpdateData.mk
    (option_map trim (UpdateData.name requestData))
    (option_map (fun e => toLowerCase (trim e)) (UpdateData.email requestData))
    (UpdateData.registered_date requestData).

Definition validateEmail (email : string) : validation :=
  if negb (truthy email) then Invalid "Email is required"
  else if negb (emailRegex_test email) then Invalid "Invalid email format"
  else Valid.

End BorrowerDTO.

(** ** BookRepository *)

Module BookRepository.
Import BookDTO.

Definition has_id (id : Z) (b : Book.t) : bool := Book.id b =? id.

(** INSERT INTO books (...) VALUES (...) RETURNING * *)
Definition create (d : BookData.t) : io Book.t :=
  fun s =>
    let available_quantity := BookData.available_quantity d in
    let total_quantity := BookData.total_quantity d in
    let row := Book.mk (books_id_seq s)
                       (BookData.title d) (BookData.author d) (BookData.isbn d)
                       (js_or available_quantity 0)
                       (js_or total_quantity (js_or available_quantity 0))
                       (BookData.shelf_location d) in
    match books_check row with
    | Some c => (Rejected (PgError c), s)
    | None =>
        if existsb (fun b => String.eqb (Book.isbn b) (Book.isbn row)) (books s)
        then (Rejected (PgError "books_isbn_key"), s)
        else (Resolved row, insert_book s row)
    end.

(** SELECT * FROM books WHERE id = $1, [rows[0] || null] *)
Definition findById (id : Z) : io (option Book.t) :=
  query (fun s => find (has_id id) (books s)).

Definition findByISBN (isbn : string) : io (option Book.t) :=
  query (fun s => find (fun b => String.eqb (Book.isbn b) isbn) (books s)).

Definition or_else {A : Type} (o : option A) (d : A) : A :=
  match o with
  | Some v => v
  | None => d
  end.

(** The SET clause built from the defined keys of [updateData]. *)
Definition set_fields (u : UpdateData.t) (b : Book.t) : Book.t :=
  Book.mk (Book.id b)
          (or_else (UpdateData.title u) (Book.title b))
          (or_else (UpdateData.author u) (Book.author b))
          (or_else (UpdateData.isbn u) (Book.isbn b))
          (or_else (UpdateData.available_quantity u) (Book.available_quantity b))
          (or_else (UpdateData.total_quantity u) (Book.total_quantity b))
          (match UpdateData.shelf_location u with
           | Some l => Some l
           | None => Book.shelf_location b
           end).

(** [fields.length === 0] *)
Definition no_fields (u : UpdateData.t) : bool :=
  match UpdateData.title u, UpdateData.author u, UpdateData.isbn u,
        UpdateData.available_quantity u, UpdateData.total_quantity u,
        UpdateData.shelf_location u with
  | None, None, None, None, None, None => true
  | _, _, _, _, _, _ => false
  end.

Definition isbn_taken (id : Z) (u : UpdateData.t) (t : list Book.t) : bool :=
  match UpdateData.isbn u with
  | Some i => existsb (fun b => negb (has_id id b) && String.eqb (Book.isbn b) i) t
  | None => false
  end.

(** UPDATE books SET ... WHERE id = $n RETURNING * *)
Definition update (id : Z) (updateData : UpdateData.t) : io (option Book.t) :=
  if no_fields updateData then ret None
  else fun s =>
    let updated := map (set_fields updateData) (filter (has_id id) (books s)) in
    match first_violation books_check updated with
    | Some c => (Rejected (PgError c), s)
    | None =>
        match updated with
        | [] => (Resolved None, s)
        | row :: _ =>
            if isbn_taken id updateData (books s)
            then (Rejected (PgError "books_isbn_key"), s)
            else (Resolved (Some row),
                  set_books s (map (fun b => if has_id id b
                                             then set_fields updateData b
                                             else b) (books s)))
        end
    end.

(** DELETE FROM books WHERE ..., [rowCount > 0]; borrowings cascade. *)
Definition delete_where (p : Book.t -> bool) : io bool :=
  fun s =>
    let deleted := filter p (books s) in
    (Resolved (negb (Nat.eqb (List.length deleted) 0)),
     set_borrowings (set_books s (filter (fun b => negb (p b)) (books s)))
                    (cascade_books deleted (borrowings s))).

Definition delete (id : Z) : io bool := delete_where (has_id id).

Definition deleteByISBN (isbn : string) : io bool :=
  delete_where (fun b => String.eqb (Book.isbn b) isbn).

(** SET available_quantity = available_quantity + $2 *)
Definition plus_available (quantityChange : Z) (b : Book.t) : Book.t :=
  Book.mk (Book.id b) (Book.title b) (Book.author b) (Book.isbn b)
          (Book.available_quantity b + quantityChange)
          (Book.total_quantity b) (Book.shelf_location b).

(** UPDATE books SET available_quantity = available_quantity + $2
    WHERE [wher] RETURNING * *)
Definition add_available (wher : Book.t -> bool) (quantityChange : Z)
  : io (option Book.t) :=
  fun s =>
    let updated := map (plus_available quantityChange)
                       (filter wher (books s)) in
    match first_violation books_check updated with
    | Some c => (Rejected (PgError c), s)
    | None => (Resolved (hd_error updated),
               set_books s (map (fun b => if wher b
                                          then plus_available quantityChange b
                                          else b)
                                (books s)))
    end.

(** ... WHERE id = $1 AND available_quantity + $2 >= 0,
    [rows[0] || null] *)
Definition updateAvailability (bookId quantityChange : Z)
  : io (option Book.t) :=
  add_available (fun b => has_id bookId b
                          && (Book.available_quantity b + quantityChange >=? 0))
                quantityChange.

(** [excludeId] is used when it is truthy. *)
Definition isbnExists (isbn : string) (excludeId : option Z) : io bool :=
  query (fun s =>
    let rows :=
      filter (fun b =>
                String.eqb (Book.isbn b) isbn
                && match excludeId with
                   | Some x => if x =? 0 then true else negb (has_id x b)
                   | None => true
                   end) (books s) in
    negb (Nat.eqb (List.length rows) 0)).

(** SELECT * FROM books
    WHERE available_quantity <= $1 AND available_quantity > 0
    ORDER BY available_quantity ASC, title ASC.
    [title_le] is the order of titles under the collation of the
    database. *)
Definition findLowAvailability (title_le : string -> string -> bool)
           (threshold : Z) : io (list Book.t) :=
  query (fun s =>
    order_by
      (fun x y =>
         (Book.available_quantity x <? Book.available_quantity y)
         || ((Book.available_quantity x =? Book.available_quantity y)
             && title_le (Book.title x) (Book.title y)))
      (filter (fun b => (Book.available_quantity b <=? threshold)
                        && (Book.available_quantity b >? 0)) (books s))).

End BookRepository.

(** ** BorrowerRepository *)

Module BorrowerRepository.
Import BorrowerDTO.

Definition has_id (id : Z) (b : Borrower.t) : bool := Borrower.id b =? id.

(** A row of [getCurrentBooks]. *)
Module CurrentBook.
Record t : Type := mk {
  id : Z;
  title : string;
  author : string;
  isbn : string;
  borrowing_id : Z;
  checkout_date : Z;
  due_date : Z
}.
End CurrentBook.

(** INSERT INTO borrowers (name, email, registered_date) ... RETURNING *.
    The data comes from [fromCreateRequest], whose registered_date is
    never empty. *)
Definition create (d : BorrowerData.t) : io Borrower.t :=
  fun s =>
    let row := Borrower.mk (borrowers_id_seq s) (BorrowerData.name d)
                           (BorrowerData.email d)
                           (BorrowerData.registered_date d) in
    if existsb (fun b => String.eqb (Borrower.email b) (Borrower.email row))
               (borrowers s)
    then (Rejected (PgError "borrowers_email_key"), s)
    else (Resolved row, insert_borrower s row).

Definition findById (id : Z) : io (option Borrower.t) :=
  query (fun s => find (has_id id) (borrowers s)).

Definition findByEmail (email : string) : io (option Borrower.t) :=
  query (fun s =>
           find (fun b => String.eqb (Borrower.email b) email) (borrowers s)).

Definition set_fields (u : UpdateData.t) (b : Borrower.t) : Borrower.t :=
  Borrower.mk (Borrower.id b)
              (BookRepository.or_else (UpdateData.name u) (Borrower.name b))
              (BookRepository.or_else (UpdateData.email u) (Borrower.email b))
              (BookRepository.or_else (UpdateData.registered_date u)
                                      (Borrower.registered_date b)).

Definition no_fields (u : UpdateData.t) : bool :=
  match UpdateData.name u, UpdateData.email u,
        UpdateData.registered_date u with
  | None, None, None => true
  | _, _, _ => false
  end.

Definition email_taken (id : Z) (u : UpdateData.t) (t : list Borrower.t)
  : bool :=
  match UpdateData.email u with
  | Some e => existsb (fun b => negb (has_id id b)
                                && String.eqb (Borrower.email b) e) t
  | None => false
  end.

(** UPDATE borrowers SET ... WHERE id = $n RETURNING * *)
Definition update (id : Z) (updateData : UpdateData.t)
  : io (option Borrower.t) :=
  if no_fields updateData then ret None
  else fun s =>
    match map (set_fields updateData) (filter (has_id id) (borrowers s)) with
    | [] => (Resolved None, s)
    | row :: _ =>
        if email_taken id updateData (borrowers s)
        then (Rejected (PgError "borrowers_email_key"), s)
        else (Resolved (Some row),
              set_borrowers s (map (fun b => if has_id id b
                                             then set_fields updateData b
                                             else b) (borrowers s)))
    end.

(** DELETE FROM borrowers WHERE id = $1; borrowings cascade. *)
Definition delete (id : Z) : io bool :=
  fun s =>
    let deleted := filter (has_id id) (borrowers s) in
    (Resolved (negb (Nat.eqb (List.length deleted) 0)),
     set_borrowings
       (set_borrowers s (filter (fun b => negb (has_id id b)) (borrowers s)))
       (cascade_borrowers deleted (borrowings s))).

(** SELECT ... FROM borrowings br JOIN books b ON br.book_id = b.id
    WHERE br.borrower_id = $1 AND br.return_date IS NULL
    ORDER BY br.checkout_date DESC *)
Definition getCurrentBooks (borrowerId : Z) : io (list CurrentBook.t) :=
  query (fun s =>
    order_by
      (fun x y => CurrentBook.checkout_date y <=? CurrentBook.checkout_date x)
      (flat_map
         (fun br =>
            map (fun b => CurrentBook.mk (Book.id b) (Book.title b)
                                         (Book.author b) (Book.isbn b)
                                         (Borrowing.id br)
                                         (Borrowing.checkout_date br)
                                         (Borrowing.due_date br))
                (filter (BookRepository.has_id (Borrowing.book_id br))
                        (books s)))
         (filter (fun br => (Borrowing.borrower_id br =? borrowerId)
                            && Borrowing.active br)
                 (borrowings s)))).

Definition emailExists (email : string) (excludeId : option Z) : io bool :=
  query (fun s =>
    let rows :=
      filter (fun b =>
                String.eqb (Borrower.email b) email
                && match excludeId with
                   | Some x => if x =? 0 then true else negb (has_id x b)
                   | None => true
                   end) (borrowers s) in
    negb (Nat.eqb (List.length rows) 0)).

End BorrowerRepository.

(** ** BorrowingDTO *)

(** A row of the query that joins a borrowing with its book and borrower:
    [br.*, b.title, b.author, b.isbn, brw.name, brw.email]. *)
Module BorrowingRow.
Record t : Type := mk {
  borrowing : Borrowing.t;
  title : string;
  author : string;
  isbn : string;
  borrower_name : string;
  borrower_email : string
}.
End BorrowingRow.

Module BorrowingDTO.

Module CheckoutRequest.
Record t : Type := mk {
  book_id : Z;
  borrower_id : Z;
  due_date : option Z
}.
End CheckoutRequest.

Module CheckoutData.
Record t : Type := mk {
  book_id : Z;
  borrower_id : Z;
  due_date : Z;
  checkout_date : Z
}.
End CheckoutData.

(** The body of POST /borrowings/return. *)
Module ReturnRequest.
Record t : Type := mk {
  borrowing_id : Z;
  return_date : option Z
}.
End ReturnRequest.

Module BookSummary.
Record t : Type := mk { title : string; author : string; isbn : string }.
End BookSummary.

Module BorrowerSummary.
Record t : Type := mk { name : string; email : string }.
End BorrowerSummary.

(** [{ ...row, book: {...}, borrower: {...} }] *)
Module BorrowingData.
Record t : Type := mk {
  row : BorrowingRow.t;
  book : option BookSummary.t;
  borrower : option BorrowerSummary.t
}.
End BorrowingData.

Module PublicBorrowing.
Record t : Type := mk {
  id : Z;
  book_id : Z;
  borrower_id : Z;
  checkout_date : Z;
  due_date : Z;
  return_date : option Z;
  book : option BookSummary.t;
  borrower : option BorrowerSummary.t
}.
End PublicBorrowing.

(** [{ ...publicBorrowing, is_overdue, days_overdue }] *)
Module DetailedBorrowing.
Record t : Type := mk {
  public : PublicBorrowing.t;
  is_overdue : bool;
  days_overdue : Z
}.
End DetailedBorrowing.

Definition toPublicBorrowing (borrowing : BorrowingData.t)
  : PublicBorrowing.t :=
  let r := BorrowingRow.borrowing (BorrowingData.row borrowing) in
  PublicBorrowing.mk (Borrowing.id r) (Borrowing.book_id r)
                     (Borrowing.borrower_id r) (Borrowing.checkout_date r)
                     (Borrowing.due_date r) (Borrowing.return_date r)
                     (BorrowingData.book borrowing)
                     (BorrowingData.borrower borrowing).

Definition fromCheckoutRequest (now : Z) (requestData : CheckoutRequest.t)
  : CheckoutData.t :=
  let calculatedDueDate :=
    match CheckoutRequest.due_date requestData with
    | Some due_date => due_date
    | None => today (now + 14 * 24 * 60 * 60 * 1000)
    end in
  CheckoutData.mk (CheckoutRequest.book_id requestData)
                  (CheckoutRequest.borrower_id requestData)
                  calculatedDueDate
                  (today now).

(** The request data is not read: the return date is always today. *)
Definition fromReturnRequest {A : Type} (now : Z) (requestData : A) : Z :=
  today now.

Definition toDetailedBorrowingResponse (now : Z)
           (borrowingData : BorrowingData.t) : DetailedBorrowing.t :=
  let borrowing := toPublicBorrowing borrowingData in
  let r := BorrowingRow.borrowing (BorrowingData.row borrowingData) in
  DetailedBorrowing.mk
    borrowing
    (Borrowing.active r && (new_Date (Borrowing.due_date r) <? now))
    (if Borrowing.active r
     then Z.max 0 (ceil_div (now - new_Date (Borrowing.due_date r))
                            (1000 * 60 * 60 * 24))
     else 0).

Definition validateCheckoutData (now : Z) (checkoutData : CheckoutData.t)
  : validation :=
  if CheckoutData.book_id checkoutData =? 0
  then Invalid "Valid book ID is required"
  else if CheckoutData.borrower_id checkoutData =? 0
  then Invalid "Valid borrower ID is required"
  else if new_Date (CheckoutData.due_date checkoutData) <=? now
  then Invalid "Due date must be in the future"
  else Valid.

(** The options of [BorrowingRepository.findAll]; [None] is an absent
    (undefined) property, which takes the default of the destructuring. *)
Module FindAllOptions.
Record t : Type := mk {
  borrower_id : option Z;
  book_id : option Z;
  status : option qvalue;
  page : option Z;
  limit : option Z;
  sortBy : option qvalue;
  sortOrder : option qvalue
}.
End FindAllOptions.

(** [totalPages] is [None] when [Math.ceil(total / limit)] is not a
    finite number (limit 0). *)
Module Pagination.
Record t : Type := mk {
  page : Z;
  limit : Z;
  total : Z;
  totalPages : option Z
}.
End Pagination.

(** The query string of a list request, as Express hands it over
    ([req.query], not validated).  A numeric parameter carries what
    [parseInt] returns for it, also for the array or object of a
    repeated or bracketed parameter: [None] when the parameter is absent,
    empty or not a number.  The other parameters are strings, or arrays
    or objects. *)
Module SearchQuery.
Record t : Type := mk {
  borrower_id : option Z;
  book_id : option Z;
  status : option qvalue;
  page : option Z;
  limit : option Z;
  sortBy : option qvalue;
  sortOrder : option qvalue
}.
End SearchQuery.

(** The default of a destructuring, taken when the property is
    undefined. *)
Definition default_to (o : option qvalue) (d : string) : qvalue :=
  match o with
  | Some v => v
  | None => QString d
  end.

(** [sortOrder?.toUpperCase()] of an array or object: the property is
    undefined, and calling it throws a TypeError. *)
Definition fromSearchQuery (queryParams : SearchQuery.t)
  : outcome FindAllOptions.t :=
  let status := default_to (SearchQuery.status queryParams) "all" in
  let sortBy := default_to (SearchQuery.sortBy queryParams) "checkout_date" in
  let sortOrder := default_to (SearchQuery.sortOrder queryParams) "DESC" in
  match sortOrder with
  | QOther => Rejected (Error "sortOrder?.toUpperCase is not a function")
  | QString sortOrder =>
      Resolved
        (FindAllOptions.mk
           (SearchQuery.borrower_id queryParams)
           (SearchQuery.book_id queryParams)
           (Some (QString
                    (qone_of ["all"; "active"; "returned"; "overdue"]%string
                             status "all")))
           (Some (Z.max 1 (js_or_undef (SearchQuery.page queryParams) 1)))
           (Some (Z.min 100
                        (Z.max 1 (js_or_undef (SearchQuery.limit queryParams)
                                              10))))
           (Some (QString
                    (qone_of ["checkout_date"; "due_date";
                              "return_date"]%string
                             sortBy "checkout_date")))
           (Some (QString
                    (if includes ["ASC"; "DESC"]%string (toUpperCase sortOrder)
                     then toUpperCase sortOrder else "DESC"%string))))
  end.

Definition toBorrowingsListResponse (borrowings : list BorrowingData.t)
           (pagination : Pagination.t)
  : list PublicBorrowing.t * Pagination.t :=
  (map toPublicBorrowing borrowings, pagination).

End BorrowingDTO.

(** ** BorrowingRepository *)

Module BorrowingRepository.
Import BorrowingDTO.

Definition has_id (id : Z) (r : Borrowing.t) : bool := Borrowing.id r =? id.

(** SELECT br.*, b.title, b.author, b.isbn, brw.name, brw.email
    FROM borrowings br JOIN books b ON br.book_id = b.id
    JOIN borrowers brw ON br.borrower_id = brw.id WHERE [wher] *)
Definition select_details (wher : Borrowing.t -> bool) (s : db)
  : list BorrowingRow.t :=
  flat_map
    (fun br =>
       flat_map
         (fun b =>
            map (fun brw => BorrowingRow.mk br (Book.title b) (Book.author b)
                                            (Book.isbn b) (Borrower.name brw)
                                            (Borrower.email brw))
                (filter (BorrowerRepository.has_id (Borrowing.borrower_id br))
                        (borrowers s)))
         (filter (BookRepository.has_id (Borrowing.book_id br)) (books s)))
    (filter wher (borrowings s)).

(** INSERT INTO borrowings (book_id, borrower_id, checkout_date, due_date)
    VALUES ($1, $2, $3, $4) RETURNING * *)
Definition insert_into_borrowings
           (book_id borrower_id checkout_date due_date : Z)
  : io Borrowing.t :=
  fun s =>
    let row := Borrowing.mk (borrowings_id_seq s) book_id borrower_id
                            checkout_date due_date None in
    match borrowings_check row with
    | Some c => (Rejected (PgError c), s)
    | None =>
        if negb (existsb (BookRepository.has_id book_id) (books s))
        then (Rejected (PgError "borrowings_book_id_fkey"), s)
        else if negb (existsb (BorrowerRepository.has_id borrower_id)
                              (borrowers s))
        then (Rejected (PgError "borrowings_borrower_id_fkey"), s)
        else (Resolved row, insert_borrowing s row)
    end.

(** UPDATE borrowings SET ... WHERE id = $1 RETURNING * *)
Definition update_borrowings (id : Z) (set : Borrowing.t -> Borrowing.t)
  : io (option Borrowing.t) :=
  fun s =>
    let updated := map set (filter (has_id id) (borrowings s)) in
    match first_violation borrowings_check updated with
    | Some c => (Rejected (PgError c), s)
    | None => (Resolved (hd_error updated),
               set_borrowings s (map (fun r => if has_id id r then set r else r)
                                     (borrowings s)))
    end.

Definition set_return_date (returnDate : Z) (r : Borrowing.t) : Borrowing.t :=
  Borrowing.mk (Borrowing.id r) (Borrowing.book_id r) (Borrowing.borrower_id r)
               (Borrowing.checkout_date r) (Borrowing.due_date r)
               (Some returnDate).

(** The columns of the borrowings table, as the migration
    20241221_120200_create_borrowings_table creates it; no migration
    alters the table afterwards. *)
Definition borrowings_columns : list string :=
  ["id"; "book_id"; "borrower_id"; "checkout_date"; "due_date";
   "return_date"; "is_returned"; "created_at"; "updated_at"]%string.

(** The first target of a SET list that is not a column of the table. *)
Definition undefined_column (targets : list string) : option string :=
  find (fun c => negb (includes borrowings_columns c)) targets.

(** SQLSTATE 42703: PostgreSQL rejects a statement that names a column
    the table does not have, before it touches a row. *)
Definition column_does_not_exist (column : string) : exn :=
  PgError (String.append "42703 undefined column " column).

(** SET due_date = $2, the one assignment of the extension whose target
    is a column of the table. *)
Definition set_due_date (newDueDate : Z) (r : Borrowing.t) : Borrowing.t :=
  Borrowing.mk (Borrowing.id r) (Borrowing.book_id r) (Borrowing.borrower_id r)
               (Borrowing.checkout_date r) newDueDate
               (Borrowing.return_date r).

(** SELECT * FROM borrowings WHERE id = $1 AND return_date IS NULL
    FOR UPDATE, [rows[0]] *)
Definition select_active_for_update (borrowingId : Z)
  : io (option Borrowing.t) :=
  query (fun s => find (fun r => has_id borrowingId r && Borrowing.active r)
                       (borrowings s)).

Definition create (d : CheckoutData.t) : io (option BorrowingRow.t) :=
  let book_id := CheckoutData.book_id d in
  let borrower_id := CheckoutData.borrower_id d in
  borrowingResult <-
    transaction
      (bookCheck <- query (fun s => find (BookRepository.has_id book_id)
                                         (books s)) ;;
       match bookCheck with
       | None => throw (Error "Book is not available for checkout")
       | Some b =>
           if Book.available_quantity b <=? 0
           then throw (Error "Book is not available for checkout")
           else
             borrowerCheck <-
               query (fun s => find (BorrowerRepository.has_id borrower_id)
                                    (borrowers s)) ;;
             match borrowerCheck with
             | None => throw (Error "Borrower not found")
             | Some _ =>
                 borrowingResult <-
                   insert_into_borrowings book_id borrower_id
                                          (CheckoutData.checkout_date d)
                                          (CheckoutData.due_date d) ;;
                 (BookRepository.add_available
                    (BookRepository.has_id book_id) (-1) ;;
                  ret borrowingResult)
             end
       end) ;;
  detailsResult <-
    query (select_details (has_id (Borrowing.id borrowingResult))) ;;
  ret (hd_error detailsResult).

Definition findById (id : Z) : io (option BorrowingRow.t) :=
  query (fun s => hd_error (select_details (has_id id) s)).

Definition returnBook (borrowingId returnDate : Z)
  : io (option BorrowingRow.t) :=
  transaction
    (borrowingResult <- select_active_for_update borrowingId ;;
     match borrowingResult with
     | None => throw (Error "Active borrowing not found")
     | Some borrowing =>
         update_borrowings borrowingId (set_return_date returnDate) ;;
         (BookRepository.add_available
            (BookRepository.has_id (Borrowing.book_id borrowing)) 1 ;;
          ret tt)
     end) ;;
  (detailsResult <- query (select_details (has_id borrowingId)) ;;
   ret (hd_error detailsResult)).

(** The overdue rows with [CURRENT_DATE - br.due_date as days_overdue],
    ORDER BY br.due_date ASC. *)
Definition findOverdue (now : Z) : io (list (BorrowingRow.t * Z)) :=
  query (fun s =>
    order_by
      (fun x y => Borrowing.due_date (BorrowingRow.borrowing (fst x))
                  <=? Borrowing.due_date (BorrowingRow.borrowing (fst y)))
      (map (fun row =>
              (row, today now - Borrowing.due_date (BorrowingRow.borrowing row)))
           (select_details
              (fun br => Borrowing.active br
                         && (Borrowing.due_date br <? today now)) s))).

Definition hasActiveBorrowing (borrowerId bookId : Z) : io bool :=
  query (fun s =>
    negb (Nat.eqb
            (List.length
               (filter (fun r => (Borrowing.borrower_id r =? borrowerId)
                                 && (Borrowing.book_id r =? bookId)
                                 && Borrowing.active r) (borrowings s)))
            0)).

Definition hasActiveBookBorrowings (bookId : Z) : io bool :=
  query (fun s =>
    negb (Nat.eqb
            (List.length
               (filter (fun r => (Borrowing.book_id r =? bookId)
                                 && Borrowing.active r) (borrowings s)))
            0)).

(** The UPDATE of the extension is
    UPDATE borrowings SET due_date = $2,
      extension_count = COALESCE(extension_count, 0) + 1,
      extension_reason = $3, updated_at = CURRENT_TIMESTAMP
    WHERE id = $1 RETURNING *.
    Its SET list is resolved against the table first; the borrowings
    table has no column extension_count or extension_reason, so the
    statement is rejected and the transaction rolled back. *)
Definition extendDueDate (borrowingId newDueDate : Z)
           (extensionReason : option string) : io (option BorrowingRow.t) :=
  transaction
    (borrowingResult <- select_active_for_update borrowingId ;;
     match borrowingResult with
     | None => throw (Error "Active borrowing not found")
     | Some currentBorrowing =>
         match undefined_column ["due_date"; "extension_count";
                                 "extension_reason"; "updated_at"]%string with
         | Some column => throw (column_does_not_exist column)
         | None => update_borrowings borrowingId (set_due_date newDueDate)
         end
     end) ;;
  (detailsResult <- query (select_details (has_id borrowingId)) ;;
   ret (hd_error detailsResult)).

(** The WHERE clause of [findAll]: a filter is added for a truthy
    borrower_id, a truthy book_id and the status active, returned or
    overdue. *)
Definition where_clause (now : Z) (borrower_id book_id : option Z)
           (status : qvalue) (br : Borrowing.t) : bool :=
  match borrower_id with
  | Some i => if i =? 0 then true else Borrowing.borrower_id br =? i
  | None => true
  end
  && match book_id with
     | Some i => if i =? 0 then true else Borrowing.book_id br =? i
     | None => true
     end
  && (if qeqb status "active" then Borrowing.active br
      else if qeqb status "returned" then negb (Borrowing.active br)
      else if qeqb status "overdue"
      then Borrowing.active br && (Borrowing.due_date br <? today now)
      else true).

(** The column [safeSortBy] of a row; NULL is [None]. *)
Definition sort_key (safeSortBy : string) (row : BorrowingRow.t) : option Z :=
  let br := BorrowingRow.borrowing row in
  if String.eqb safeSortBy "due_date" then Some (Borrowing.due_date br)
  else if String.eqb safeSortBy "return_date" then Borrowing.return_date br
  else Some (Borrowing.checkout_date br).

(** PostgreSQL sorts NULL as larger than every value (last when
    ascending, first when descending). *)
Definition key_le (a b : option Z) : bool :=
  match a, b with
  | Some x, Some y => x <=? y
  | _, None => true
  | None, Some _ => false
  end.

(** LIMIT and OFFSET are bigint parameters, and a parameter compared
    with an INTEGER column is an integer: a value outside the range is
    rejected when it is bound, before the query runs. *)
Definition int8 (n : Z) : bool := (- 2 ^ 63 <=? n) && (n <? 2 ^ 63).

Definition int4 (n : Z) : bool := (- 2 ^ 31 <=? n) && (n <? 2 ^ 31).

(** The parameter of a filter of [findAll], bound when it is truthy. *)
Definition filter_param (id : option Z) : bool :=
  match id with
  | Some i => (i =? 0) || int4 i
  | None => true
  end.

(** ORDER BY [safeSortBy] [safeSortOrder]: rows with equal keys keep the
    order of the insertion sort, one of the orders SQL allows. *)
Definition sort_le (safeSortBy safeSortOrder : string)
           (x y : BorrowingRow.t) : bool :=
  if String.eqb safeSortOrder "ASC"
  then key_le (sort_key safeSortBy x) (sort_key safeSortBy y)
  else key_le (sort_key safeSortBy y) (sort_key safeSortBy x).

(** The page of the join and the count of the matching borrowings.
    [sortOrder.toUpperCase()] of an array or object throws a TypeError
    before any query is sent.  PostgreSQL rejects a negative OFFSET or
    LIMIT when the query starts, the OFFSET first; the count query has
    neither. *)
Definition findAll (now : Z) (options : FindAllOptions.t)
  : io (list BorrowingRow.t * Pagination.t) :=
  let status := default_to (FindAllOptions.status options) "all" in
  let page := BookRepository.or_else (FindAllOptions.page options) 1 in
  let limit := BookRepository.or_else (FindAllOptions.limit options) 10 in
  let sortBy := default_to (FindAllOptions.sortBy options) "checkout_date" in
  let sortOrder := default_to (FindAllOptions.sortOrder options) "DESC" in
  let offset := (page - 1) * limit in
  let wher := where_clause now (FindAllOptions.borrower_id options)
                           (FindAllOptions.book_id options) status in
  let safeSortBy :=
    qone_of ["checkout_date"; "due_date"; "return_date"]%string
            sortBy "checkout_date" in
  match sortOrder with
  | QOther => throw (Error "sortOrder.toUpperCase is not a function")
  | QString sortOrder =>
  let safeSortOrder :=
    if includes ["ASC"; "DESC"]%string (toUpperCase sortOrder)
    then toUpperCase sortOrder else "DESC"%string in
  fun s =>
    if negb (filter_param (FindAllOptions.borrower_id options)
             && filter_param (FindAllOptions.book_id options)
             && int8 limit && int8 offset)
    then (Rejected (PgError "value out of range"), s)
    else if offset <? 0
    then (Rejected (PgError "OFFSET must not be negative"), s)
    else if limit <? 0
    then (Rejected (PgError "LIMIT must not be negative"), s)
    else
      let result :=
        firstn (Z.to_nat limit)
               (skipn (Z.to_nat offset)
                      (order_by (sort_le safeSortBy safeSortOrder)
                                (select_details wher s))) in
      let total := Z.of_nat (List.length (filter wher (borrowings s))) in
      (Resolved (result,
                 Pagination.mk page limit total
                               (if limit =? 0 then None
                                else Some (ceil_div total limit))),
       s)
  end.

(** The row of [getStatistics]. *)
Module Statistics.
Record t : Type := mk {
  total_borrowings : Z;
  returned_books : Z;
  active_borrowings : Z;
  overdue_books : Z
}.
End Statistics.

(** The four COUNT columns over the borrowings
    WHERE checkout_date BETWEEN $1 AND $2. *)
Definition getStatistics (now startDate endDate : Z) : io Statistics.t :=
  query (fun s =>
    let rows :=
      filter (fun r => (startDate <=? Borrowing.checkout_date r)
                       && (Borrowing.checkout_date r <=? endDate))
             (borrowings s) in
    let count (p : Borrowing.t -> bool) :=
      Z.of_nat (List.length (filter p rows)) in
    Statistics.mk
      (Z.of_nat (List.length rows))
      (count (fun r => negb (Borrowing.active r)))
      (count Borrowing.active)
      (count (fun r => Borrowing.active r
                       && (Borrowing.due_date r <? today now)))).

End BorrowingRepository.

(** ** BookService *)

Module BookService.
Import BookDTO.

Definition createBook (bookData : CreateRequest.t) : io Book.t :=
  let sanitizedData := fromCreateRequest bookData in
  match validateQuantities (BookData.available_quantity sanitizedData)
                           (BookData.total_quantity sanitizedData) with
  | Invalid message => throw (Error message)
  | Valid =>
      existingBook <- BookRepository.findByISBN (BookData.isbn sanitizedData) ;;
      match existingBook with
      | Some _ => throw (Error "Book with this ISBN already exists")
      | None => BookRepository.create sanitizedData
      end
  end.

(** [{ ...existingBook, ...sanitizedData }], the two quantities. *)
Definition finalData (existingBook : Book.t) (sanitizedData : UpdateData.t)
  : Z * Z :=
  (BookRepository.or_else (UpdateData.available_quantity sanitizedData)
                          (Book.available_quantity existingBook),
   BookRepository.or_else (UpdateData.total_quantity sanitizedData)
                          (Book.total_quantity existingBook)).

Definition isbn_changes (sanitizedData : UpdateData.t) (existingBook : Book.t)
  : option string :=
  match UpdateData.isbn sanitizedData with
  | Some isbn => if truthy isbn && negb (String.eqb isbn (Book.isbn existingBook))
                 then Some isbn else None
  | None => None
  end.

Definition updateBook (bookId : Z) (updateData : UpdateData.t)
  : io (option Book.t) :=
  let sanitizedData := fromUpdateRequest updateData in
  existingBook <- BookRepository.findById bookId ;;
  match existingBook with
  | None => throw (Error "Book not found")
  | Some existingBook =>
      isbnExists <-
        match isbn_changes sanitizedData existingBook with
        | Some isbn => BookRepository.isbnExists isbn (Some bookId)
        | None => ret false
        end ;;
      if isbnExists : bool
      then throw (Error "Book with this ISBN already exists")
      else
        match validateQuantities (fst (finalData existingBook sanitizedData))
                                 (snd (finalData existingBook sanitizedData))
        with
        | Invalid message => throw (Error message)
        | Valid => BookRepository.update bookId sanitizedData
        end
  end.

Definition deleteBook (bookId : Z) : io bool :=
  book <- BookRepository.findById bookId ;;
  match book with
  | None => throw (Error "Book not found")
  | Some _ =>
      hasActiveBorrowings <- BorrowingRepository.hasActiveBookBorrowings bookId ;;
      if hasActiveBorrowings : bool
      then throw (Error "Cannot delete book with active borrowings")
      else
        deleted <- BookRepository.delete bookId ;;
        if deleted : bool then ret true
        else throw (Error "Failed to delete book")
  end.

Definition deleteBookByISBN (isbn : string) : io bool :=
  book <- BookRepository.findByISBN isbn ;;
  match book with
  | None => throw (Error "Book not found")
  | Some book =>
      hasActiveBorrowings <-
        BorrowingRepository.hasActiveBookBorrowings (Book.id book) ;;
      if hasActiveBorrowings : bool
      then throw (Error "Cannot delete book with active borrowings")
      else
        deleted <- BookRepository.deleteByISBN isbn ;;
        if deleted : bool then ret true
        else throw (Error "Failed to delete book")
  end.

Definition updateBookAvailability (bookId quantityChange : Z) : io Book.t :=
  updatedBook <- BookRepository.updateAvailability bookId quantityChange ;;
  match updatedBook with
  | None =>
      throw (Error "Failed to update book availability or insufficient quantity")
  | Some updatedBook => ret updatedBook
  end.

(** [threshold = 2] when the argument is undefined. *)
Definition getLowAvailabilityBooks (title_le : string -> string -> bool)
           (threshold : option Z) : io (list Book.t) :=
  BookRepository.findLowAvailability title_le
                                     (BookRepository.or_else threshold 2).

Definition isBookAvailable (bookId : Z) : io bool :=
  book <- BookRepository.findById bookId ;;
  match book with
  | None => throw (Error "Book not found")
  | Some book => ret (Book.available_quantity book >? 0)
  end.

End BookService.

(** ** BorrowerService *)

Module BorrowerService.
Import BorrowerDTO.

Definition createBorrower (now : Z) (borrowerData : CreateRequest.t)
  : io Borrower.t :=
  let sanitizedData := fromCreateRequest now borrowerData in
  match validateEmail (BorrowerData.email sanitizedData) with
  | Invalid message => throw (Error message)
  | Valid =>
      existingBorrower <-
        BorrowerRepository.findByEmail (BorrowerData.email sanitizedData) ;;
      match existingBorrower with
      | Some _ => throw (Error "Borrower with this email already exists")
      | None => BorrowerRepository.create sanitizedData
      end
  end.

Definition updateBorrower (borrowerId : Z) (updateData : UpdateData.t)
  : io (option Borrower.t) :=
  let sanitizedData := fromUpdateRequest updateData in
  existingBorrower <- BorrowerRepository.findById borrowerId ;;
  match existingBorrower with
  | None => throw (Error "Borrower not found")
  | Some existingBorrower =>
      let email :=
        match UpdateData.email sanitizedData with
        | Some e => if truthy e then Some e else None
        | None => None
        end in
      match email with
      | None => BorrowerRepository.update borrowerId sanitizedData
      | Some email =>
          match validateEmail email with
          | Invalid message => throw (Error message)
          | Valid =>
              emailExists <-
                (if negb (String.eqb email (Borrower.email existingBorrower))
                 then BorrowerRepository.emailExists email (Some borrowerId)
                 else ret false) ;;
              if emailExists : bool
              then throw (Error "Borrower with this email already exists")
              else BorrowerRepository.update borrowerId sanitizedData
          end
      end
  end.

Definition deleteBorrower (borrowerId : Z) : io bool :=
  borrower <- BorrowerRepository.findById borrowerId ;;
  match borrower with
  | None => throw (Error "Borrower not found")
  | Some _ =>
      currentBooks <- BorrowerRepository.getCurrentBooks borrowerId ;;
      if negb (Nat.eqb (List.length currentBooks) 0)
      then throw (Error "Cannot delete borrower with active borrowings")
      else
        deleted <- BorrowerRepository.delete borrowerId ;;
        if deleted : bool then ret true
        else throw (Error "Failed to delete borrower")
  end.

End BorrowerService.

(** ** BorrowingService *)

Module BorrowingService.
Import BorrowingDTO.

(** [{ ...borrowing, book: { title, author, isbn },
      borrower: { name, email } }] *)
Definition with_summaries (borrowing : BorrowingRow.t) : BorrowingData.t :=
  BorrowingData.mk
    borrowing
    (Some (BookSummary.mk (BorrowingRow.title borrowing)
                          (BorrowingRow.author borrowing)
                          (BorrowingRow.isbn borrowing)))
    (Some (BorrowerSummary.mk (BorrowingRow.borrower_name borrowing)
                              (BorrowingRow.borrower_email borrowing))).

(** Reading a property of [undefined], when a details query has no row. *)
Definition TypeError : exn :=
  Error "Cannot read properties of undefined".

Definition respond (now : Z) (borrowing : option BorrowingRow.t)
  : io DetailedBorrowing.t :=
  match borrowing with
  | Some borrowing =>
      ret (toDetailedBorrowingResponse now (with_summaries borrowing))
  | None => throw TypeError
  end.

Definition checkoutBook (now : Z) (checkoutData : CheckoutRequest.t)
  : io DetailedBorrowing.t :=
  let sanitizedData := fromCheckoutRequest now checkoutData in
  match validateCheckoutData now sanitizedData with
  | Invalid message => throw (Error message)
  | Valid =>
      book <- BookRepository.findById (CheckoutData.book_id sanitizedData) ;;
      match book with
      | None => throw (Error "Book not found")
      | Some book =>
          if Book.available_quantity book <=? 0
          then throw (Error "Book is not available for checkout")
          else
            borrower <-
              BorrowerRepository.findById
                (CheckoutData.borrower_id sanitizedData) ;;
            match borrower with
            | None => throw (Error "Borrower not found")
            | Some _ =>
                hasActiveBorrowing <-
                  BorrowingRepository.hasActiveBorrowing
                    (CheckoutData.borrower_id sanitizedData)
                    (CheckoutData.book_id sanitizedData) ;;
                if hasActiveBorrowing : bool
                then throw (Error "Borrower already has this book checked out")
                else
                  borrowing <- BorrowingRepository.create sanitizedData ;;
                  respond now borrowing
            end
      end
  end.

Definition returnBook (now : Z) (borrowingId : Z) : io DetailedBorrowing.t :=
  let returnData := fromReturnRequest now tt in
  borrowing <- BorrowingRepository.findById borrowingId ;;
  match borrowing with
  | None => throw (Error "Borrowing not found")
  | Some borrowing =>
      match Borrowing.return_date (BorrowingRow.borrowing borrowing) with
      | Some _ => throw (Error "Book has already been returned")
      | None =>
          updatedBorrowing <-
            BorrowingRepository.returnBook borrowingId returnData ;;
          respond now updatedBorrowing
      end
  end.

Definition getBorrowingById (now : Z) (borrowingId : Z)
  : io DetailedBorrowing.t :=
  borrowing <- BorrowingRepository.findById borrowingId ;;
  match borrowing with
  | None => throw (Error "Borrowing not found")
  | Some borrowing =>
      ret (toDetailedBorrowingResponse now (with_summaries borrowing))
  end.

(** [toOverdueBorrowingsResponse]: the detailed rows and their number. *)
Definition getOverdueBorrowings (now : Z)
  : io (list DetailedBorrowing.t * nat) :=
  overdueBorrowings <- BorrowingRepository.findOverdue now ;;
  ret (map (fun borrowing =>
              toDetailedBorrowingResponse now (with_summaries (fst borrowing)))
           overdueBorrowings,
       List.length overdueBorrowings).

(** [newDueDate] is [None] when [new Date(newDueDate)] is an invalid
    date. *)
Definition extendDueDate (now : Z) (borrowingId : Z) (newDueDate : option Z)
           (extensionReason : option string) : io DetailedBorrowing.t :=
  match newDueDate with
  | None => throw (Error "Invalid due date format")
  | Some newDueDate =>
      if new_Date newDueDate <=? now
      then throw (Error "New due date must be in the future")
      else
        updatedBorrowing <-
          BorrowingRepository.extendDueDate borrowingId newDueDate
                                            extensionReason ;;
        respond now updatedBorrowing
  end.

(** [{ isValid, message }] of a checkout that has not been attempted. *)
Definition validateCheckout (bookId borrowerId : Z) : io validation :=
  book <- BookRepository.findById bookId ;;
  match book with
  | None => ret (Invalid "Book not found")
  | Some book =>
      if Book.available_quantity book <=? 0
      then ret (Invalid "Book is not available for checkout")
      else
        borrower <- BorrowerRepository.findById borrowerId ;;
        match borrower with
        | None => ret (Invalid "Borrower not found")
        | Some _ =>
            hasActiveBorrowing <-
              BorrowingRepository.hasActiveBorrowing borrowerId bookId ;;
            if hasActiveBorrowing : bool
            then ret (Invalid "Borrower already has this book checked out")
            else ret Valid
        end
  end.

Definition getAllBorrowings (now : Z) (queryParams : SearchQuery.t)
  : io (list PublicBorrowing.t * Pagination.t) :=
  match fromSearchQuery queryParams with
  | Rejected typeError => throw typeError
  | Resolved searchOptions =>
      result <- BorrowingRepository.findAll now searchOptions ;;
      let transformedBorrowings := map with_summaries (fst result) in
      ret (toBorrowingsListResponse transformedBorrowings (snd result))
  end.

(** The options that [getBorrowingsByBorrower] and [getBorrowingsByBook]
    build from the query string: page and limit are not clamped from
    below. *)
Definition list_options (borrower_id book_id : option Z)
           (queryParams : SearchQuery.t) : FindAllOptions.t :=
  FindAllOptions.mk
    borrower_id
    book_id
    (Some (match SearchQuery.status queryParams with
           | Some status => if qtruthy status then status else QString "all"
           | None => QString "all"
           end))
    (Some (js_or_undef (SearchQuery.page queryParams) 1))
    (Some (Z.min (js_or_undef (SearchQuery.limit queryParams) 10) 50))
    (Some (match SearchQuery.sortBy queryParams with
           | Some sortBy => if qtruthy sortBy then sortBy
                            else QString "checkout_date"
           | None => QString "checkout_date"
           end))
    (Some (match SearchQuery.sortOrder queryParams with
           | Some sortOrder => if qtruthy sortOrder then sortOrder
                               else QString "DESC"
           | None => QString "DESC"
           end)).

Definition getBorrowingsByBorrower (now : Z) (borrowerId : Z)
           (queryParams : SearchQuery.t)
  : io (list DetailedBorrowing.t * Pagination.t) :=
  borrower <- BorrowerRepository.findById borrowerId ;;
  match borrower with
  | None => throw (Error "Borrower not found")
  | Some _ =>
      let options := list_options (Some borrowerId) None queryParams in
      result <- BorrowingRepository.findAll now options ;;
      ret (map (fun borrowing =>
                  toDetailedBorrowingResponse now (with_summaries borrowing))
               (fst result),
           snd result)
  end.

Definition getBorrowingsByBook (now : Z) (bookId : Z)
           (queryParams : SearchQuery.t)
  : io (list DetailedBorrowing.t * Pagination.t) :=
  book <- BookRepository.findById bookId ;;
  match book with
  | None => throw (Error "Book not found")
  | Some _ =>
      let options := list_options None (Some bookId) queryParams in
      result <- BorrowingRepository.findAll now options ;;
      ret (map (fun borrowing =>
                  toDetailedBorrowingResponse now (with_summaries borrowing))
               (fst result),
           snd result)
  end.

(** [{ period: { start_date, end_date }, statistics }] *)
Definition getBorrowingStatistics (now startDate endDate : Z)
  : io (Z * Z * BorrowingRepository.Statistics.t) :=
  stats <- BorrowingRepository.getStatistics now startDate endDate ;;
  ret (startDate, endDate, stats).

End BorrowingService.

(** ** BorrowingController *)

Module BorrowingController.
Import BorrowingDTO.

(** [const { borrowing_id } = req.body]: only the id reaches the
    service. *)
Definition returnBook (now : Z) (body : ReturnRequest.t)
  : io DetailedBorrowing.t :=
  let borrowing_id := ReturnRequest.borrowing_id body in
  BorrowingService.returnBook now borrowing_id.

End BorrowingController.

(** ** AnalyticsService *)

Module AnalyticsService.
Import BorrowingDTO.

(** An element of [overdue_details]. *)
Module OverdueDetail.
Record t : Type := mk {
  borrowing_id : Z;
  book : BookSummary.t;
  borrower : BorrowerSummary.t;
  checkout_date : Z;
  due_date : Z;
  days_overdue : Z
}.
End OverdueDetail.

(** [{ period, borrowing_statistics, overdue_details }] *)
Definition getBorrowingAnalytics (now startDate endDate : Z)
  : io (Z * Z * BorrowingRepository.Statistics.t * list OverdueDetail.t) :=
  stats <- BorrowingRepository.getStatistics now startDate endDate ;;
  overdueBorrowings <- BorrowingRepository.findOverdue now ;;
  ret (startDate, endDate, stats,
       map (fun borrowing =>
              let row := fst borrowing in
              OverdueDetail.mk
                (Borrowing.id (BorrowingRow.borrowing row))
                (BookSummary.mk (BorrowingRow.title row)
                                (BorrowingRow.author row)
                                (BorrowingRow.isbn row))
                (BorrowerSummary.mk (BorrowingRow.borrower_name row)
                                    (BorrowingRow.borrower_email row))
                (Borrowing.checkout_date (BorrowingRow.borrowing row))
                (Borrowing.due_date (BorrowingRow.borrowing row))
                (snd borrowing))
           overdueBorrowings).

End AnalyticsService.

(** ** Requests and traces *)

(** The state-changing calls of the three services. *)
Inductive request : Type :=
| CreateBook (bookData : BookDTO.CreateRequest.t)
| UpdateBook (bookId : Z) (updateData : BookDTO.UpdateData.t)
| DeleteBook (bookId : Z)
| DeleteBookByISBN (isbn : string)
| UpdateBookAvailability (bookId quantityChange : Z)
| CreateBorrower (borrowerData : BorrowerDTO.CreateRequest.t)
| UpdateBorrower (borrowerId : Z) (updateData : BorrowerDTO.UpdateData.t)
| DeleteBorrower (borrowerId : Z)
| Checkout (checkoutData : BorrowingDTO.CheckoutRequest.t)
| Return (body : BorrowingDTO.ReturnRequest.t)
| ExtendDueDate (borrowingId : Z) (newDueDate : option Z)
                (extensionReason : option string).

(** The database after a request served at instant [now]. *)
Definition serve (now : Z) (r : request) (s : db) : db :=
  match r with
  | CreateBook d => snd (BookService.createBook d s)
  | UpdateBook i d => snd (BookService.updateBook i d s)
  | DeleteBook i => snd (BookService.deleteBook i s)
  | DeleteBookByISBN i => snd (BookService.deleteBookByISBN i s)
  | UpdateBookAvailability i q => snd (BookService.updateBookAvailability i q s)
  | CreateBorrower d => snd (BorrowerService.createBorrower now d s)
  | UpdateBorrower i d => snd (BorrowerService.updateBorrower i d s)
  | DeleteBorrower i => snd (BorrowerService.deleteBorrower i s)
  | Checkout d => snd (BorrowingService.checkoutBook now d s)
  | Return b => snd (BorrowingController.returnBook now b s)
  | ExtendDueDate i d r => snd (BorrowingService.extendDueDate now i d r s)
  end.

(** A trace is a sequence of requests, each with the instant it is served. *)
Fixpoint run (trace : list (Z * request)) (s : db) : db :=
  match trace with
  | [] => s
  | (now, r) :: rest => run rest (serve now r s)
  end.

(** The transactions of the borrowings repository, the steps that
    concurrent checkout and return requests interleave. *)
Inductive ledger_tx : Type :=
| TxCreate (d : BorrowingDTO.CheckoutData.t)
| TxReturnBook (borrowingId returnDate : Z).

Definition commit (t : ledger_tx) (s : db) : db :=
  match t with
  | TxCreate d => snd (BorrowingRepository.create d s)
  | TxReturnBook i d => snd (BorrowingRepository.returnBook i d s)
  end.

Definition interleaving (txs : list ledger_tx) (s : db) : db :=
  fold_left (fun s t => commit t s) txs s.

(** ** Error kinds

    The taxonomy of the specification (NotFound, Unavailable, Conflict,
    InvalidInput; anything else is an internal failure) read over the
    messages the services and repositories throw. *)

Inductive kind : Type :=
| NotFound
| Unavailable
| Conflict
| InvalidInput
| Internal.

Definition one_of (m : string) (l : list string) : bool :=
  existsb (String.eqb m) l.

Definition error_kind (e : exn) : kind :=
  match e with
  | PgError _ => Internal
  | Error m =>
      if one_of m ["Book not found"; "Borrower not found";
                   "Borrowing not found"; "Active borrowing not found"]%string
      then NotFound
      else if one_of m ["Book is not available for checkout"]%string
      then Unavailable
      else if one_of m ["Borrower already has this book checked out";
                        "Book has already been returned";
                        "Cannot delete book with active borrowings";
                        "Cannot delete borrower with active borrowings";
                        "Book with this ISBN already exists";
                        "Borrower with this email already exists"]%string
      then Conflict
      else if one_of m ["Valid book ID is required";
                        "Valid borrower ID is required";
                        "Due date must be in the future";
                        "Invalid due date format";
                        "New due date must be in the future"]%string
      then InvalidInput
      else Internal
  end.

(** ** Schema invariants and ledger measures *)

(** The number of active borrowings that reference a book. *)
Definition active_count (bookId : Z) (s : db) : Z :=
  Z.of_nat (List.length
              (filter (fun r => (Borrowing.book_id r =? bookId)
                                && Borrowing.active r) (borrowings s))).

(** available_quantity = total_quantity - active borrowings, for every
    book. *)
Definition ledger_consistent (s : db) : Prop :=
  forall b, In b (books s) ->
    Book.available_quantity b
    = Book.total_quantity b - active_count (Book.id b) s.

(** From [s] to [s'] the books table keeps its books, in order, each
    with its id and total_quantity and with the same sum of
    available_quantity and active borrowings: for each book the ledger
    equation holds in [s'] exactly when it held in [s]. *)
Definition ledger_kept (s s' : db) : Prop :=
  Forall2
    (fun b b' =>
       Book.id b' = Book.id b
       /\ Book.total_quantity b' = Book.total_quantity b
       /\ Book.available_quantity b' + active_count (Book.id b') s'
          = Book.available_quantity b + active_count (Book.id b) s)
    (books s) (books s').

(** What the schema guarantees of every database state: primary keys drawn
    from the sequences, foreign keys, CHECK constraints.  [closed] is a set
    of borrowing ids known to be issued and no longer active. *)
Record db_inv (closed : Z -> Prop) (s : db) : Prop := {
  books_pkey : NoDup (map Book.id (books s));
  borrowers_pkey : NoDup (map Borrower.id (borrowers s));
  borrowings_pkey : NoDup (map Borrowing.id (borrowings s));
  books_serial : forall b, In b (books s) -> Book.id b < books_id_seq s;
  borrowers_serial :
    forall b, In b (borrowers s) -> Borrower.id b < borrowers_id_seq s;
  borrowings_serial :
    forall r, In r (borrowings s) -> Borrowing.id r < borrowings_id_seq s;
  borrowings_book_id_fkey :
    forall r, In r (borrowings s) ->
              In (Borrowing.book_id r) (map Book.id (books s));
  borrowings_borrower_id_fkey :
    forall r, In r (borrowings s) ->
              In (Borrowing.borrower_id r) (map Borrower.id (borrowers s));
  books_checks : forall b, In b (books s) -> books_check b = None;
  borrowings_checks :
    forall r, In r (borrowings s) -> borrowings_check r = None;
  closed_issued : forall i, closed i -> i < borrowings_id_seq s;
  closed_returned :
    forall r, In r (borrowings s) -> closed (Borrowing.id r) ->
              Borrowing.active r = false
}.

Definition db_wf (s : db) : Prop := db_inv (fun _ => False) s.

(** A boolean check of [db_wf]. *)
Fixpoint distinct (l : list Z) : bool :=
  match l with
  | [] => true
  | x :: rest => negb (existsb (Z.eqb x) rest) && distinct rest
  end.

Definition is_none {A : Type} (o : option A) : bool :=
  match o with
  | None => true
  | Some _ => false
  end.

Definition db_wfb (s : db) : bool :=
  distinct (map Book.id (books s))
  && distinct (map Borrower.id (borrowers s))
  && distinct (map Borrowing.id (borrowings s))
  && forallb (fun b => Book.id b <? books_id_seq s) (books s)
  && forallb (fun b => Borrower.id b <? borrowers_id_seq s) (borrowers s)
  && forallb (fun r => Borrowing.id r <? borrowings_id_seq s) (borrowings s)
  && forallb (fun r => existsb (Z.eqb (Borrowing.book_id r))
                               (map Book.id (books s))) (borrowings s)
  && forallb (fun r => existsb (Z.eqb (Borrowing.borrower_id r))
                               (map Borrower.id (borrowers s))) (borrowings s)
  && forallb (fun b => is_none (books_check b)) (books s)
  && forallb (fun r => is_none (borrowings_check r)) (borrowings s).

(** [m] keeps the property [P] of the database, whether it resolves or
    rejects. *)
Definition preserves {A : Type} (P : db -> Prop) (m : io A) : Prop :=
  forall s, P s -> P (snd (m s)).

(** Whether a ledger transaction commits, and how many of a sequence
    do. *)
Definition commits (t : ledger_tx) (s : db) : bool :=
  match t with
  | TxCreate d =>
      match fst (BorrowingRepository.create d s) with
      | Resolved _ => true
      | Rejected _ => false
      end
  | TxReturnBook i d =>
      match fst (BorrowingRepository.returnBook i d s) with
      | Resolved _ => true
      | Rejected _ => false
      end
  end.

Fixpoint committed (txs : list ledger_tx) (s : db) : nat :=
  match txs with
  | [] => 0%nat
  | t :: rest =>
      ((if commits t s then 1 else 0) + committed rest (commit t s))%nat
  end.

(** The ISBN of a book and the e-mail of a borrower are unique. *)
Definition isbn_unique (s : db) : Prop := NoDup (map Book.isbn (books s)).

Definition email_unique (s : db) : Prop :=
  NoDup (map Borrower.email (borrowers s)).

(** The active borrowings of a book by a borrower. *)
Definition active_loans (s : db) (borrowerId bookId : Z) : list Borrowing.t :=
  filter (fun r => (Borrowing.borrower_id r =? borrowerId)
                   && (Borrowing.book_id r =? bookId)
                   && Borrowing.active r) (borrowings s).

(** No borrower holds two active borrowings of one book. *)
Definition one_loan_per_book (s : db) : Prop :=
  forall borrowerId bookId,
    (List.length (active_loans s borrowerId bookId) <= 1)%nat.

(** The borrowing [r] has been issued, and the table holds it, if at all,
    exactly as [r]. *)
Definition frozen (r : Borrowing.t) (s : db) : Prop :=
  Borrowing.id r < borrowings_id_seq s
  /\ forall x, In x (borrowings s) ->
               Borrowing.id x = Borrowing.id r -> x = r.

(** [m] rejects with [new Error(message)], of kind [k], and leaves the
    database as it was. *)
Definition rejects_unchanged {A : Type} (m : io A) (s : db)
           (message : string) (k : kind) : Prop :=
  m s = (Rejected (Error message), s) /\ error_kind (Error message) = k.

(** Some borrowing of book [bookId] by [borrowerId] is active. *)
Definition holds_active_loan (s : db) (borrowerId bookId : Z) : Prop :=
  exists r, In r (borrowings s)
            /\ Borrowing.borrower_id r = borrowerId
            /\ Borrowing.book_id r = bookId
            /\ Borrowing.return_date r = None.

(** ** Sample data

    Books and borrowers of the seed script, and instants to serve
    requests at. *)

Module Sample.

Definition day_2024_01_01 : Z := 19723.
Definition day_2024_01_10 : Z := 19732.
Definition noon (day : Z) : Z := day * ms_per_day + 12 * 60 * 60 * 1000.

Definition gatsby : BookDTO.CreateRequest.t :=
  BookDTO.CreateRequest.mk "The Great Gatsby" "F. Scott Fitzgerald"
                           "9780743273565" (Some 5) (Some 5) (Some "A1-001"%string).

Definition pride : BookDTO.CreateRequest.t :=
  BookDTO.CreateRequest.mk "Pride and Prejudice" "Jane Austen"
                           "9780141439518" (Some 1) (Some 1) (Some "C3-001"%string).

Definition catcher : BookDTO.CreateRequest.t :=
  BookDTO.CreateRequest.mk "The Catcher in the Rye" "J.D. Salinger"
                           "9780316769174" (Some 1) (Some 2) (Some "A1-003"%string).

Definition john : BorrowerDTO.CreateRequest.t :=
  BorrowerDTO.CreateRequest.mk "John Smith" "john.smith@email.com" None.

Definition emma : BorrowerDTO.CreateRequest.t :=
  BorrowerDTO.CreateRequest.mk "Emma Johnson" "emma.johnson@email.com" None.

(** A library with one title (book 1) and two borrowers (1 and 2),
    set up through the services on 2024-01-01. *)
Definition library (book : BookDTO.CreateRequest.t) : db :=
  run [(noon day_2024_01_01, CreateBook book);
       (noon day_2024_01_01, CreateBorrower john);
       (noon day_2024_01_01, CreateBorrower emma)] empty_db.

(** Borrower [borrower_id] checks out book 1, no due date given. *)
Definition checkout (borrower_id : Z) : BorrowingDTO.CheckoutRequest.t :=
  BorrowingDTO.CheckoutRequest.mk 1 borrower_id None.

(** The library after John checked out book 1 on 2024-01-01. *)
Definition lent (book : BookDTO.CreateRequest.t) : db :=
  serve (noon day_2024_01_01) (Checkout (checkout 1)) (library book).

(** The library after John checked out book 1 on 2023-12-18: the loan
    is due on 2024-01-01. *)
Definition day_2023_12_18 : Z := 19709.

Definition due_new_year : db :=
  serve (noon day_2023_12_18) (Checkout (checkout 1)) (library gatsby).

(** POST /borrowings/return { borrowing_id: 1, return_date: 2024-01-06 } *)
Definition day_2024_01_06 : Z := 19728.

Definition return_backdated : BorrowingDTO.ReturnRequest.t :=
  BorrowingDTO.ReturnRequest.mk 1 (Some day_2024_01_06).

(** The library after John returned borrowing 1 on 2024-01-10. *)
Definition returned : db :=
  serve (noon day_2024_01_10)
        (Return (BorrowingDTO.ReturnRequest.mk 1 None)) (lent gatsby).

End Sample.

(** * Properties *)

(** ** Lists as tables *)

Lemma first_violation_none {R : Type} (check : R -> option string) rows :
  first_violation check rows = None <->
  (forall r, In r rows -> check r = None).
Proof.
  induction rows as [|r rows IH]; simpl.
  - split; [intros _ r [] | reflexivity].
  - destruct (check r) eqn:E.
    + split; [discriminate | intros H; rewrite <- E; apply H; now left].
    + rewrite IH. split.
      * intros H x [<- | Hx]; auto.
      * intros H x Hx. apply H. now right.
Qed.

Lemma filter_key_absent {R : Type} (key : R -> Z) (k : Z) (l : list R) :
  ~ In k (map key l) -> filter (fun x => key x =? k) l = [].
Proof.
  induction l as [|x l IH]; simpl; intros H; [reflexivity|].
  destruct (Z.eqb_spec (key x) k) as [E|E].
  - exfalso. apply H. now left.
  - apply IH. intros Hin. apply H. now right.
Qed.

(** Under a primary key, WHERE id = k selects the row that has it. *)
Lemma filter_key_unique {R : Type} (key : R -> Z) (l : list R) (b : R) :
  NoDup (map key l) -> In b l ->
  filter (fun x => key x =? key b) l = [b].
Proof.
  induction l as [|x l IH]; simpl; intros Hnd Hin; [contradiction|].
  inversion Hnd as [|? ? Hx Hl]; subst.
  destruct Hin as [-> | Hin].
  - rewrite Z.eqb_refl. f_equal. now apply filter_key_absent.
  - destruct (Z.eqb_spec (key x) (key b)) as [E|E].
    + exfalso. apply Hx. rewrite E. now apply in_map.
    + now apply IH.
Qed.

Lemma find_key_unique {R : Type} (key : R -> Z) (l : list R) (b : R) :
  NoDup (map key l) -> In b l ->
  find (fun x => key x =? key b) l = Some b.
Proof.
  induction l as [|x l IH]; simpl; intros Hnd Hin; [contradiction|].
  inversion Hnd as [|? ? Hx Hl]; subst.
  destruct Hin as [-> | Hin].
  - now rewrite Z.eqb_refl.
  - destruct (Z.eqb_spec (key x) (key b)) as [E|E].
    + exfalso. apply Hx. rewrite E. now apply in_map.
    + now apply IH.
Qed.

Lemma find_key_absent {R : Type} (key : R -> Z) (k : Z) (l : list R) :
  ~ In k (map key l) -> find (fun x => key x =? k) l = None.
Proof.
  induction l as [|x l IH]; simpl; intros H; [reflexivity|].
  destruct (Z.eqb_spec (key x) k) as [E|E].
  - exfalso. apply H. now left.
  - apply IH. intros Hin. apply H. now right.
Qed.


Lemma map_update_key {R : Type} (key : R -> Z) (p : R -> bool) (f : R -> R)
      (l : list R) :
  (forall x, key (f x) = key x) ->
  map key (map (fun x => if p x then f x else x) l) = map key l.
Proof.
  intros Hf. rewrite map_map. apply map_ext. intros x.
  destruct (p x); auto.
Qed.

Lemma in_map_update {R : Type} (p : R -> bool) (f : R -> R) (l : list R) y :
  In y (map (fun x => if p x then f x else x) l) ->
  exists x, In x l /\ ((p x = true /\ y = f x) \/ (p x = false /\ y = x)).
Proof.
  rewrite in_map_iff. intros [x [E Hin]]. exists x. split; [assumption|].
  destruct (p x); [left | right]; auto.
Qed.

Lemma NoDup_map_filter {R : Type} (key : R -> Z) (p : R -> bool) (l : list R) :
  NoDup (map key l) -> NoDup (map key (filter p l)).
Proof.
  induction l as [|x l IH]; simpl; intros H; [constructor|].
  inversion H as [|? ? Hx Hl]; subst.
  destruct (p x); simpl; auto.
  constructor; auto.
  intros Hin. apply Hx. rewrite in_map_iff in *.
  destruct Hin as [y [E Hy]]. exists y. split; [assumption|].
  now apply filter_In in Hy.
Qed.

Lemma NoDup_map_snoc {R : Type} (key : R -> Z) (l : list R) (x : R) :
  NoDup (map key l) -> ~ In (key x) (map key l) ->
  NoDup (map key (l ++ [x])).
Proof.
  induction l as [|y l IH]; simpl; intros Hnd Hx.
  - constructor; [intros [] | constructor].
  - inversion Hnd as [|? ? Hy Hl]; subst.
    constructor.
    + rewrite map_app, in_app_iff. simpl. intros [H | [H | []]]; auto.
    + apply IH; auto.
Qed.

Lemma existsb_key {R : Type} (key : R -> Z) (k : Z) (l : list R) :
  existsb (fun x => key x =? k) l = true <-> In k (map key l).
Proof.
  rewrite existsb_exists, in_map_iff.
  split; intros [x [H1 H2]]; exists x.
  - apply Z.eqb_eq in H2. auto.
  - split; [assumption | now apply Z.eqb_eq].
Qed.

(** ** The schema invariant, checked *)

Lemma distinct_NoDup (l : list Z) : distinct l = true -> NoDup l.
Proof.
  induction l as [|x l IH]; simpl; intros H; [constructor|].
  apply andb_true_iff in H. destruct H as [H1 H2].
  constructor; auto.
  intros Hin. apply negb_true_iff in H1.
  assert (existsb (Z.eqb x) l = true) as E.
  { apply existsb_exists. exists x. split; [assumption | apply Z.eqb_refl]. }
  congruence.
Qed.

Lemma db_wfb_sound (s : db) : db_wfb s = true -> db_wf s.
Proof.
  unfold db_wfb. rewrite !andb_true_iff, !forallb_forall.
  intros [[[[[[[[[H1 H2] H3] H4] H5] H6] H7] H8] H9] H10].
  constructor; auto using distinct_NoDup.
  - intros b Hb. now apply Z.ltb_lt, H4.
  - intros b Hb. now apply Z.ltb_lt, H5.
  - intros r Hr. now apply Z.ltb_lt, H6.
  - intros r Hr. apply H7 in Hr. apply existsb_exists in Hr.
    destruct Hr as [k [Hk E]]. apply Z.eqb_eq in E. now subst.
  - intros r Hr. apply H8 in Hr. apply existsb_exists in Hr.
    destruct Hr as [k [Hk E]]. apply Z.eqb_eq in E. now subst.
  - intros b Hb. apply H9 in Hb. now destruct (books_check b).
  - intros r Hr. apply H10 in Hr. now destruct (borrowings_check r).
  - intros i [].
  - intros r _ [].
Qed.

(** ** Statements that touch one row *)

Lemma map_update_none {R : Type} (p : R -> bool) (f : R -> R) (l : list R) :
  filter p l = [] -> map (fun x => if p x then f x else x) l = l.
Proof.
  induction l as [|x l IH]; simpl; [reflexivity|].
  destruct (p x); [discriminate|]. intros H. now rewrite IH.
Qed.



Lemma books_check_none (b : Book.t) :
  books_check b = None <->
  0 <= Book.available_quantity b <= Book.total_quantity b.
Proof.
  unfold books_check.
  destruct (Z.gtb_spec (Book.available_quantity b) (Book.total_quantity b));
    [split; [discriminate | lia]|].
  destruct (Z.ltb_spec (Book.available_quantity b) 0);
    [split; [discriminate | lia]|].
  destruct (Z.ltb_spec (Book.total_quantity b) 0);
    [split; [discriminate | lia]|].
  split; [lia | reflexivity].
Qed.


(** ** C7: the guarded availability adjustment *)


(** ** Preservation of a database property by async functions *)

Section Preserves.
Variable P : db -> Prop.

Lemma preserves_ret {A : Type} (a : A) : preserves P (ret a).
Proof. intros s H. exact H. Qed.

Lemma preserves_throw {A : Type} (e : exn) : preserves P (@throw A e).
Proof. intros s H. exact H. Qed.

Lemma preserves_query {A : Type} (q : db -> A) : preserves P (query q).
Proof. intros s H. exact H. Qed.

Lemma preserves_bind {A B : Type} (m : io A) (k : A -> io B) :
  preserves P m -> (forall a, preserves P (k a)) -> preserves P (bind m k).
Proof.
  intros Hm Hk s H. unfold bind.
  specialize (Hm s H). destruct (m s) as [[a|e] s1]; simpl in *.
  - now apply Hk.
  - exact Hm.
Qed.

Lemma preserves_transaction {A : Type} (m : io A) :
  preserves P m -> preserves P (transaction m).
Proof.
  intros Hm s H. unfold transaction.
  specialize (Hm s H). destruct (m s) as [[a|e] s1]; simpl in *; assumption.
Qed.
End Preserves.

(** ** Every statement keeps the schema invariant *)

Section SchemaInvariant.
Variable closed : Z -> Prop.

Lemma book_create_inv d : preserves (db_inv closed) (BookRepository.create d).
Proof.
  intros s H. unfold BookRepository.create.
  match goal with
  | |- context [books_check ?x] => destruct (books_check x) eqn:E; [exact H|]
  end.
  match goal with
  | |- context [existsb ?f ?l] => destruct (existsb f l); [exact H|]
  end.
  destruct H as [H1 H2 H3 H4 H5 H6 H7 H8 H9 H10 H11 H12].
  constructor; simpl; auto.
  - apply NoDup_map_snoc; [assumption|]. simpl.
    rewrite in_map_iff. intros [b [Eb Hb]]. apply H4 in Hb. lia.
  - intros b Hb. apply in_app_iff in Hb. destruct Hb as [Hb | [<- | []]].
    + apply H4 in Hb. lia.
    + simpl. lia.
  - intros r Hr. rewrite map_app, in_app_iff. left. auto.
  - intros b Hb. apply in_app_iff in Hb. destruct Hb as [Hb | [<- | []]]; auto.
Qed.

Lemma book_update_inv id u : preserves (db_inv closed) (BookRepository.update id u).
Proof.
  intros s H. unfold BookRepository.update.
  destruct (BookRepository.no_fields u); [exact H|].
  destruct (first_violation books_check _) eqn:E; [exact H|].
  destruct (map _ _) eqn:Eu; [exact H|].
  destruct (BookRepository.isbn_taken id u (books s)); [exact H|].
  rewrite <- Eu in E. clear Eu.
  destruct H as [H1 H2 H3 H4 H5 H6 H7 H8 H9 H10 H11 H12].
  assert (forall x, Book.id (BookRepository.set_fields u x) = Book.id x)
    as Hid by reflexivity.
  constructor; simpl; auto.
  - now rewrite (map_update_key Book.id).
  - intros b Hb. apply in_map_update in Hb.
    destruct Hb as [x [Hx [[_ ->] | [_ ->]]]]; [rewrite Hid|]; auto.
  - intros r Hr. rewrite (map_update_key Book.id); auto.
  - intros b Hb. apply in_map_update in Hb.
    destruct Hb as [x [Hx [[Hp ->] | [_ ->]]]]; auto.
    rewrite first_violation_none in E. apply E.
    apply in_map. apply filter_In. auto.
Qed.

Lemma book_delete_where_inv p :
  preserves (db_inv closed) (BookRepository.delete_where p).
Proof.
  intros s H. unfold BookRepository.delete_where.
  destruct H as [H1 H2 H3 H4 H5 H6 H7 H8 H9 H10 H11 H12].
  unfold cascade_books.
  constructor; simpl; auto using NoDup_map_filter.
  - intros b Hb. apply filter_In in Hb. now apply H4.
  - intros r Hr. apply filter_In in Hr. now apply H6.
  - intros r Hr. apply filter_In in Hr. destruct Hr as [Hr Hc].
    apply H7 in Hr. apply in_map_iff in Hr. destruct Hr as [b [Eb Hb]].
    apply in_map_iff. exists b. split; [assumption|].
    apply filter_In. split; [assumption|].
    destruct (p b) eqn:Ep; [|reflexivity].
    apply negb_true_iff in Hc.
    assert (existsb (fun b0 => Book.id b0 =? Borrowing.book_id r)
                    (filter p (books s)) = true) as Hx.
    { apply existsb_exists. exists b. split.
      - apply filter_In. auto.
      - now apply Z.eqb_eq. }
    congruence.
  - intros r Hr. apply filter_In in Hr. now apply H8.
  - intros b Hb. apply filter_In in Hb. now apply H9.
  - intros r Hr. apply filter_In in Hr. now apply H10.
  - intros r Hr. apply filter_In in Hr. now apply H12.
Qed.

Lemma book_add_available_inv wher q :
  preserves (db_inv closed) (BookRepository.add_available wher q).
Proof.
  intros s H. unfold BookRepository.add_available.
  destruct (first_violation books_check _) eqn:E; [exact H|].
  destruct H as [H1 H2 H3 H4 H5 H6 H7 H8 H9 H10 H11 H12].
  assert (forall x, Book.id (BookRepository.plus_available q x) = Book.id x)
    as Hid by reflexivity.
  constructor; simpl; auto.
  - now rewrite (map_update_key Book.id).
  - intros b Hb. apply in_map_update in Hb.
    destruct Hb as [x [Hx [[_ ->] | [_ ->]]]]; [rewrite Hid|]; auto.
  - intros r Hr. rewrite (map_update_key Book.id); auto.
  - intros b Hb. apply in_map_update in Hb.
    destruct Hb as [x [Hx [[Hp ->] | [_ ->]]]]; auto.
    rewrite first_violation_none in E. apply E.
    apply in_map. apply filter_In. auto.
Qed.

Lemma borrower_create_inv d :
  preserves (db_inv closed) (BorrowerRepository.create d).
Proof.
  intros s H. unfold BorrowerRepository.create.
  match goal with
  | |- context [existsb ?f ?l] => destruct (existsb f l); [exact H|]
  end.
  destruct H as [H1 H2 H3 H4 H5 H6 H7 H8 H9 H10 H11 H12].
  constructor; simpl; auto.
  - apply NoDup_map_snoc; [assumption|]. simpl.
    rewrite in_map_iff. intros [b [Eb Hb]]. apply H5 in Hb. lia.
  - intros b Hb. apply in_app_iff in Hb. destruct Hb as [Hb | [<- | []]].
    + apply H5 in Hb. lia.
    + simpl. lia.
  - intros r Hr. rewrite map_app, in_app_iff. left. auto.
Qed.

Lemma borrower_update_inv id u :
  preserves (db_inv closed) (BorrowerRepository.update id u).
Proof.
  intros s H. unfold BorrowerRepository.update.
  destruct (BorrowerRepository.no_fields u); [exact H|].
  destruct (map _ _) eqn:Eu; [exact H|].
  destruct (BorrowerRepository.email_taken id u (borrowers s)); [exact H|].
  destruct H as [H1 H2 H3 H4 H5 H6 H7 H8 H9 H10 H11 H12].
  assert (forall x, Borrower.id (BorrowerRepository.set_fields u x)
                    = Borrower.id x) as Hid by reflexivity.
  constructor; simpl; auto.
  - now rewrite (map_update_key Borrower.id).
  - intros b Hb. apply in_map_update in Hb.
    destruct Hb as [x [Hx [[_ ->] | [_ ->]]]]; [rewrite Hid|]; auto.
  - intros r Hr. rewrite (map_update_key Borrower.id); auto.
Qed.

Lemma borrower_delete_inv id :
  preserves (db_inv closed) (BorrowerRepository.delete id).
Proof.
  intros s H. unfold BorrowerRepository.delete.
  destruct H as [H1 H2 H3 H4 H5 H6 H7 H8 H9 H10 H11 H12].
  unfold cascade_borrowers.
  constructor; simpl; auto using NoDup_map_filter.
  - intros b Hb. apply filter_In in Hb. now apply H5.
  - intros r Hr. apply filter_In in Hr. now apply H6.
  - intros r Hr. apply filter_In in Hr. now apply H7.
  - intros r Hr. apply filter_In in Hr. destruct Hr as [Hr Hc].
    apply H8 in Hr. apply in_map_iff in Hr. destruct Hr as [b [Eb Hb]].
    apply in_map_iff. exists b. split; [assumption|].
    apply filter_In. split; [assumption|].
    destruct (BorrowerRepository.has_id id b) eqn:Ep; [|reflexivity].
    apply negb_true_iff in Hc.
    assert (existsb (fun b0 => Borrower.id b0 =? Borrowing.borrower_id r)
                    (filter (BorrowerRepository.has_id id) (borrowers s))
            = true) as Hx.
    { apply existsb_exists. exists b. split.
      - apply filter_In. auto.
      - now apply Z.eqb_eq. }
    congruence.
  - intros r Hr. apply filter_In in Hr. now apply H10.
  - intros r Hr. apply filter_In in Hr. now apply H12.
Qed.

Lemma insert_into_borrowings_inv book_id borrower_id checkout_date due_date :
  preserves (db_inv closed)
            (BorrowingRepository.insert_into_borrowings
               book_id borrower_id checkout_date due_date).
Proof.
  intros s H. unfold BorrowingRepository.insert_into_borrowings.
  match goal with
  | |- context [borrowings_check ?x] =>
      destruct (borrowings_check x) eqn:E; [exact H|]
  end.
  destruct (existsb _ (books s)) eqn:Eb; [|exact H].
  destruct (existsb _ (borrowers s)) eqn:Ew; [|exact H].
  destruct H as [H1 H2 H3 H4 H5 H6 H7 H8 H9 H10 H11 H12].
  constructor; simpl; auto.
  - apply NoDup_map_snoc; [assumption|]. simpl.
    rewrite in_map_iff. intros [b [Ex Hb]]. apply H6 in Hb. lia.
  - intros b Hb. apply in_app_iff in Hb. destruct Hb as [Hb | [<- | []]].
    + apply H6 in Hb. lia.
    + simpl. lia.
  - intros b Hb. apply in_app_iff in Hb. destruct Hb as [Hb | [<- | []]]; auto.
    simpl. now apply (existsb_key Book.id).
  - intros b Hb. apply in_app_iff in Hb. destruct Hb as [Hb | [<- | []]]; auto.
    simpl. now apply (existsb_key Borrower.id).
  - intros b Hb. apply in_app_iff in Hb. destruct Hb as [Hb | [<- | []]]; auto.
  - intros i Hi. apply H11 in Hi. lia.
  - intros b Hb Hc. apply in_app_iff in Hb. destruct Hb as [Hb | [<- | []]]; auto.
    simpl in Hc. apply H11 in Hc. lia.
Qed.

Lemma update_borrowings_inv id set :
  (forall r, Borrowing.id (set r) = Borrowing.id r) ->
  (forall r, Borrowing.book_id (set r) = Borrowing.book_id r) ->
  (forall r, Borrowing.borrower_id (set r) = Borrowing.borrower_id r) ->
  (forall r, Borrowing.active r = false -> Borrowing.active (set r) = false) ->
  preserves (db_inv closed) (BorrowingRepository.update_borrowings id set).
Proof.
  intros Hid Hbook Hborrower Hact s H.
  unfold BorrowingRepository.update_borrowings.
  destruct (first_violation borrowings_check _) eqn:E; [exact H|].
  destruct H as [H1 H2 H3 H4 H5 H6 H7 H8 H9 H10 H11 H12].
  constructor; simpl; auto.
  - now rewrite (map_update_key Borrowing.id).
  - intros b Hb. apply in_map_update in Hb.
    destruct Hb as [x [Hx [[_ ->] | [_ ->]]]]; [rewrite Hid|]; auto.
  - intros b Hb. apply in_map_update in Hb.
    destruct Hb as [x [Hx [[_ ->] | [_ ->]]]]; [rewrite Hbook|]; auto.
  - intros b Hb. apply in_map_update in Hb.
    destruct Hb as [x [Hx [[_ ->] | [_ ->]]]]; [rewrite Hborrower|]; auto.
  - intros b Hb. apply in_map_update in Hb.
    destruct Hb as [x [Hx [[Hp ->] | [_ ->]]]]; auto.
    rewrite first_violation_none in E. apply E.
    apply in_map. apply filter_In. auto.
  - intros b Hb Hc. apply in_map_update in Hb.
    destruct Hb as [x [Hx [[Hp ->] | [_ ->]]]]; auto.
    rewrite Hid in Hc. auto.
Qed.

End SchemaInvariant.

(** ** Every request and every ledger transaction keeps the invariant *)

Ltac preserve_step :=
  first
    [ apply preserves_ret
    | apply preserves_throw
    | apply preserves_query
    | apply preserves_transaction
    | apply preserves_bind; [|intros ?]
    | apply book_create_inv
    | apply book_update_inv
    | apply book_delete_where_inv
    | apply book_add_available_inv
    | apply borrower_create_inv
    | apply borrower_update_inv
    | apply borrower_delete_inv
    | apply insert_into_borrowings_inv
    | apply update_borrowings_inv; [reflexivity | reflexivity | reflexivity |]
    | match goal with
      | |- preserves _ (match ?x with _ => _ end) => destruct x
      end ].

Ltac preserve := repeat preserve_step.

Section RequestsKeepInvariant.
Variable closed : Z -> Prop.

Lemma create_inv d :
  preserves (db_inv closed) (BorrowingRepository.create d).
Proof. unfold BorrowingRepository.create. preserve. Qed.

Lemma returnBook_inv i d :
  preserves (db_inv closed) (BorrowingRepository.returnBook i d).
Proof.
  unfold BorrowingRepository.returnBook,
    BorrowingRepository.select_active_for_update.
  preserve. intros r Hr. reflexivity.
Qed.

Lemma extendDueDate_inv i d reason :
  preserves (db_inv closed) (BorrowingRepository.extendDueDate i d reason).
Proof.
  unfold BorrowingRepository.extendDueDate,
    BorrowingRepository.select_active_for_update.
  change (BorrowingRepository.undefined_column _)
    with (Some "extension_count"%string).
  preserve.
Qed.

Lemma createBook_inv d : preserves (db_inv closed) (BookService.createBook d).
Proof.
  unfold BookService.createBook, BookRepository.findByISBN. cbv zeta.
  preserve.
Qed.

Lemma updateBook_inv i d :
  preserves (db_inv closed) (BookService.updateBook i d).
Proof.
  unfold BookService.updateBook, BookRepository.findById,
    BookRepository.isbnExists. cbv zeta.
  preserve.
Qed.

Lemma deleteBook_inv i : preserves (db_inv closed) (BookService.deleteBook i).
Proof.
  unfold BookService.deleteBook, BookRepository.findById,
    BorrowingRepository.hasActiveBookBorrowings, BookRepository.delete.
  preserve.
Qed.

Lemma deleteBookByISBN_inv i :
  preserves (db_inv closed) (BookService.deleteBookByISBN i).
Proof.
  unfold BookService.deleteBookByISBN, BookRepository.findByISBN,
    BorrowingRepository.hasActiveBookBorrowings, BookRepository.deleteByISBN.
  preserve.
Qed.

Lemma updateBookAvailability_inv i q :
  preserves (db_inv closed) (BookService.updateBookAvailability i q).
Proof.
  unfold BookService.updateBookAvailability,
    BookRepository.updateAvailability.
  preserve.
Qed.

Lemma createBorrower_inv now d :
  preserves (db_inv closed) (BorrowerService.createBorrower now d).
Proof.
  unfold BorrowerService.createBorrower, BorrowerRepository.findByEmail.
  cbv zeta. preserve.
Qed.

Lemma updateBorrower_inv i d :
  preserves (db_inv closed) (BorrowerService.updateBorrower i d).
Proof.
  unfold BorrowerService.updateBorrower, BorrowerRepository.findById,
    BorrowerRepository.emailExists. cbv zeta.
  preserve.
Qed.

Lemma deleteBorrower_inv i :
  preserves (db_inv closed) (BorrowerService.deleteBorrower i).
Proof.
  unfold BorrowerService.deleteBorrower, BorrowerRepository.findById,
    BorrowerRepository.getCurrentBooks.
  preserve.
Qed.

Lemma checkoutBook_inv now d :
  preserves (db_inv closed) (BorrowingService.checkoutBook now d).
Proof.
  unfold BorrowingService.checkoutBook, BookRepository.findById,
    BorrowerRepository.findById, BorrowingRepository.hasActiveBorrowing,
    BorrowingService.respond. cbv zeta.
  preserve.
Qed.

Lemma service_returnBook_inv now i :
  preserves (db_inv closed) (BorrowingService.returnBook now i).
Proof.
  unfold BorrowingService.returnBook, BorrowingRepository.findById,
    BorrowingService.respond. cbv zeta.
  preserve. intros r Hr. reflexivity.
Qed.

Lemma service_extendDueDate_inv now i d reason :
  preserves (db_inv closed) (BorrowingService.extendDueDate now i d reason).
Proof.
  unfold BorrowingService.extendDueDate, BorrowingService.respond.
  preserve.
Qed.

Lemma serve_inv now r s : db_inv closed s -> db_inv closed (serve now r s).
Proof.
  destruct r; simpl.
  - apply createBook_inv.
  - apply updateBook_inv.
  - apply deleteBook_inv.
  - apply deleteBookByISBN_inv.
  - apply updateBookAvailability_inv.
  - apply createBorrower_inv.
  - apply updateBorrower_inv.
  - apply deleteBorrower_inv.
  - apply checkoutBook_inv.
  - apply service_returnBook_inv.
  - apply service_extendDueDate_inv.
Qed.

Lemma run_inv trace s : db_inv closed s -> db_inv closed (run trace s).
Proof.
  revert s. induction trace as [|[now r] trace IH]; simpl; intros s H.
  - exact H.
  - apply IH. now apply serve_inv.
Qed.

Lemma commit_inv t s : db_inv closed s -> db_inv closed (commit t s).
Proof.
  destruct t; simpl; [apply create_inv | apply returnBook_inv].
Qed.

Lemma interleaving_inv txs s :
  db_inv closed s -> db_inv closed (interleaving txs s).
Proof.
  unfold interleaving. revert s.
  induction txs as [|t txs IH]; simpl; intros s H.
  - exact H.
  - apply IH. now apply commit_inv.
Qed.

End RequestsKeepInvariant.

Lemma empty_db_wf : db_wf empty_db.
Proof. apply db_wfb_sound. reflexivity. Qed.

(** ** What the two ledger transactions do to the database *)

Ltac unfold_io :=
  unfold bind, ret, throw, query, transaction in *.

Ltac case_step :=
  match goal with
  | H : context [match ?x with _ => _ end] |- _ =>
      let E := fresh "E" in destruct x eqn:E; try discriminate
  | |- context [match ?x with _ => _ end] =>
      let E := fresh "E" in destruct x eqn:E; try discriminate
  end.

Ltac cases := repeat case_step.

Ltac invert_pairs :=
  repeat match goal with
         | H : (_, _) = (_, _) |- _ => inversion H; clear H; subst
         | H : Some _ = Some _ |- _ => inversion H; clear H; subst
         | H : Resolved _ = Resolved _ |- _ => inversion H; clear H; subst
         | H : Rejected _ = Rejected _ |- _ => inversion H; clear H; subst
         end.

(** A checkout transaction either rolls back or appends one active
    borrowing and decrements the book. *)
Lemma create_cases (d : BorrowingDTO.CheckoutData.t) (s : db) :
  let book_id := BorrowingDTO.CheckoutData.book_id d in
  let row := Borrowing.mk (borrowings_id_seq s) book_id
                          (BorrowingDTO.CheckoutData.borrower_id d)
                          (BorrowingDTO.CheckoutData.checkout_date d)
                          (BorrowingDTO.CheckoutData.due_date d)
                          None in
  (exists e, BorrowingRepository.create d s = (Rejected e, s))
  \/ (exists o, BorrowingRepository.create d s
                = (Resolved o,
                   set_books (insert_borrowing s row)
                             (map (fun b => if BookRepository.has_id book_id b
                                            then BookRepository.plus_available (-1) b
                                            else b) (books s)))).
Proof.
  intros book_id row. subst book_id row.
  unfold BorrowingRepository.create,
    BorrowingRepository.insert_into_borrowings,
    BookRepository.add_available.
  unfold_io. cases; invert_pairs;
    try (left; eexists; reflexivity);
    try (right; eexists; reflexivity).
Qed.

(** A return transaction either rolls back or closes the one active
    borrowing with that id and increments its book. *)
Lemma returnBook_cases (borrowingId returnDate : Z) (s : db) :
  (exists e, BorrowingRepository.returnBook borrowingId returnDate s
             = (Rejected e, s))
  \/ (exists r,
         find (fun r => BorrowingRepository.has_id borrowingId r
                        && Borrowing.active r) (borrowings s) = Some r
         /\ let s' :=
              set_books
                (set_borrowings s
                   (map (fun x => if BorrowingRepository.has_id borrowingId x
                                  then BorrowingRepository.set_return_date
                                         returnDate x
                                  else x) (borrowings s)))
                (map (fun b => if BookRepository.has_id (Borrowing.book_id r) b
                               then BookRepository.plus_available 1 b
                               else b) (books s)) in
            BorrowingRepository.returnBook borrowingId returnDate s
            = (Resolved (hd_error (BorrowingRepository.select_details
                                     (BorrowingRepository.has_id borrowingId)
                                     s')),
               s')).
Proof.
  unfold BorrowingRepository.returnBook,
    BorrowingRepository.select_active_for_update,
    BorrowingRepository.update_borrowings,
    BookRepository.add_available.
  unfold_io. cases; invert_pairs;
    try (left; eexists; reflexivity);
    try (right; eexists; split; reflexivity).
Qed.

(** An extension transaction always rolls back: either no active
    borrowing has the id, or the UPDATE is rejected for the column
    extension_count, which the table does not have. *)
Lemma extendDueDate_cases (borrowingId newDueDate : Z)
      (extensionReason : option string) (s : db) :
  exists e, BorrowingRepository.extendDueDate borrowingId newDueDate
                                              extensionReason s
            = (Rejected e, s).
Proof.
  unfold BorrowingRepository.extendDueDate,
    BorrowingRepository.select_active_for_update.
  change (BorrowingRepository.undefined_column _)
    with (Some "extension_count"%string).
  unfold_io. cases; invert_pairs; eexists; reflexivity.
Qed.

(** The services change the database only through the repository
    transaction they end with. *)
Lemma checkoutBook_db (now : Z) (req : BorrowingDTO.CheckoutRequest.t) (s : db) :
  snd (BorrowingService.checkoutBook now req s) = s
  \/ snd (BorrowingService.checkoutBook now req s)
     = snd (BorrowingRepository.create
              (BorrowingDTO.fromCheckoutRequest now req) s).
Proof.
  unfold BorrowingService.checkoutBook, BookRepository.findById,
    BorrowerRepository.findById, BorrowingRepository.hasActiveBorrowing,
    BorrowingService.respond.
  unfold_io. cbv zeta. cases; simpl; auto.
Qed.

Lemma service_returnBook_db (now borrowingId : Z) (s : db) :
  snd (BorrowingService.returnBook now borrowingId s) = s
  \/ snd (BorrowingService.returnBook now borrowingId s)
     = snd (BorrowingRepository.returnBook borrowingId (today now) s).
Proof.
  unfold BorrowingService.returnBook, BorrowingRepository.findById,
    BorrowingService.respond, BorrowingDTO.fromReturnRequest.
  unfold_io. cbv zeta. cases; simpl; auto.
Qed.

(** ** Counting active borrowings *)

Lemma active_count_insert (bookId : Z) (s : db) (row : Borrowing.t) (t : list Book.t) :
  active_count bookId (set_books (insert_borrowing s row) t)
  = active_count bookId s
    + (if (Borrowing.book_id row =? bookId) && Borrowing.active row
       then 1 else 0).
Proof.
  unfold active_count. simpl. rewrite filter_app, length_app. simpl.
  destruct ((Borrowing.book_id row =? bookId) && Borrowing.active row);
    simpl; lia.
Qed.

Lemma count_after_return (bookId returnDate : Z) (l : list Borrowing.t)
      (r : Borrowing.t) :
  NoDup (map Borrowing.id l) -> In r l -> Borrowing.active r = true ->
  let counted := fun x => (Borrowing.book_id x =? bookId) && Borrowing.active x in
  (List.length
     (filter counted
             (map (fun x => if BorrowingRepository.has_id (Borrowing.id r) x
                            then BorrowingRepository.set_return_date returnDate x
                            else x) l))
   + (if (Borrowing.book_id r =? bookId)%Z then 1 else 0)
   = List.length (filter counted l))%nat.
Proof.
  intros Hnd Hin Hact counted.
  induction l as [|x l IH]; simpl in *; [contradiction|].
  inversion Hnd as [|? ? Hx Hl]; subst.
  destruct Hin as [-> | Hin].
  - unfold BorrowingRepository.has_id at 1. rewrite Z.eqb_refl.
    rewrite map_update_none
      by (apply (filter_key_absent Borrowing.id); assumption).
    replace (counted (BorrowingRepository.set_return_date returnDate r))
      with false by (unfold counted; simpl; now rewrite andb_false_r).
    replace (counted r) with (Borrowing.book_id r =? bookId)
      by (unfold counted; now rewrite Hact, andb_true_r).
    destruct (Borrowing.book_id r =? bookId); simpl; lia.
  - unfold BorrowingRepository.has_id at 1.
    destruct (Z.eqb_spec (Borrowing.id x) (Borrowing.id r)) as [E|E].
    + exfalso. apply Hx. rewrite E. now apply in_map.
    + specialize (IH Hl Hin).
      destruct (counted x); simpl; lia.
Qed.

Lemma find_some_in {R : Type} (p : R -> bool) (l : list R) (r : R) :
  find p l = Some r -> In r l /\ p r = true.
Proof. apply find_some. Qed.

Lemma Forall2_map_right {A : Type} (R : A -> A -> Prop) (f : A -> A)
      (l : list A) :
  (forall x, In x l -> R x (f x)) -> Forall2 R l (map f l).
Proof.
  induction l as [|x l IH]; simpl; intros H; constructor.
  - apply H. now left.
  - apply IH. intros y Hy. apply H. now right.
Qed.

Lemma ledger_kept_refl (s : db) : ledger_kept s s.
Proof.
  unfold ledger_kept. rewrite <- (map_id (books s)) at 2.
  apply Forall2_map_right. intros b _. auto.
Qed.

Lemma ledger_kept_trans (s1 s2 s3 : db) :
  ledger_kept s1 s2 -> ledger_kept s2 s3 -> ledger_kept s1 s3.
Proof.
  unfold ledger_kept.
  generalize (books s1), (books s2), (books s3). intros l1 l2 l3 H12.
  revert l3. induction H12 as [|b1 b2 l1 l2 Hb H12 IH]; intros l3 H23.
  - inversion H23. constructor.
  - inversion H23 as [|? b3 ? l3' Hb' H23']; subst. constructor.
    + destruct Hb as [E1 [E2 E3]], Hb' as [E1' [E2' E3']].
      split; [congruence|]. split; [congruence|]. lia.
    + now apply IH.
Qed.

(** The ledger equation of a book is carried along. *)
Lemma ledger_kept_equation (s s' : db) :
  ledger_kept s s' ->
  (forall b', In b' (books s') ->
     exists b, In b (books s)
               /\ Book.id b' = Book.id b
               /\ (Book.available_quantity b'
                   = Book.total_quantity b' - active_count (Book.id b') s'
                   <-> Book.available_quantity b
                       = Book.total_quantity b - active_count (Book.id b) s)).
Proof.
  unfold ledger_kept.
  generalize (books s), (books s'). intros l l' H.
  induction H as [|b b' l l' [E1 [E2 E3]] H IH]; intros x Hx;
    [contradiction|].
  destruct Hx as [<- | Hx].
  - exists b. split; [now left|]. split; [exact E1|]. lia.
  - destruct (IH x Hx) as [y [Hy Hrest]]. exists y. split; [now right|].
    exact Hrest.
Qed.

Lemma ledger_kept_create (d : BorrowingDTO.CheckoutData.t) (s : db) :
  ledger_kept s (snd (BorrowingRepository.create d s)).
Proof.
  destruct (create_cases d s) as [[e ->] | [o ->]]; [apply ledger_kept_refl|].
  cbv zeta. simpl snd. set (s' := set_books _ _).
  assert (forall k, active_count k s'
                    = active_count k s
                      + (if BorrowingDTO.CheckoutData.book_id d =? k
                         then 1 else 0)) as Hcount.
  { intros k. unfold active_count, s'. simpl.
    rewrite filter_app, length_app. simpl.
    destruct (BorrowingDTO.CheckoutData.book_id d =? k); simpl; lia. }
  unfold ledger_kept. simpl books at 2. apply Forall2_map_right. intros b Hb.
  specialize (Hcount (Book.id b)).
  unfold BookRepository.has_id.
  destruct (Z.eqb_spec (Book.id b) (BorrowingDTO.CheckoutData.book_id d))
    as [E|E].
  - simpl. split; [reflexivity|]. split; [reflexivity|].
    rewrite E in *. rewrite Z.eqb_refl in Hcount. rewrite Hcount. lia.
  - split; [reflexivity|]. split; [reflexivity|].
    destruct (Z.eqb_spec (BorrowingDTO.CheckoutData.book_id d) (Book.id b));
      [congruence|].
    rewrite Hcount. lia.
Qed.

Lemma ledger_kept_returnBook (borrowingId returnDate : Z) (s : db) :
  db_wf s ->
  ledger_kept s (snd (BorrowingRepository.returnBook borrowingId returnDate s)).
Proof.
  intros Hwf.
  destruct (returnBook_cases borrowingId returnDate s)
    as [[e ->] | [r [Hr ->]]]; [apply ledger_kept_refl|].
  apply find_some_in in Hr. destruct Hr as [Hin Hp].
  apply andb_true_iff in Hp. destruct Hp as [Hid Hact].
  unfold BorrowingRepository.has_id in Hid. apply Z.eqb_eq in Hid.
  subst borrowingId.
  assert (forall k, active_count k
            (set_books
               (set_borrowings s
                  (map (fun x => if BorrowingRepository.has_id (Borrowing.id r) x
                                 then BorrowingRepository.set_return_date returnDate x
                                 else x) (borrowings s)))
               (map (fun b => if BookRepository.has_id (Borrowing.book_id r) b
                              then BookRepository.plus_available 1 b
                              else b) (books s)))
          + (if Borrowing.book_id r =? k then 1 else 0)
          = active_count k s) as Hcount.
  { intros k. unfold active_count. simpl.
    pose proof (count_after_return k returnDate (borrowings s) r
                  (borrowings_pkey _ _ Hwf) Hin Hact) as Hc.
    simpl in Hc. rewrite <- Hc.
    destruct (Borrowing.book_id r =? k); lia. }
  cbv zeta. simpl snd. unfold ledger_kept.
  simpl books at 2. apply Forall2_map_right. intros b Hb.
  specialize (Hcount (Book.id b)).
  destruct (BookRepository.has_id (Borrowing.book_id r) b) eqn:E;
    unfold BookRepository.has_id in E.
  - apply Z.eqb_eq in E.
    split; [reflexivity|]. split; [reflexivity|].
    change (Book.id (BookRepository.plus_available 1 b)) with (Book.id b).
    change (Book.available_quantity (BookRepository.plus_available 1 b))
      with (Book.available_quantity b + 1).
    rewrite E in *. rewrite Z.eqb_refl in Hcount. lia.
  - apply Z.eqb_neq in E.
    split; [reflexivity|]. split; [reflexivity|].
    destruct (Z.eqb_spec (Borrowing.book_id r) (Book.id b)); [congruence|].
    lia.
Qed.

(** ** C1: the ledger equation *)

(** C1 (as amended). Checkout and return keep the ledger of every book
    on its own.  In a database that satisfies the constraints of the
    schema ([db_wf], which every state reached by requests does, see
    [run_inv]), a checkout request, a return request and any interleaving
    of checkout and return transactions leave each book with its
    total_quantity and with the same sum of available_quantity and active
    borrowings, so that for each book the equation
    available_quantity = total_quantity - active borrowings holds
    afterwards exactly when it held before, whatever holds of the other
    books; in particular the equation holds for every book afterwards if
    it held for every book before.  The code does not establish the
    equation: a book may be created or edited with any available_quantity
    up to total_quantity. *)
Theorem ledger_consistent_preserved :
  forall s : db,
    db_wf s ->
    (forall now req,
        ledger_kept s (snd (BorrowingService.checkoutBook now req s)))
    /\ (forall now body,
           ledger_kept s (snd (BorrowingController.returnBook now body s)))
    /\ (forall txs, ledger_kept s (interleaving txs s))
    /\ (forall s',
           ledger_kept s s' ->
           forall b', In b' (books s') ->
             exists b,
               In b (books s)
               /\ Book.id b' = Book.id b
               /\ (Book.available_quantity b'
                   = Book.total_quantity b' - active_count (Book.id b') s'
                   <-> Book.available_quantity b
                       = Book.total_quantity b - active_count (Book.id b) s))
    /\ (forall s',
           ledger_kept s s' -> ledger_consistent s -> ledger_consistent s').
Proof.
  intros s Hwf. split; [|split; [|split; [|split]]].
  - intros now req.
    destruct (checkoutBook_db now req s) as [-> | ->];
      [apply ledger_kept_refl | apply ledger_kept_create].
  - intros now body. unfold BorrowingController.returnBook.
    destruct (service_returnBook_db now
                (BorrowingDTO.ReturnRequest.borrowing_id body) s) as [-> | ->];
      [apply ledger_kept_refl | now apply ledger_kept_returnBook].
  - intros txs. revert s Hwf. unfold interleaving.
    induction txs as [|t txs IH]; simpl; intros s Hwf;
      [apply ledger_kept_refl|].
    apply (ledger_kept_trans s (commit t s)).
    + destruct t; simpl;
        [apply ledger_kept_create | now apply ledger_kept_returnBook].
    + apply IH. now apply commit_inv.
  - intros s'. apply ledger_kept_equation.
  - intros s' Hkept H b' Hb'.
    destruct (ledger_kept_equation s s' Hkept b' Hb') as [b [Hb [_ Hiff]]].
    apply Hiff. now apply H.
Qed.

(** The book entered with one of its two copies available keeps, through
    a checkout, its total_quantity 2 and the sum 1 of its
    available_quantity and active borrowings. *)
Lemma ledger_consistent_preserved_witness :
  let s := Sample.library Sample.catcher in
  let s' := snd (BorrowingService.checkoutBook
                   (Sample.noon Sample.day_2024_01_01) (Sample.checkout 1) s) in
  ledger_kept s s'
  /\ map (fun b => (Book.available_quantity b, active_count (Book.id b) s))
         (books s) = [(1, 0)]
  /\ map (fun b => (Book.available_quantity b, active_count (Book.id b) s'))
         (books s') = [(0, 1)].
Proof.
  intros s s'. split.
  - refine (proj1 (ledger_consistent_preserved s _) _ _).
    apply db_wfb_sound. vm_compute. reflexivity.
  - vm_compute. split; reflexivity.
Defined.

(** C1 as stated fails: a book entered with one of its two copies
    available and no borrowing has available_quantity 0 after a successful
    checkout, while total_quantity minus its one active borrowing is 1. *)
Lemma checkout_breaks_ledger_equation :
  let r := BorrowingService.checkoutBook (Sample.noon Sample.day_2024_01_01)
                                         (Sample.checkout 1)
                                         (Sample.library Sample.catcher) in
  (exists resp, fst r = Resolved resp)
  /\ (exists b, In b (books (snd r))
                /\ Book.available_quantity b = 0
                /\ Book.total_quantity b - active_count (Book.id b) (snd r) = 1
                /\ Book.available_quantity b
                   <> Book.total_quantity b - active_count (Book.id b) (snd r)).
Proof.
  vm_compute. split.
  - eexists. reflexivity.
  - eexists. split; [left; reflexivity|].
    repeat split. discriminate.
Qed.

(** ** Lookups under the schema invariant *)

Lemma find_book_absent (s : db) (id : Z) :
  ~ In id (map Book.id (books s)) ->
  find (BookRepository.has_id id) (books s) = None.
Proof. apply (find_key_absent Book.id). Qed.

Lemma find_book_present (closed : Z -> Prop) (s : db) (b : Book.t) :
  db_inv closed s -> In b (books s) ->
  find (BookRepository.has_id (Book.id b)) (books s) = Some b.
Proof. intros H. apply (find_key_unique Book.id). apply H. Qed.

Lemma find_borrower_absent (s : db) (id : Z) :
  ~ In id (map Borrower.id (borrowers s)) ->
  find (BorrowerRepository.has_id id) (borrowers s) = None.
Proof. apply (find_key_absent Borrower.id). Qed.

Lemma find_borrower_present (s : db) (id : Z) :
  In id (map Borrower.id (borrowers s)) ->
  exists w, find (BorrowerRepository.has_id id) (borrowers s) = Some w.
Proof.
  intros H. apply in_map_iff in H. destruct H as [w [E Hw]].
  destruct (find (BorrowerRepository.has_id id) (borrowers s)) eqn:F.
  - eexists. reflexivity.
  - exfalso. apply (find_none _ _ F) in Hw.
    unfold BorrowerRepository.has_id in Hw. apply Z.eqb_neq in Hw. auto.
Qed.

Lemma hd_error_some {R : Type} (l : list R) :
  l <> [] -> exists x, hd_error l = Some x.
Proof. destruct l; [congruence | eexists; reflexivity]. Qed.

(** The join has a row for every selected borrowing whose book and
    borrower exist. *)
Lemma select_details_nonempty (wher : Borrowing.t -> bool) (s : db)
      (r : Borrowing.t) :
  In r (borrowings s) -> wher r = true ->
  In (Borrowing.book_id r) (map Book.id (books s)) ->
  In (Borrowing.borrower_id r) (map Borrower.id (borrowers s)) ->
  BorrowingRepository.select_details wher s <> [].
Proof.
  intros Hr Hw Hb Hbr.
  apply in_map_iff in Hb. destruct Hb as [b [Eb Hb]].
  apply in_map_iff in Hbr. destruct Hbr as [w [Ew Hbr]].
  assert (In (BorrowingRow.mk r (Book.title b) (Book.author b) (Book.isbn b)
                              (Borrower.name w) (Borrower.email w))
             (BorrowingRepository.select_details wher s)) as Hin.
  { unfold BorrowingRepository.select_details.
    apply in_flat_map. exists r. split; [now apply filter_In|].
    apply in_flat_map. exists b. split.
    - apply filter_In. split; [assumption|]. now apply Z.eqb_eq.
    - apply in_map_iff. exists w. split; [reflexivity|].
      apply filter_In. split; [assumption|]. now apply Z.eqb_eq. }
  intros E. rewrite E in Hin. contradiction.
Qed.

(** A committed checkout always finds the details of the new borrowing. *)
Lemma create_resolved_some (d : BorrowingDTO.CheckoutData.t) (s s' : db) o :
  BorrowingRepository.create d s = (Resolved o, s') ->
  exists row, o = Some row.
Proof.
  intros H.
  destruct (create_cases d s) as [[e He] | [o' Ho]]; [congruence|].
  rewrite Ho in H. inversion H. subst o' s'. clear H.
  unfold BorrowingRepository.create,
    BorrowingRepository.insert_into_borrowings,
    BookRepository.add_available in Ho.
  unfold_io. cases; invert_pairs.
  match goal with
  | |- exists row, hd_error ?l = Some row => apply hd_error_some
  end.
  match goal with
  | H : negb (existsb _ (books s)) = false |- _ =>
      apply negb_false_iff, (existsb_key Book.id) in H; rename H into Hbook
  end.
  match goal with
  | H : negb (existsb _ (borrowers s)) = false |- _ =>
      apply negb_false_iff, (existsb_key Borrower.id) in H; rename H into Hbrw
  end.
  eapply select_details_nonempty.
  - simpl. apply in_app_iff. right. left. reflexivity.
  - unfold BorrowingRepository.has_id. simpl. apply Z.eqb_refl.
  - simpl. rewrite (map_update_key Book.id); [exact Hbook | reflexivity].
  - simpl. exact Hbrw.
Qed.

Lemma active_filter_nonempty (s : db) (borrowerId bookId : Z) :
  holds_active_loan s borrowerId bookId ->
  Nat.eqb
    (List.length
       (filter (fun r => (Borrowing.borrower_id r =? borrowerId)
                         && (Borrowing.book_id r =? bookId)
                         && Borrowing.active r) (borrowings s))) 0 = false.
Proof.
  intros [r [Hr [E1 [E2 E3]]]].
  destruct (filter _ (borrowings s)) eqn:F; [|reflexivity].
  exfalso.
  assert (In r []) as Hin; [|contradiction].
  rewrite <- F. apply filter_In. split; [assumption|].
  unfold Borrowing.active. rewrite E1, E2, E3, !Z.eqb_refl. reflexivity.
Qed.

(** ** C2: the failures of checkout *)

(** C2 (as amended). For a checkout request that passes
    validateCheckoutData, the guards apply in this order: if the book does
    not exist the request fails with "Book not found" (NotFound); else if
    the book's available_quantity is <= 0 it fails with "Book is not
    available for checkout" (Unavailable); else if the borrower does not
    exist it fails with "Borrower not found" (NotFound); else if the
    borrower holds an active borrowing of that book it fails with "Borrower
    already has this book checked out" (Conflict).  Whenever a checkout
    request is rejected the database is unchanged: no borrowing is created
    and no available_quantity changes. *)
Theorem checkoutBook_failures :
  forall (now : Z) (req : BorrowingDTO.CheckoutRequest.t) (s : db),
    db_wf s ->
    BorrowingDTO.validateCheckoutData
      now (BorrowingDTO.fromCheckoutRequest now req) = Valid ->
    let book_id := BorrowingDTO.CheckoutRequest.book_id req in
    let borrower_id := BorrowingDTO.CheckoutRequest.borrower_id req in
    let checkout := BorrowingService.checkoutBook now req in
    (~ In book_id (map Book.id (books s)) ->
     rejects_unchanged checkout s "Book not found" NotFound)
    /\ (forall b,
           In b (books s) -> Book.id b = book_id ->
           (Book.available_quantity b <= 0 ->
            rejects_unchanged checkout s
                              "Book is not available for checkout" Unavailable)
           /\ (0 < Book.available_quantity b ->
               ~ In borrower_id (map Borrower.id (borrowers s)) ->
               rejects_unchanged checkout s "Borrower not found" NotFound)
           /\ (0 < Book.available_quantity b ->
               In borrower_id (map Borrower.id (borrowers s)) ->
               holds_active_loan s borrower_id book_id ->
               rejects_unchanged checkout s
                 "Borrower already has this book checked out" Conflict))
    /\ (forall e s', checkout s = (Rejected e, s') -> s' = s).
Proof.
  intros now req s Hwf Hvalid book_id borrower_id checkout.
  subst checkout. unfold rejects_unchanged.
  split; [|split].
  - intros Habsent. split; [|reflexivity].
    unfold BorrowingService.checkoutBook. cbv zeta. rewrite Hvalid.
    unfold bind, BookRepository.findById, query. simpl.
    fold book_id. now rewrite find_book_absent.
  - intros b Hb Hid.
    assert (find (BookRepository.has_id book_id) (books s) = Some b) as Hfind.
    { rewrite <- Hid. eapply find_book_present; eassumption. }
    split; [|split].
    + intros Hle. split; [|reflexivity].
      unfold BorrowingService.checkoutBook. cbv zeta. rewrite Hvalid.
      unfold bind, BookRepository.findById, query. simpl.
      fold book_id. rewrite Hfind.
      destruct (Z.leb_spec (Book.available_quantity b) 0); [reflexivity | lia].
    + intros Hpos Habsent. split; [|reflexivity].
      unfold BorrowingService.checkoutBook. cbv zeta. rewrite Hvalid.
      unfold bind, BookRepository.findById, BorrowerRepository.findById, query.
      simpl. fold book_id borrower_id. rewrite Hfind.
      destruct (Z.leb_spec (Book.available_quantity b) 0); [lia|].
      now rewrite find_borrower_absent.
    + intros Hpos Hpresent Hloan. split; [|reflexivity].
      unfold BorrowingService.checkoutBook. cbv zeta. rewrite Hvalid.
      unfold bind, BookRepository.findById, BorrowerRepository.findById,
        BorrowingRepository.hasActiveBorrowing, query.
      simpl. fold book_id borrower_id. rewrite Hfind.
      destruct (Z.leb_spec (Book.available_quantity b) 0); [lia|].
      destruct (find_borrower_present s borrower_id Hpresent) as [w ->].
      now rewrite active_filter_nonempty.
  - intros e s' H.
    unfold BorrowingService.checkoutBook, BookRepository.findById,
      BorrowerRepository.findById, BorrowingRepository.hasActiveBorrowing,
      BorrowingService.respond in H.
    unfold bind at 1 2 3 4, query, throw, ret in H. cbv zeta in H.
    repeat match type of H with
           | context [match ?x with _ => _ end] =>
               let E := fresh "E" in destruct x eqn:E; try discriminate
           end;
      try (inversion H; reflexivity).
    all: try (destruct (create_cases
                          (BorrowingDTO.fromCheckoutRequest now req) s)
               as [[e' He] | [o' Ho]]; congruence).
    all: exfalso;
      match goal with
      | E : BorrowingRepository.create _ _ = (Resolved None, _) |- _ =>
          apply create_resolved_some in E; destruct E; discriminate
      end.
Qed.

Lemma checkoutBook_failures_witness :
  rejects_unchanged
    (BorrowingService.checkoutBook (Sample.noon Sample.day_2024_01_01)
                                   (Sample.checkout 1))
    (Sample.lent Sample.gatsby)
    "Borrower already has this book checked out" Conflict.
Proof.
  assert (db_wf (Sample.lent Sample.gatsby)) as Hwf
    by (apply db_wfb_sound; vm_compute; reflexivity).
  assert (BorrowingDTO.validateCheckoutData
            (Sample.noon Sample.day_2024_01_01)
            (BorrowingDTO.fromCheckoutRequest
               (Sample.noon Sample.day_2024_01_01) (Sample.checkout 1))
          = Valid) as Hvalid by (vm_compute; reflexivity).
  pose proof (checkoutBook_failures _ _ _ Hwf Hvalid) as H.
  cbv zeta in H. destruct H as [_ [H _]].
  refine (proj2 (proj2 (H (Book.mk 1 "The Great Gatsby" "F. Scott Fitzgerald"
                                   "9780743273565" 4 5 (Some "A1-001"%string))
                          _ _)) _ _ _).
  - vm_compute. left. reflexivity.
  - reflexivity.
  - simpl. lia.
  - vm_compute. left. reflexivity.
  - eexists. split; [vm_compute; left; reflexivity|].
    repeat split.
Defined.

(** C2 as stated fails where its cases overlap.  John holds the only copy
    of book 1: his second checkout of it is rejected as Unavailable, not
    as Conflict; and a checkout of it by a borrower who does not exist is
    rejected as Unavailable, not as NotFound. *)
Lemma checkout_overlapping_failures :
  let s := Sample.lent Sample.pride in
  let now := Sample.noon Sample.day_2024_01_01 in
  holds_active_loan s 1 1
  /\ fst (BorrowingService.checkoutBook now (Sample.checkout 1) s)
     = Rejected (Error "Book is not available for checkout")
  /\ error_kind (Error "Book is not available for checkout") <> Conflict
  /\ ~ In 7 (map Borrower.id (borrowers s))
  /\ fst (BorrowingService.checkoutBook
            now (BorrowingDTO.CheckoutRequest.mk 1 7 None) s)
     = Rejected (Error "Book is not available for checkout")
  /\ error_kind (Error "Book is not available for checkout") <> NotFound.
Proof.
  cbv zeta. split; [|split; [|split; [|split; [|split]]]].
  - eexists. split; [vm_compute; left; reflexivity|]. repeat split.
  - vm_compute. reflexivity.
  - vm_compute. discriminate.
  - vm_compute. intros [H | [H | []]]; discriminate.
  - vm_compute. reflexivity.
  - vm_compute. discriminate.
Qed.

(** Every row of the join pairs a selected borrowing with its book and its
    borrower. *)
Lemma select_details_in (wher : Borrowing.t -> bool) (s : db)
      (x : BorrowingRow.t) :
  In x (BorrowingRepository.select_details wher s) ->
  In (BorrowingRow.borrowing x) (borrowings s)
  /\ wher (BorrowingRow.borrowing x) = true
  /\ exists b w,
      In b (books s)
      /\ Book.id b = Borrowing.book_id (BorrowingRow.borrowing x)
      /\ In w (borrowers s)
      /\ Borrower.id w = Borrowing.borrower_id (BorrowingRow.borrowing x)
      /\ x = BorrowingRow.mk (BorrowingRow.borrowing x)
                             (Book.title b) (Book.author b) (Book.isbn b)
                             (Borrower.name w) (Borrower.email w).
Proof.
  unfold BorrowingRepository.select_details. intros H.
  apply in_flat_map in H. destruct H as [r [Hr H]].
  apply in_flat_map in H. destruct H as [b [Hb H]].
  apply in_map_iff in H. destruct H as [w [E Hw]].
  apply filter_In in Hr. destruct Hr as [Hr Hwher].
  apply filter_In in Hb. destruct Hb as [Hb Hbid].
  apply filter_In in Hw. destruct Hw as [Hw Hwid].
  apply Z.eqb_eq in Hbid. apply Z.eqb_eq in Hwid.
  subst x. simpl. split; [assumption|]. split; [assumption|].
  exists b, w. auto.
Qed.

Lemma hd_error_in {R : Type} (l : list R) (x : R) :
  hd_error l = Some x -> In x l.
Proof. destruct l; simpl; [discriminate|]. intros [= ->]. now left. Qed.

(** ** C3: the effect of a successful checkout *)

Ltac hyp_cases :=
  repeat match goal with
         | H : context [match ?x with _ => _ end] |- _ =>
             let E := fresh "E" in destruct x eqn:E; try discriminate
         end.

Lemma today_plus_days (now n : Z) :
  today (now + n * ms_per_day) = today now + n.
Proof. unfold today. apply Z.div_add. unfold ms_per_day. lia. Qed.

(** C3. A successful checkout appends exactly one borrowing, with a fresh
    id, the requested book and borrower, return_date NULL and
    checkout_date today; it decrements the available_quantity of the book
    by exactly 1 and changes nothing else.  The due date is the one
    supplied, and checkout_date + 14 days when none is supplied. *)
Theorem checkoutBook_effect :
  forall (now : Z) (req : BorrowingDTO.CheckoutRequest.t) (s s' : db)
         (resp : BorrowingDTO.DetailedBorrowing.t),
    BorrowingService.checkoutBook now req s = (Resolved resp, s') ->
    let book_id := BorrowingDTO.CheckoutRequest.book_id req in
    exists row,
      borrowings s' = borrowings s ++ [row]
      /\ Borrowing.id row = borrowings_id_seq s
      /\ Borrowing.book_id row = book_id
      /\ Borrowing.borrower_id row = BorrowingDTO.CheckoutRequest.borrower_id req
      /\ Borrowing.return_date row = None
      /\ Borrowing.checkout_date row = today now
      /\ Borrowing.due_date row
         = match BorrowingDTO.CheckoutRequest.due_date req with
           | Some due_date => due_date
           | None => Borrowing.checkout_date row + 14
           end
      /\ books s'
         = map (fun b => if Book.id b =? book_id
                         then Book.mk (Book.id b) (Book.title b)
                                      (Book.author b) (Book.isbn b)
                                      (Book.available_quantity b - 1)
                                      (Book.total_quantity b)
                                      (Book.shelf_location b)
                         else b) (books s)
      /\ borrowers s' = borrowers s
      /\ (exists b, find (BookRepository.has_id book_id) (books s) = Some b
                    /\ 0 < Book.available_quantity b)
      /\ BorrowingDTO.PublicBorrowing.id (BorrowingDTO.DetailedBorrowing.public resp)
         = Borrowing.id row.
Proof.
  intros now req s s' resp H book_id.
  unfold BorrowingService.checkoutBook, BorrowingRepository.create,
    BorrowingService.respond, BookRepository.findById,
    BorrowerRepository.findById, BorrowingRepository.hasActiveBorrowing,
    BorrowingRepository.insert_into_borrowings,
    BookRepository.add_available in H.
  unfold bind, ret, throw, query, transaction in H. hyp_cases. invert_pairs.
  eexists. split; [reflexivity|]. simpl.
  repeat split.
  - destruct (BorrowingDTO.CheckoutRequest.due_date req); [reflexivity|].
    exact (today_plus_days now 14).
  - eexists. split; [eassumption|]. lia.
  - match goal with
    | H : hd_error _ = Some _ |- _ => apply hd_error_in, select_details_in in H;
                                      destruct H as [_ [H _]]
    end.
    unfold BorrowingRepository.has_id in *. simpl in *.
    now apply Z.eqb_eq.
Qed.

Lemma checkoutBook_effect_witness :
  exists row,
    borrowings (Sample.lent Sample.gatsby)
    = borrowings (Sample.library Sample.gatsby) ++ [row]
    /\ Borrowing.return_date row = None
    /\ Borrowing.checkout_date row = Sample.day_2024_01_01
    /\ Borrowing.due_date row = Sample.day_2024_01_01 + 14
    /\ map (fun b => (Book.available_quantity b, Book.total_quantity b))
           (books (Sample.library Sample.gatsby)) = [(5, 5)]
    /\ map (fun b => (Book.available_quantity b, Book.total_quantity b))
           (books (Sample.lent Sample.gatsby)) = [(4, 5)].
Proof.
  destruct (checkoutBook_effect
              (Sample.noon Sample.day_2024_01_01) (Sample.checkout 1)
              (Sample.library Sample.gatsby) (Sample.lent Sample.gatsby)
              (BorrowingDTO.DetailedBorrowing.mk
                 (BorrowingDTO.PublicBorrowing.mk
                    1 1 1 19723 19737 None
                    (Some (BorrowingDTO.BookSummary.mk
                             "The Great Gatsby" "F. Scott Fitzgerald"
                             "9780743273565"))
                    (Some (BorrowingDTO.BorrowerSummary.mk
                             "John Smith" "john.smith@email.com")))
                 false 0))
    as [row [H1 [_ [_ [_ [H2 [H3 [H4 [H5 _]]]]]]]]].
  - vm_compute. reflexivity.
  - exists row. split; [exact H1|]. split; [exact H2|].
    split; [exact H3|]. split; [rewrite H4, H3; reflexivity|].
    split; [reflexivity|]. rewrite H5. reflexivity.
Defined.

(** ** C4: the failures of return, and at most one success *)

Lemma key_unique {R : Type} (key : R -> Z) (l : list R) (a b : R) :
  NoDup (map key l) -> In a l -> In b l -> key a = key b -> a = b.
Proof.
  intros Hnd Ha Hb E.
  pose proof (filter_key_unique key l b Hnd Hb) as F.
  assert (In a [b]) as Hin.
  { rewrite <- F. apply filter_In. split; [assumption | now apply Z.eqb_eq]. }
  destruct Hin as [<- | []]. reflexivity.
Qed.

Lemma findById_absent (s : db) (id : Z) :
  ~ In id (map Borrowing.id (borrowings s)) ->
  BorrowingRepository.select_details (BorrowingRepository.has_id id) s = [].
Proof.
  intros H. unfold BorrowingRepository.select_details.
  replace (filter (BorrowingRepository.has_id id) (borrowings s)) with
    (@nil Borrowing.t); [reflexivity|].
  symmetry. now apply (filter_key_absent Borrowing.id).
Qed.

Lemma findById_present (closed : Z -> Prop) (s : db) (r : Borrowing.t) :
  db_inv closed s -> In r (borrowings s) ->
  exists x,
    hd_error (BorrowingRepository.select_details
                (BorrowingRepository.has_id (Borrowing.id r)) s) = Some x
    /\ BorrowingRow.borrowing x = r.
Proof.
  intros Hinv Hr.
  destruct (hd_error_some
              (BorrowingRepository.select_details
                 (BorrowingRepository.has_id (Borrowing.id r)) s)) as [x Hx].
  - apply (select_details_nonempty _ s r); auto.
    + apply Z.eqb_refl.
    + now apply (borrowings_book_id_fkey _ _ Hinv).
    + now apply (borrowings_borrower_id_fkey _ _ Hinv).
  - exists x. split; [assumption|].
    apply hd_error_in, select_details_in in Hx.
    destruct Hx as [Hin [Hid _]].
    apply Z.eqb_eq in Hid.
    apply (key_unique Borrowing.id (borrowings s)); auto.
    apply Hinv.
Qed.

Lemma returnBook_not_found (now borrowingId : Z) (s : db) :
  BorrowingRepository.select_details
    (BorrowingRepository.has_id borrowingId) s = [] ->
  rejects_unchanged (BorrowingService.returnBook now borrowingId) s
                    "Borrowing not found" NotFound.
Proof.
  intros H. split; [|reflexivity].
  unfold BorrowingService.returnBook, BorrowingRepository.findById, bind, query.
  cbv zeta. now rewrite H.
Qed.

Lemma returnBook_already_returned (now borrowingId : Z) (s : db) x d :
  hd_error (BorrowingRepository.select_details
              (BorrowingRepository.has_id borrowingId) s) = Some x ->
  Borrowing.return_date (BorrowingRow.borrowing x) = Some d ->
  rejects_unchanged (BorrowingService.returnBook now borrowingId) s
                    "Book has already been returned" Conflict.
Proof.
  intros H Hd. split; [|reflexivity].
  unfold BorrowingService.returnBook, BorrowingRepository.findById, bind, query.
  cbv zeta. now rewrite H, Hd.
Qed.

(** Once the borrowing [i] is closed, a return request for it is rejected
    and changes nothing. *)
Lemma returnBook_closed (now i : Z) (s : db) :
  db_inv (eq i) s ->
  exists e,
    BorrowingService.returnBook now i s = (Rejected e, s)
    /\ (error_kind e = NotFound \/ error_kind e = Conflict).
Proof.
  intros Hinv.
  destruct (BorrowingRepository.select_details
              (BorrowingRepository.has_id i) s) as [|x l] eqn:E.
  - destruct (returnBook_not_found now i s E) as [H1 H2].
    eexists. split; [exact H1 | now left].
  - assert (In x (BorrowingRepository.select_details
                    (BorrowingRepository.has_id i) s)) as Hx
        by (rewrite E; now left).
    apply select_details_in in Hx. destruct Hx as [Hin [Hid _]].
    apply Z.eqb_eq in Hid.
    pose proof (closed_returned _ _ Hinv _ Hin (eq_sym Hid)) as Hact.
    unfold Borrowing.active in Hact.
    destruct (Borrowing.return_date (BorrowingRow.borrowing x)) as [d|] eqn:Ed;
      [|discriminate].
    destruct (returnBook_already_returned now i s x d) as [H1 H2]; auto.
    + now rewrite E.
    + eexists. split; [exact H1 | now right].
Qed.

(** A successful return closes the borrowing. *)
Lemma returnBook_closes (now i : Z) (s s' : db) resp :
  db_wf s ->
  BorrowingService.returnBook now i s = (Resolved resp, s') ->
  db_inv (eq i) s'.
Proof.
  intros Hwf H.
  assert (db_wf s') as Hwf'.
  { replace s' with (snd (BorrowingService.returnBook now i s))
      by (now rewrite H).
    now apply service_returnBook_inv. }
  assert (s' = snd (BorrowingRepository.returnBook i (today now) s)
          /\ exists o, fst (BorrowingRepository.returnBook i (today now) s)
                       = Resolved o) as [Hs' [o Ho]].
  { unfold BorrowingService.returnBook, BorrowingRepository.findById,
      BorrowingService.respond, BorrowingDTO.fromReturnRequest in H.
    unfold bind at 1 2, query, throw, ret in H. cbv zeta in H.
    repeat match type of H with
           | context [match ?x with _ => _ end] =>
               let E := fresh "E" in destruct x eqn:E; try discriminate
           end.
    inversion H; subst. simpl. split; [reflexivity | eexists; reflexivity]. }
  destruct (returnBook_cases i (today now) s) as [[e He] | [r [Hr Hres]]].
  - rewrite He in Ho. discriminate.
  - rewrite Hres in Hs'. simpl in Hs'.
    apply find_some_in in Hr. destruct Hr as [Hin Hp].
    apply andb_true_iff in Hp. destruct Hp as [Hid _].
    apply Z.eqb_eq in Hid.
    destruct Hwf' as [H1 H2 H3 H4 H5 H6 H7 H8 H9 H10 H11 H12].
    constructor; auto.
    + intros j Hj. subst s'. simpl.
      pose proof (borrowings_serial _ _ Hwf _ Hin).
      unfold BorrowingRepository.has_id in Hid. lia.
    + intros x Hx Hj. subst s'. simpl in Hx.
      apply in_map_update in Hx.
      destruct Hx as [y [Hy [[Hp Ey] | [Hp Ey]]]].
      * rewrite Ey. reflexivity.
      * unfold BorrowingRepository.has_id in Hp.
        apply Z.eqb_neq in Hp. subst y. congruence.
Qed.

(** C4. A return request for an id no borrowing has is rejected with
    "Borrowing not found" (NotFound); for a borrowing whose return_date is
    already set it is rejected with "Book has already been returned"
    (Conflict); in both cases the database is unchanged.  After a return
    of a borrowing has succeeded, whatever requests are served next, every
    further return of the same id is rejected (NotFound or Conflict) and
    changes nothing: a return succeeds at most once. *)
Theorem returnBook_failures :
  forall (now borrowingId : Z) (s : db),
    db_wf s ->
    (~ In borrowingId (map Borrowing.id (borrowings s)) ->
     rejects_unchanged (BorrowingService.returnBook now borrowingId) s
                       "Borrowing not found" NotFound)
    /\ (forall r d,
           In r (borrowings s) -> Borrowing.id r = borrowingId ->
           Borrowing.return_date r = Some d ->
           rejects_unchanged (BorrowingService.returnBook now borrowingId) s
                             "Book has already been returned" Conflict)
    /\ (forall resp s1,
           BorrowingService.returnBook now borrowingId s = (Resolved resp, s1) ->
           forall trace now',
           exists e,
             BorrowingService.returnBook now' borrowingId (run trace s1)
             = (Rejected e, run trace s1)
             /\ (error_kind e = NotFound \/ error_kind e = Conflict)).
Proof.
  intros now i s Hwf. split; [|split].
  - intros H. apply returnBook_not_found. now apply findById_absent.
  - intros r d Hr <- Hd.
    destruct (findById_present _ s r Hwf Hr) as [x [Hx Ex]].
    apply (returnBook_already_returned now _ s x d); [assumption|].
    now rewrite Ex.
  - intros resp s1 H trace now'.
    apply returnBook_closed. apply run_inv.
    eapply returnBook_closes; eassumption.
Qed.

Lemma returnBook_failures_witness :
  let s := Sample.lent Sample.gatsby in
  let now := Sample.noon Sample.day_2024_01_10 in
  let s1 := snd (BorrowingService.returnBook now 1 s) in
  rejects_unchanged (BorrowingService.returnBook now 9) s
                    "Borrowing not found" NotFound
  /\ exists e,
      BorrowingService.returnBook now 1 s1 = (Rejected e, s1)
      /\ (error_kind e = NotFound \/ error_kind e = Conflict).
Proof.
  intros s now s1.
  assert (db_wf s) as Hwf by (apply db_wfb_sound; vm_compute; reflexivity).
  split.
  - apply (proj1 (returnBook_failures now 9 s Hwf)).
    vm_compute. intros [H | []]. discriminate.
  - refine (proj2 (proj2 (returnBook_failures now 1 s Hwf)) _ s1 _ [] now).
    subst s1. lazy. reflexivity.
Defined.


(** ** C5: the return date of a return request *)

(** C5 (what the code does at the failing input). The controller hands
    only borrowing_id to the service, and fromReturnRequest does not read
    its argument: a return request answers and stores today's date
    whatever return_date its body supplies.  Borrowing 1 returned on
    2024-01-10 with return_date 2024-01-06 in the body is stored and
    answered with return_date 2024-01-10. *)
Theorem returnBook_ignores_return_date :
  (forall now i d s,
      BorrowingController.returnBook now (BorrowingDTO.ReturnRequest.mk i d) s
      = BorrowingController.returnBook now (BorrowingDTO.ReturnRequest.mk i None) s)
  /\ let r := BorrowingController.returnBook
                (Sample.noon Sample.day_2024_01_10) Sample.return_backdated
                (Sample.lent Sample.gatsby) in
     (exists resp,
         fst r = Resolved resp
         /\ BorrowingDTO.PublicBorrowing.return_date
              (BorrowingDTO.DetailedBorrowing.public resp)
            = Some Sample.day_2024_01_10)
     /\ map Borrowing.return_date (borrowings (snd r))
        = [Some Sample.day_2024_01_10]
     /\ Some Sample.day_2024_01_10
        <> BorrowingDTO.ReturnRequest.return_date Sample.return_backdated.
Proof.
  split; [reflexivity|].
  vm_compute. split; [|split].
  - eexists. split; reflexivity.
  - reflexivity.
  - discriminate.
Qed.

(** ** C6: due-date extension *)

(** C6 (what the code does). No due-date extension succeeds: whatever
    the borrowing, the date and the reason, the request is rejected and
    the database is left as it was.  At the failing input, an extension
    of the active borrowing 1 (due 2024-01-15) to 2024-02-07, asked on
    2024-01-10, passes the two guards of the service and finds the
    borrowing, and is then rejected by the database for the column
    extension_count (an internal error): due_date stays 2024-01-15. *)
Theorem extendDueDate_never_succeeds :
  (forall (now borrowingId : Z) (d : option Z) (reason : option string)
          (s : db),
      exists e, BorrowingService.extendDueDate now borrowingId d reason s
                = (Rejected e, s))
  /\ (let s := Sample.lent Sample.gatsby in
      map (fun r => (Borrowing.id r, Borrowing.due_date r,
                     Borrowing.return_date r)) (borrowings s)
      = [(1, 19737, None)]
      /\ BorrowingService.extendDueDate
           (Sample.noon Sample.day_2024_01_10) 1 (Some 19760)
           (Some "Holiday"%string) s
         = (Rejected (BorrowingRepository.column_does_not_exist
                        "extension_count"), s)
      /\ error_kind (BorrowingRepository.column_does_not_exist
                       "extension_count") = Internal).
Proof.
  split.
  - intros now i d reason s.
    unfold BorrowingService.extendDueDate.
    destruct d as [newDueDate|]; [|eexists; reflexivity].
    destruct (new_Date newDueDate <=? now); [eexists; reflexivity|].
    unfold bind at 1.
    destruct (extendDueDate_cases i newDueDate reason s) as [e ->].
    eexists. reflexivity.
  - vm_compute. repeat split.
Qed.

(** ** C8: available_quantity within total_quantity *)

(** C8. In every database state reached from the empty database by any
    sequence of requests (book creation, updates and deletions, direct
    availability adjustments, borrower requests, checkouts, returns and
    extensions), every book has 0 <= available_quantity <= total_quantity.
    A direct inventory edit re-validates the invariant before it is
    applied: updateBook resolves only when the quantities of the existing
    book merged with the edit satisfy it, and a rejected edit leaves the
    database unchanged. *)
Theorem available_within_total :
  (forall (trace : list (Z * request)) (b : Book.t),
      In b (books (run trace empty_db)) ->
      0 <= Book.available_quantity b <= Book.total_quantity b)
  /\ (forall (s s' : db) (bookId : Z) (updateData : BookDTO.UpdateData.t) book,
         BookService.updateBook bookId updateData s = (Resolved book, s') ->
         exists existingBook,
           find (BookRepository.has_id bookId) (books s) = Some existingBook
           /\ let final := BookService.finalData
                             existingBook
                             (BookDTO.fromUpdateRequest updateData) in
              0 <= fst final <= snd final)
  /\ (forall (s s' : db) (bookId : Z) (updateData : BookDTO.UpdateData.t) e,
         BookService.updateBook bookId updateData s = (Rejected e, s') ->
         s' = s).
Proof.
  split; [|split].
  - intros trace b Hb.
    apply books_check_none.
    apply (books_checks _ _ (run_inv _ trace empty_db empty_db_wf)).
    exact Hb.
  - intros s s' bookId u book H.
    unfold BookService.updateBook, BookRepository.findById,
      BookRepository.isbnExists in H.
    unfold bind at 1 2, query, throw, ret in H. cbv zeta in H.
    destruct (find (BookRepository.has_id bookId) (books s))
      as [existingBook|] eqn:Hfind; [|discriminate].
    exists existingBook. split; [reflexivity|].
    cbv zeta.
    destruct (BookDTO.validateQuantities
                (fst (BookService.finalData existingBook
                                            (BookDTO.fromUpdateRequest u)))
                (snd (BookService.finalData existingBook
                                            (BookDTO.fromUpdateRequest u))))
      eqn:Hv.
    + unfold BookDTO.validateQuantities in Hv.
      repeat match type of Hv with
             | context [if ?c then _ else _] =>
                 let E := fresh "E" in destruct c eqn:E; try discriminate
             end.
      apply Z.ltb_ge in E. apply Z.ltb_ge in E0.
      destruct (Z.gtb_spec
                  (fst (BookService.finalData existingBook
                                              (BookDTO.fromUpdateRequest u)))
                  (snd (BookService.finalData existingBook
                                              (BookDTO.fromUpdateRequest u))));
        [discriminate | lia].
    + exfalso.
      repeat match type of H with
             | context [match ?x with _ => _ end] =>
                 let E := fresh "E" in destruct x eqn:E; try discriminate
             end.
  - intros s s' bookId u e H.
    unfold BookService.updateBook, BookRepository.findById,
      BookRepository.isbnExists, BookRepository.update in H.
    unfold bind, query, throw, ret in H. cbv zeta in H.
    hyp_cases; invert_pairs; reflexivity.
Qed.

Lemma available_within_total_witness :
  let b := Book.mk 1 "The Catcher in the Rye" "J.D. Salinger"
                   "9780316769174" 1 2 (Some "A1-003"%string) in
  let trace := [(Sample.noon Sample.day_2024_01_01, CreateBook Sample.catcher)] in
  In b (books (run trace empty_db))
  /\ 0 <= Book.available_quantity b <= Book.total_quantity b.
Proof.
  intros b trace.
  assert (In b (books (run trace empty_db))) as Hb
      by (vm_compute; left; reflexivity).
  split; [exact Hb|].
  exact (proj1 available_within_total trace b Hb).
Defined.

(** ** C9: deletion guards *)

Lemma insert_by_nonempty {R : Type} (le : R -> R -> bool) (x : R) (l : list R) :
  insert_by le x l <> [].
Proof. destruct l; simpl; [discriminate|]. destruct (le x r); discriminate. Qed.

Lemma order_by_nonempty {R : Type} (le : R -> R -> bool) (l : list R) :
  l <> [] -> order_by le l <> [].
Proof.
  destruct l as [|x l]; [congruence|]. intros _.
  unfold order_by. simpl. apply insert_by_nonempty.
Qed.

Lemma nonempty_length {R : Type} (l : list R) :
  l <> [] -> Nat.eqb (List.length l) 0 = false.
Proof. destruct l; [congruence | reflexivity]. Qed.

Lemma in_nonempty {R : Type} (l : list R) (x : R) : In x l -> l <> [].
Proof. intros H E. rewrite E in H. contradiction. Qed.

(** C9. While some borrowing with return_date NULL references a book,
    deleting the book is rejected with "Cannot delete book with active
    borrowings" (Conflict); while a borrower has a borrowing with
    return_date NULL, deleting the borrower is rejected with "Cannot
    delete borrower with active borrowings" (Conflict).  In both cases the
    database is unchanged: nothing is deleted. *)
Theorem delete_blocked_by_active_borrowings :
  forall (s : db) (r : Borrowing.t),
    db_wf s -> In r (borrowings s) -> Borrowing.return_date r = None ->
    rejects_unchanged (BookService.deleteBook (Borrowing.book_id r)) s
                      "Cannot delete book with active borrowings" Conflict
    /\ rejects_unchanged
         (BorrowerService.deleteBorrower (Borrowing.borrower_id r)) s
         "Cannot delete borrower with active borrowings" Conflict.
Proof.
  intros s r Hwf Hr Hnull.
  assert (Borrowing.active r = true) as Hact
      by (unfold Borrowing.active; now rewrite Hnull).
  pose proof (borrowings_book_id_fkey _ _ Hwf r Hr) as Hbook.
  apply in_map_iff in Hbook. destruct Hbook as [b [Eb Hb]].
  split; (split; [|reflexivity]).
  - unfold BookService.deleteBook, BookRepository.findById,
      BorrowingRepository.hasActiveBookBorrowings, bind, query.
    rewrite <- Eb, (find_book_present _ s b Hwf Hb), Eb.
    rewrite nonempty_length; [reflexivity|].
    apply (in_nonempty _ r). apply filter_In. split; [assumption|].
    now rewrite Z.eqb_refl, Hact.
  - pose proof (borrowings_borrower_id_fkey _ _ Hwf r Hr) as Hbrw.
    destruct (find_borrower_present s _ Hbrw) as [w Hw].
    unfold BorrowerService.deleteBorrower, BorrowerRepository.findById,
      BorrowerRepository.getCurrentBooks, bind, query.
    rewrite Hw.
    rewrite nonempty_length; [reflexivity|].
    apply order_by_nonempty.
    apply (in_nonempty _ (BorrowerRepository.CurrentBook.mk
                            (Book.id b) (Book.title b) (Book.author b)
                            (Book.isbn b) (Borrowing.id r)
                            (Borrowing.checkout_date r) (Borrowing.due_date r))).
    apply in_flat_map. exists r. split.
    + apply filter_In. split; [assumption|].
      now rewrite Z.eqb_refl, Hact.
    + apply in_map_iff. exists b. split; [reflexivity|].
      apply filter_In. split; [assumption|].
      now apply Z.eqb_eq.
Qed.

Lemma delete_blocked_by_active_borrowings_witness :
  rejects_unchanged (BookService.deleteBook 1) (Sample.lent Sample.gatsby)
                    "Cannot delete book with active borrowings" Conflict
  /\ rejects_unchanged (BorrowerService.deleteBorrower 1)
                       (Sample.lent Sample.gatsby)
                       "Cannot delete borrower with active borrowings" Conflict.
Proof.
  refine (delete_blocked_by_active_borrowings
            (Sample.lent Sample.gatsby)
            (Borrowing.mk 1 1 1 19723 19737 None) _ _ _).
  - apply db_wfb_sound. vm_compute. reflexivity.
  - vm_compute. left. reflexivity.
  - reflexivity.
Defined.

(** ** The effect of a successful return *)

(** A successful return closes the borrowing with today's date,
    increments the available_quantity of its book by exactly 1, changes
    nothing else, and answers with the updated borrowing enriched with the
    book's title, author and ISBN and the borrower's name and e-mail. *)
Lemma returnBook_effect (now i : Z) (s s' : db)
      (resp : BorrowingDTO.DetailedBorrowing.t) :
  db_wf s ->
  BorrowingService.returnBook now i s = (Resolved resp, s') ->
  exists r b w,
    In r (borrowings s) /\ Borrowing.id r = i /\ Borrowing.return_date r = None
    /\ In b (books s) /\ Book.id b = Borrowing.book_id r
    /\ In w (borrowers s) /\ Borrower.id w = Borrowing.borrower_id r
    /\ borrowings s'
       = map (fun x => if Borrowing.id x =? i
                       then BorrowingRepository.set_return_date (today now) x
                       else x) (borrowings s)
    /\ books s'
       = map (fun x => if Book.id x =? Borrowing.book_id r
                       then BookRepository.plus_available 1 x
                       else x) (books s)
    /\ borrowers s' = borrowers s
    /\ BorrowingDTO.DetailedBorrowing.public resp
       = BorrowingDTO.PublicBorrowing.mk
           i (Borrowing.book_id r) (Borrowing.borrower_id r)
           (Borrowing.checkout_date r) (Borrowing.due_date r)
           (Some (today now))
           (Some (BorrowingDTO.BookSummary.mk (Book.title b) (Book.author b)
                                              (Book.isbn b)))
           (Some (BorrowingDTO.BorrowerSummary.mk (Borrower.name w)
                                                  (Borrower.email w))).
Proof.
  intros Hwf H.
  assert (exists x,
             BorrowingRepository.returnBook i (today now) s
             = (Resolved (Some x), s')
             /\ resp = BorrowingDTO.toDetailedBorrowingResponse
                         now (BorrowingService.with_summaries x))
    as [x [Hrepo Hresp]].
  { unfold BorrowingService.returnBook, BorrowingRepository.findById,
      BorrowingService.respond, BorrowingDTO.fromReturnRequest in H.
    unfold bind at 1 2, query, throw, ret in H. cbv zeta in H.
    repeat match type of H with
           | context [match ?x with _ => _ end] =>
               let E := fresh "E" in destruct x eqn:E; try discriminate
           end.
    inversion H; subst. eexists. split; reflexivity. }
  destruct (returnBook_cases i (today now) s) as [[e He] | [r [Hr Hres]]];
    [congruence|].
  cbv zeta in Hres. rewrite Hres in Hrepo. inversion Hrepo as [[Hx Hs']].
  clear Hrepo Hres.
  apply find_some_in in Hr. destruct Hr as [Hin Hp].
  apply andb_true_iff in Hp. destruct Hp as [Hid Hact].
  apply Z.eqb_eq in Hid.
  assert (Borrowing.return_date r = None) as Hnull
      by (unfold Borrowing.active in Hact;
          now destruct (Borrowing.return_date r)).
  subst s'.
  apply hd_error_in, select_details_in in Hx.
  destruct Hx as [Hxin [Hxid [b' [w [Hb' [Eb' [Hw [Ew Ex]]]]]]]].
  apply Z.eqb_eq in Hxid.
  assert (BorrowingRow.borrowing x
          = BorrowingRepository.set_return_date (today now) r) as Hxr.
  { simpl in Hxin. apply in_map_update in Hxin.
    destruct Hxin as [y [Hy [[Hp Ey] | [Hp Ey]]]].
    - rewrite Ey. f_equal.
      apply (key_unique Borrowing.id (borrowings s)); auto; [apply Hwf|].
      apply Z.eqb_eq in Hp. congruence.
    - apply Z.eqb_neq in Hp. subst y. congruence. }
  assert (exists b, In b (books s) /\ Book.id b = Book.id b'
                    /\ Book.title b = Book.title b'
                    /\ Book.author b = Book.author b'
                    /\ Book.isbn b = Book.isbn b') as [b [Hb [Eid [Et [Ea Ei]]]]].
  { simpl in Hb'. apply in_map_update in Hb'.
    destruct Hb' as [y [Hy [[Hp Ey] | [Hp Ey]]]]; exists y; subst b'; auto. }
  simpl in Hw.
  exists r, b, w.
  rewrite Hxr in Eb', Ew. simpl in Eb', Ew.
  repeat split; auto; try congruence.
  rewrite Hresp.
    unfold BorrowingDTO.toDetailedBorrowingResponse,
      BorrowingDTO.toPublicBorrowing, BorrowingService.with_summaries.
  simpl. rewrite Hxr. simpl. rewrite Ex. simpl.
  rewrite Hid, Et, Ea, Ei. reflexivity.
Qed.

(** ** C10: overdue status and days overdue *)

Lemma ceil_div_days (now d : Z) :
  ceil_div (now - new_Date d) ms_per_day
  = today now - d + (if now mod ms_per_day =? 0 then 0 else 1).
Proof.
  unfold ceil_div, new_Date, today.
  assert (0 < ms_per_day) as Hpos by (unfold ms_per_day; lia).
  pose proof (Z.div_mod now ms_per_day ltac:(lia)) as Hdm.
  pose proof (Z.mod_pos_bound now ms_per_day Hpos) as Hb.
  set (q := now / ms_per_day) in *. set (m := now mod ms_per_day) in *.
  destruct (Z.eqb_spec m 0) as [E|E].
  - assert ((- (now - d * ms_per_day)) / ms_per_day = d - q) as ->; [|lia].
    symmetry. apply (Z.div_unique _ _ _ 0); lia.
  - assert ((- (now - d * ms_per_day)) / ms_per_day = d - q - 1) as ->; [|lia].
    symmetry. apply (Z.div_unique _ _ _ (ms_per_day - m)); lia.
Qed.

(** For an active borrowing the enriched response has is_overdue exactly
    when the midnight of the due date is before now, and then its
    days_overdue is today - due_date plus one, unless now is exactly
    midnight. *)
Lemma enriched_overdue_semantics (now : Z) (data : BorrowingDTO.BorrowingData.t) :
  let r := BorrowingRow.borrowing (BorrowingDTO.BorrowingData.row data) in
  let resp := BorrowingDTO.toDetailedBorrowingResponse now data in
  Borrowing.return_date r = None ->
  (BorrowingDTO.DetailedBorrowing.is_overdue resp = true
   <-> new_Date (Borrowing.due_date r) < now)
  /\ (new_Date (Borrowing.due_date r) < now ->
      BorrowingDTO.DetailedBorrowing.days_overdue resp
      = today now - Borrowing.due_date r
        + (if now mod ms_per_day =? 0 then 0 else 1)).
Proof.
  intros r resp Hnull. subst resp.
  unfold BorrowingDTO.toDetailedBorrowingResponse. cbv zeta. simpl.
  fold r. unfold Borrowing.active. rewrite Hnull. simpl.
  split.
  - apply Z.ltb_lt.
  - intros Hlt.
    change (1000 * 60 * 60 * 24) with ms_per_day.
    rewrite ceil_div_days.
    assert (Borrowing.due_date r <= today now).
    { unfold today, new_Date in *.
      apply Z.div_le_lower_bound; unfold ms_per_day in *; lia. }
    destruct (now mod ms_per_day =? 0); lia.
Qed.

(** The overdue query selects the active borrowings with
    due_date < today and computes days_overdue = today - due_date. *)
Lemma findOverdue_semantics (now : Z) (s : db) (x : BorrowingRow.t) (days : Z) :
  In (x, days)
     (order_by
        (fun x y => Borrowing.due_date (BorrowingRow.borrowing (fst x))
                    <=? Borrowing.due_date (BorrowingRow.borrowing (fst y)))
        (map (fun row =>
                (row, today now - Borrowing.due_date (BorrowingRow.borrowing row)))
             (BorrowingRepository.select_details
                (fun br => Borrowing.active br
                           && (Borrowing.due_date br <? today now)) s))) ->
  Borrowing.return_date (BorrowingRow.borrowing x) = None
  /\ Borrowing.due_date (BorrowingRow.borrowing x) < today now
  /\ days = today now - Borrowing.due_date (BorrowingRow.borrowing x).
Proof.
  assert (forall (R : Type) (le : R -> R -> bool) (a y : R) (l : list R),
             In y (insert_by le a l) -> y = a \/ In y l) as Hins.
  { intros R le a y l. induction l as [|z l IH]; simpl.
    - intros [<- | []]. now left.
    - destruct (le a z); simpl.
      + intros [<- | H]; auto.
      + intros [<- | H]; auto. destruct (IH H); auto. }
  assert (forall (R : Type) (le : R -> R -> bool) (y : R) (l : list R),
             In y (order_by le l) -> In y l) as Hord.
  { intros R le y l. induction l as [|z l IH]; simpl; [auto|].
    intros H. apply Hins in H. destruct H as [-> | H]; auto. }
  intros H. apply Hord in H. apply in_map_iff in H.
  destruct H as [row [E Hrow]]. inversion E; subst.
  apply select_details_in in Hrow. destruct Hrow as [_ [Hw _]].
  apply andb_true_iff in Hw. destruct Hw as [Hact Hdue].
  apply Z.ltb_lt in Hdue. unfold Borrowing.active in Hact.
  destruct (Borrowing.return_date (BorrowingRow.borrowing x)); [discriminate|].
  auto.
Qed.

(** C10 (what the code does at the failing input). The overdue query
    reports the borrowing due on 2024-01-01, viewed at noon of 2024-01-10,
    with days_overdue 9; the enriched responses, which compare the due
    date's midnight with the current instant and round up, report it with
    days_overdue 10.  Viewed at noon of its due date it is enriched as
    overdue by one day, while the overdue query does not select it. *)
Theorem enriched_overdue_rounds_up :
  let s := Sample.due_new_year in
  map (fun r => (Borrowing.due_date r, Borrowing.return_date r))
      (borrowings s) = [(Sample.day_2024_01_01, None)]
  /\ (exists resp,
         fst (BorrowingService.getBorrowingById
                (Sample.noon Sample.day_2024_01_10) 1 s) = Resolved resp
         /\ BorrowingDTO.DetailedBorrowing.is_overdue resp = true
         /\ BorrowingDTO.DetailedBorrowing.days_overdue resp = 10)
  /\ (exists rows,
         fst (BorrowingRepository.findOverdue
                (Sample.noon Sample.day_2024_01_10) s) = Resolved rows
         /\ map snd rows = [9])
  /\ (exists rows,
         fst (BorrowingService.getOverdueBorrowings
                (Sample.noon Sample.day_2024_01_10) s) = Resolved (rows, 1%nat)
         /\ map BorrowingDTO.DetailedBorrowing.days_overdue rows = [10])
  /\ (exists resp,
         fst (BorrowingService.getBorrowingById
                (Sample.noon Sample.day_2024_01_01) 1 s) = Resolved resp
         /\ BorrowingDTO.DetailedBorrowing.is_overdue resp = true
         /\ BorrowingDTO.DetailedBorrowing.days_overdue resp = 1)
  /\ fst (BorrowingRepository.findOverdue
            (Sample.noon Sample.day_2024_01_01) s) = Resolved [].
Proof.
  vm_compute.
  split; [reflexivity|].
  split; [eexists; repeat split|].
  split; [eexists; repeat split|].
  split; [eexists; repeat split|].
  split; [eexists; repeat split|].
  reflexivity.
Qed.

(** * Further properties of the services *)

(** ** Invariants of every request *)

(** A property of the database that the statements of the book and
    borrower repositories, a checkout request and the return and
    extension transactions keep is kept by every request, and so along
    every trace. *)
Section AnyInvariant.
Variable P : db -> Prop.
Hypothesis book_create : forall d, preserves P (BookRepository.create d).
Hypothesis book_update : forall i u, preserves P (BookRepository.update i u).
Hypothesis book_delete : forall p, preserves P (BookRepository.delete_where p).
Hypothesis book_add :
  forall w q, preserves P (BookRepository.add_available w q).
Hypothesis borrower_create : forall d, preserves P (BorrowerRepository.create d).
Hypothesis borrower_update :
  forall i u, preserves P (BorrowerRepository.update i u).
Hypothesis borrower_delete : forall i, preserves P (BorrowerRepository.delete i).
Hypothesis checkout :
  forall now d, preserves P (BorrowingService.checkoutBook now d).
Hypothesis return_tx :
  forall i d, preserves P (BorrowingRepository.returnBook i d).
Hypothesis extend_tx :
  forall i d r, preserves P (BorrowingRepository.extendDueDate i d r).

Ltac keep :=
  repeat first
    [ apply book_create | apply book_update | apply book_delete
    | apply book_add | apply borrower_create | apply borrower_update
    | apply borrower_delete | apply checkout | apply return_tx
    | apply extend_tx
    | apply preserves_ret | apply preserves_throw | apply preserves_query
    | apply preserves_bind; [|intros ?]
    | match goal with
      | |- preserves _ (match ?x with _ => _ end) => destruct x
      end ].

Lemma serve_keeps now r : preserves P (fun s => (Resolved tt, serve now r s)).
Proof.
  intros s H. simpl. revert s H.
  destruct r; simpl.
  - change (preserves P (BookService.createBook bookData)).
    unfold BookService.createBook, BookRepository.findByISBN. cbv zeta. keep.
  - change (preserves P (BookService.updateBook bookId updateData)).
    unfold BookService.updateBook, BookRepository.findById,
      BookRepository.isbnExists. cbv zeta. keep.
  - change (preserves P (BookService.deleteBook bookId)).
    unfold BookService.deleteBook, BookRepository.findById,
      BorrowingRepository.hasActiveBookBorrowings, BookRepository.delete. keep.
  - change (preserves P (BookService.deleteBookByISBN isbn)).
    unfold BookService.deleteBookByISBN, BookRepository.findByISBN,
      BorrowingRepository.hasActiveBookBorrowings, BookRepository.deleteByISBN.
    keep.
  - change (preserves P (BookService.updateBookAvailability bookId quantityChange)).
    unfold BookService.updateBookAvailability,
      BookRepository.updateAvailability. keep.
  - change (preserves P (BorrowerService.createBorrower now borrowerData)).
    unfold BorrowerService.createBorrower, BorrowerRepository.findByEmail.
    cbv zeta. keep.
  - change (preserves P (BorrowerService.updateBorrower borrowerId updateData)).
    unfold BorrowerService.updateBorrower, BorrowerRepository.findById,
      BorrowerRepository.emailExists. cbv zeta. keep.
  - change (preserves P (BorrowerService.deleteBorrower borrowerId)).
    unfold BorrowerService.deleteBorrower, BorrowerRepository.findById,
      BorrowerRepository.getCurrentBooks. keep.
  - apply checkout.
  - change (preserves P (BorrowingService.returnBook
                           now (BorrowingDTO.ReturnRequest.borrowing_id body))).
    unfold BorrowingService.returnBook, BorrowingRepository.findById,
      BorrowingService.respond. cbv zeta. keep.
  - change (preserves P (BorrowingService.extendDueDate
                           now borrowingId newDueDate extensionReason)).
    unfold BorrowingService.extendDueDate, BorrowingService.respond. keep.
Qed.

Lemma run_keeps trace s : P s -> P (run trace s).
Proof.
  revert s. induction trace as [|[now r] trace IH]; simpl; intros s H.
  - exact H.
  - apply IH. now apply (serve_keeps now r s).
Qed.

End AnyInvariant.

Lemma keep_with_wf (Q : db -> Prop) {A : Type} (m : io A) :
  preserves db_wf m ->
  (forall s, db_wf s -> Q s -> Q (snd (m s))) ->
  preserves (fun s => db_wf s /\ Q s) m.
Proof. intros Hwf HQ s [H1 H2]. split; auto. Qed.

(** ** Unique ISBNs and e-mail addresses *)

Lemma NoDup_map_filter_any {R K : Type} (key : R -> K) (p : R -> bool)
      (l : list R) :
  NoDup (map key l) -> NoDup (map key (filter p l)).
Proof.
  induction l as [|x l IH]; simpl; intros H; [constructor|].
  inversion H as [|? ? Hx Hl]; subst.
  destruct (p x); simpl; auto.
  constructor; auto.
  intros Hin. apply Hx. rewrite in_map_iff in *.
  destruct Hin as [y [E Hy]]. exists y. split; [assumption|].
  now apply filter_In in Hy.
Qed.

Lemma NoDup_map_snoc_any {R K : Type} (key : R -> K) (l : list R) (x : R) :
  NoDup (map key l) -> ~ In (key x) (map key l) ->
  NoDup (map key (l ++ [x])).
Proof.
  induction l as [|y l IH]; simpl; intros Hnd Hx.
  - constructor; [intros [] | constructor].
  - inversion Hnd as [|? ? Hy Hl]; subst.
    constructor.
    + rewrite map_app, in_app_iff. simpl. intros [H | [H | []]]; auto.
    + apply IH; auto.
Qed.

Lemma existsb_string_absent {R : Type} (f : R -> string) (v : string)
      (l : list R) :
  existsb (fun b => String.eqb (f b) v) l = false -> ~ In v (map f l).
Proof.
  intros H Hin. apply in_map_iff in Hin. destruct Hin as [x [E Hx]].
  assert (existsb (fun b => String.eqb (f b) v) l = true) as Ht.
  { apply existsb_exists. exists x. split; [assumption|].
    now apply String.eqb_eq. }
  congruence.
Qed.

(** Rewriting one column of the row with key [k] to a value no other row
    has keeps the column unique. *)
Lemma NoDup_map_update_column {R K : Type} (key : R -> Z) (f : R -> K)
      (g : R -> R) (k : Z) (v : K) (l : list R) :
  NoDup (map key l) -> NoDup (map f l) ->
  (forall x, key (g x) = key x) ->
  (forall x, In x l -> key x = k -> f (g x) = v) ->
  (forall x, In x l -> key x <> k -> f x <> v) ->
  NoDup (map f (map (fun x => if key x =? k then g x else x) l)).
Proof.
  intros Hk Hf Hg Hv Hother.
  induction l as [|x l IH]; simpl; [constructor|].
  inversion Hk as [|? ? Hkx Hkl]; subst.
  inversion Hf as [|? ? Hfx Hfl]; subst.
  assert (forall y, In y l -> key y = k -> f (g y) = v) as Hv'
      by (intros; apply Hv; [now right | assumption]).
  assert (forall y, In y l -> key y <> k -> f y <> v) as Hother'
      by (intros; apply Hother; [now right | assumption]).
  destruct (Z.eqb_spec (key x) k) as [E|E].
  - rewrite map_update_none.
    + constructor; [|assumption].
      rewrite (Hv x (or_introl eq_refl) E).
      intros Hin. apply in_map_iff in Hin. destruct Hin as [y [Ey Hy]].
      apply (Hother' y Hy); [|assumption].
      intros Eky. apply Hkx. rewrite E, <- Eky. now apply in_map.
    + apply (filter_key_absent key). now rewrite <- E.
  - constructor; [|now apply IH].
    intros Hin. apply in_map_iff in Hin. destruct Hin as [y' [Ey Hy']].
    apply in_map_update in Hy'.
    destruct Hy' as [y [Hy [[Hp ->] | [Hp ->]]]].
    + apply Z.eqb_eq in Hp.
      rewrite (Hv' y Hy Hp) in Ey.
      apply (Hother x (or_introl eq_refl) E). now symmetry.
    + apply Hfx. rewrite <- Ey. now apply in_map.
Qed.

Lemma map_column_unchanged {R K : Type} (f : R -> K) (p : R -> bool)
      (g : R -> R) (l : list R) :
  (forall x, f (g x) = f x) ->
  map f (map (fun x => if p x then g x else x) l) = map f l.
Proof.
  intros Hg. rewrite map_map. apply map_ext. intros x.
  destruct (p x); auto.
Qed.

Lemma isbn_unique_book_create d :
  preserves (fun s => db_wf s /\ isbn_unique s) (BookRepository.create d).
Proof.
  apply keep_with_wf; [apply book_create_inv|].
  intros s Hwf H. unfold BookRepository.create. cbv zeta.
  destruct (books_check _); [exact H|].
  destruct (existsb _ (books s)) eqn:E; [exact H|].
  unfold isbn_unique. simpl.
  apply NoDup_map_snoc_any; [exact H|].
  simpl. now apply existsb_string_absent.
Qed.

Lemma isbn_unique_book_update i u :
  preserves (fun s => db_wf s /\ isbn_unique s) (BookRepository.update i u).
Proof.
  apply keep_with_wf; [apply book_update_inv|].
  intros s Hwf H. unfold BookRepository.update.
  destruct (BookRepository.no_fields u); [exact H|].
  destruct (first_violation books_check _); [exact H|].
  destruct (map _ (filter _ _)); [exact H|].
  destruct (BookRepository.isbn_taken i u (books s)) eqn:E; [exact H|].
  unfold isbn_unique. simpl.
  unfold BookRepository.isbn_taken in E.
  destruct (BookDTO.UpdateData.isbn u) as [v|] eqn:Ev.
  - apply (NoDup_map_update_column Book.id Book.isbn
             (BookRepository.set_fields u) i v).
    + apply Hwf.
    + exact H.
    + reflexivity.
    + intros x _ _. unfold BookRepository.set_fields. simpl. now rewrite Ev.
    + intros x Hx Hne Eisbn.
      assert (existsb (fun b => negb (BookRepository.has_id i b)
                                && String.eqb (Book.isbn b) v) (books s)
              = true) as Ht; [|congruence].
      apply existsb_exists. exists x. split; [assumption|].
      unfold BookRepository.has_id.
      apply Z.eqb_neq in Hne. rewrite Hne. simpl. now apply String.eqb_eq.
  - rewrite map_column_unchanged; [exact H|].
    intros x. unfold BookRepository.set_fields. simpl. now rewrite Ev.
Qed.

Lemma isbn_unique_book_delete p :
  preserves (fun s => db_wf s /\ isbn_unique s) (BookRepository.delete_where p).
Proof.
  apply keep_with_wf; [apply book_delete_where_inv|].
  intros s Hwf H. unfold isbn_unique. simpl.
  now apply NoDup_map_filter_any.
Qed.

Lemma isbn_unique_book_add w q :
  preserves (fun s => db_wf s /\ isbn_unique s) (BookRepository.add_available w q).
Proof.
  apply keep_with_wf; [apply book_add_available_inv|].
  intros s Hwf H. unfold BookRepository.add_available.
  destruct (first_violation books_check _); [exact H|].
  unfold isbn_unique. simpl.
  rewrite map_column_unchanged; [exact H | reflexivity].
Qed.

(** A property of the books table alone, kept when available_quantity
    changes, is kept by the three ledger transactions and by a checkout
    request. *)
Section BooksColumn.
Variable Q : db -> Prop.
Hypothesis Q_books : forall s s', books s' = books s -> Q s -> Q s'.
Hypothesis Q_add :
  forall (s : db) (w : Book.t -> bool) (q : Z), Q s ->
    Q (set_books s (map (fun b => if w b then BookRepository.plus_available q b
                                  else b) (books s))).

Lemma books_column_create d s : Q s -> Q (snd (BorrowingRepository.create d s)).
Proof.
  intros H. destruct (create_cases d s) as [[e ->] | [o ->]]; [exact H|].
  simpl.
  match goal with
  | |- Q (set_books ?t (map ?f (books s))) =>
      apply (Q_books (set_books s (map f (books s)))); [reflexivity|]
  end.
  apply Q_add. exact H.
Qed.

Lemma books_column_returnBook i d s :
  Q s -> Q (snd (BorrowingRepository.returnBook i d s)).
Proof.
  intros H.
  destruct (returnBook_cases i d s) as [[e ->] | [r [Hr ->]]]; [exact H|].
  simpl.
  match goal with
  | |- Q (set_books ?t (map ?f (books s))) =>
      apply (Q_books (set_books s (map f (books s)))); [reflexivity|]
  end.
  apply Q_add. exact H.
Qed.

Lemma books_column_extendDueDate i d reason s :
  Q s -> Q (snd (BorrowingRepository.extendDueDate i d reason s)).
Proof.
  intros H.
  destruct (extendDueDate_cases i d reason s) as [e ->]. exact H.
Qed.

Lemma books_column_checkoutBook now req s :
  Q s -> Q (snd (BorrowingService.checkoutBook now req s)).
Proof.
  intros H. destruct (checkoutBook_db now req s) as [-> | ->]; [exact H|].
  now apply books_column_create.
Qed.

End BooksColumn.

Lemma isbn_unique_run (trace : list (Z * request)) (s : db) :
  db_wf s -> isbn_unique s ->
  db_wf (run trace s) /\ isbn_unique (run trace s).
Proof.
  intros Hwf H.
  assert (forall s s', books s' = books s -> isbn_unique s -> isbn_unique s')
    as Qb by (unfold isbn_unique; intros ? ? ->; auto).
  assert (forall (s : db) (w : Book.t -> bool) (q : Z), isbn_unique s ->
            isbn_unique
              (set_books s (map (fun b => if w b
                                          then BookRepository.plus_available q b
                                          else b) (books s)))) as Qa.
  { intros s0 w q H0. unfold isbn_unique. simpl.
    rewrite map_column_unchanged; [exact H0 | reflexivity]. }
  apply (run_keeps (fun s => db_wf s /\ isbn_unique s)); auto.
  - apply isbn_unique_book_create.
  - apply isbn_unique_book_update.
  - apply isbn_unique_book_delete.
  - apply isbn_unique_book_add.
  - intros d. apply keep_with_wf; [apply borrower_create_inv|].
    intros s0 _ H0. unfold BorrowerRepository.create.
    destruct (existsb _ _); [exact H0|]. exact H0.
  - intros i u. apply keep_with_wf; [apply borrower_update_inv|].
    intros s0 _ H0. unfold BorrowerRepository.update.
    destruct (BorrowerRepository.no_fields u); [exact H0|].
    destruct (map _ _); [exact H0|].
    destruct (BorrowerRepository.email_taken _ _ _); exact H0.
  - intros i. apply keep_with_wf; [apply borrower_delete_inv|].
    intros s0 _ H0. exact H0.
  - intros now d. apply keep_with_wf; [apply checkoutBook_inv|].
    intros s0 _ H0. now apply books_column_checkoutBook.
  - intros i d. apply keep_with_wf; [apply returnBook_inv|].
    intros s0 _ H0. now apply books_column_returnBook.
  - intros i d r. apply keep_with_wf; [apply extendDueDate_inv|].
    intros s0 _ H0. now apply books_column_extendDueDate.
Qed.

Lemma email_unique_run (trace : list (Z * request)) (s : db) :
  db_wf s -> email_unique s ->
  db_wf (run trace s) /\ email_unique (run trace s).
Proof.
  intros Hwf H.
  apply (run_keeps (fun s => db_wf s /\ email_unique s)); auto.
  - intros d. apply keep_with_wf; [apply book_create_inv|].
    intros s0 _ H0. unfold BookRepository.create. cbv zeta.
    destruct (books_check _); [exact H0|].
    destruct (existsb _ _); exact H0.
  - intros i u. apply keep_with_wf; [apply book_update_inv|].
    intros s0 _ H0. unfold BookRepository.update.
    destruct (BookRepository.no_fields u); [exact H0|].
    destruct (first_violation books_check _); [exact H0|].
    destruct (map _ _); [exact H0|].
    destruct (BookRepository.isbn_taken _ _ _); exact H0.
  - intros p. apply keep_with_wf; [apply book_delete_where_inv|].
    intros s0 _ H0. exact H0.
  - intros w q. apply keep_with_wf; [apply book_add_available_inv|].
    intros s0 _ H0. unfold BookRepository.add_available.
    destruct (first_violation books_check _); exact H0.
  - intros d. apply keep_with_wf; [apply borrower_create_inv|].
    intros s0 _ H0. unfold BorrowerRepository.create. cbv zeta.
    destruct (existsb _ (borrowers s0)) eqn:E; [exact H0|].
    unfold email_unique. simpl.
    apply NoDup_map_snoc_any; [exact H0|].
    simpl. now apply existsb_string_absent.
  - intros i u. apply keep_with_wf; [apply borrower_update_inv|].
    intros s0 Hwf0 H0. unfold BorrowerRepository.update.
    destruct (BorrowerRepository.no_fields u); [exact H0|].
    destruct (map _ (filter _ _)); [exact H0|].
    destruct (BorrowerRepository.email_taken i u (borrowers s0)) eqn:E;
      [exact H0|].
    unfold email_unique. simpl.
    unfold BorrowerRepository.email_taken in E.
    destruct (BorrowerDTO.UpdateData.email u) as [v|] eqn:Ev.
    + apply (NoDup_map_update_column Borrower.id Borrower.email
               (BorrowerRepository.set_fields u) i v).
      * apply Hwf0.
      * exact H0.
      * reflexivity.
      * intros x _ _. unfold BorrowerRepository.set_fields. simpl.
        now rewrite Ev.
      * intros x Hx Hne Eem.
        assert (existsb (fun b => negb (BorrowerRepository.has_id i b)
                                  && String.eqb (Borrower.email b) v)
                        (borrowers s0) = true) as Ht; [|congruence].
        apply existsb_exists. exists x. split; [assumption|].
        unfold BorrowerRepository.has_id.
        apply Z.eqb_neq in Hne. rewrite Hne. simpl. now apply String.eqb_eq.
    + rewrite map_column_unchanged; [exact H0|].
      intros x. unfold BorrowerRepository.set_fields. simpl. now rewrite Ev.
  - intros i. apply keep_with_wf; [apply borrower_delete_inv|].
    intros s0 _ H0. unfold email_unique. simpl.
    now apply NoDup_map_filter_any.
  - intros now d. apply keep_with_wf; [apply checkoutBook_inv|].
    intros s0 _ H0.
    destruct (checkoutBook_db now d s0) as [-> | ->]; [exact H0|].
    destruct (create_cases (BorrowingDTO.fromCheckoutRequest now d) s0)
      as [[e ->] | [o ->]]; exact H0.
  - intros i d. apply keep_with_wf; [apply returnBook_inv|].
    intros s0 _ H0.
    destruct (returnBook_cases i d s0) as [[e ->] | [r [Hr ->]]]; exact H0.
  - intros i d r. apply keep_with_wf; [apply extendDueDate_inv|].
    intros s0 _ H0.
    destruct (extendDueDate_cases i d r s0) as [e ->]. exact H0.
Qed.

Lemma column_unique {R K : Type} (f : R -> K) (l : list R) (a b : R) :
  NoDup (map f l) -> In a l -> In b l -> f a = f b -> a = b.
Proof.
  induction l as [|x l IH]; simpl; intros Hnd Ha Hb E; [contradiction|].
  inversion Hnd as [|? ? Hx Hl]; subst.
  destruct Ha as [-> | Ha]; destruct Hb as [-> | Hb]; auto.
  - exfalso. apply Hx. rewrite E. now apply in_map.
  - exfalso. apply Hx. rewrite <- E. now apply in_map.
Qed.

(** X1. In every database state reached from the empty database by any
    sequence of requests, no two books have the same ISBN and no two
    borrowers have the same e-mail address. *)
Theorem isbn_and_email_stay_unique :
  forall (trace : list (Z * request)),
    let s := run trace empty_db in
    (forall b1 b2, In b1 (books s) -> In b2 (books s) ->
                   Book.isbn b1 = Book.isbn b2 -> b1 = b2)
    /\ (forall w1 w2, In w1 (borrowers s) -> In w2 (borrowers s) ->
                      Borrower.email w1 = Borrower.email w2 -> w1 = w2).
Proof.
  intros trace s. subst s. split.
  - intros b1 b2.
    apply (column_unique Book.isbn).
    apply (isbn_unique_run trace empty_db empty_db_wf). constructor.
  - intros w1 w2.
    apply (column_unique Borrower.email).
    apply (email_unique_run trace empty_db empty_db_wf). constructor.
Qed.

Lemma isbn_and_email_stay_unique_witness :
  let trace := [(Sample.noon Sample.day_2024_01_01, CreateBook Sample.gatsby);
                (Sample.noon Sample.day_2024_01_01, CreateBook Sample.gatsby)] in
  let b := Book.mk 1 "The Great Gatsby" "F. Scott Fitzgerald"
                   "9780743273565" 5 5 (Some "A1-001"%string) in
  books (run trace empty_db) = [b]
  /\ (In b (books (run trace empty_db)) -> Book.isbn b = Book.isbn b -> b = b).
Proof.
  intros trace b. split.
  - vm_compute. reflexivity.
  - intros Hb. exact (proj1 (isbn_and_email_stay_unique trace) b b Hb Hb).
Defined.

(** ** Keys, references and dates of the ledger *)

Lemma borrowings_check_dates (r : Borrowing.t) :
  borrowings_check r = None ->
  Borrowing.checkout_date r <= Borrowing.due_date r
  /\ (forall d, Borrowing.return_date r = Some d ->
                Borrowing.checkout_date r <= d).
Proof.
  unfold borrowings_check.
  destruct (Z.ltb_spec (Borrowing.due_date r) (Borrowing.checkout_date r));
    [discriminate|].
  destruct (Borrowing.return_date r) as [d|].
  - destruct (Z.ltb_spec d (Borrowing.checkout_date r)); [discriminate|].
    intros _. split; [lia|]. intros d' [= <-]. lia.
  - intros _. split; [lia | discriminate].
Qed.

(** X2. In every database state reached from the empty database by any
    sequence of requests, the ids of books, borrowers and borrowings are
    unique, every borrowing references a book and a borrower that exist,
    its due_date is not before its checkout_date, and its return_date is
    NULL or not before its checkout_date. *)
Theorem ledger_rows_well_formed :
  forall (trace : list (Z * request)),
    let s := run trace empty_db in
    NoDup (map Book.id (books s))
    /\ NoDup (map Borrower.id (borrowers s))
    /\ NoDup (map Borrowing.id (borrowings s))
    /\ (forall r, In r (borrowings s) ->
          (exists b, In b (books s) /\ Book.id b = Borrowing.book_id r)
          /\ (exists w, In w (borrowers s)
                        /\ Borrower.id w = Borrowing.borrower_id r)
          /\ Borrowing.checkout_date r <= Borrowing.due_date r
          /\ (forall d, Borrowing.return_date r = Some d ->
                        Borrowing.checkout_date r <= d)).
Proof.
  intros trace s.
  assert (db_wf s) as Hwf by (apply run_inv, empty_db_wf).
  split; [apply Hwf|]. split; [apply Hwf|]. split; [apply Hwf|].
  intros r Hr.
  split.
  { pose proof (borrowings_book_id_fkey _ _ Hwf r Hr) as H.
    apply in_map_iff in H. destruct H as [b [E Hb]]. exists b. auto. }
  split.
  { pose proof (borrowings_borrower_id_fkey _ _ Hwf r Hr) as H.
    apply in_map_iff in H. destruct H as [w [E Hw]]. exists w. auto. }
  apply borrowings_check_dates. now apply (borrowings_checks _ _ Hwf).
Qed.

Lemma ledger_rows_well_formed_witness :
  let trace := [(Sample.noon Sample.day_2024_01_01, CreateBook Sample.gatsby);
                (Sample.noon Sample.day_2024_01_01, CreateBorrower Sample.john);
                (Sample.noon Sample.day_2024_01_01, Checkout (Sample.checkout 1))] in
  let r := Borrowing.mk 1 1 1 19723 19737 None in
  In r (borrowings (run trace empty_db))
  /\ Borrowing.checkout_date r <= Borrowing.due_date r.
Proof.
  intros trace r.
  assert (In r (borrowings (run trace empty_db))) as Hr
      by (vm_compute; left; reflexivity).
  split; [exact Hr|].
  exact (proj1 (proj2 (proj2
           (proj2 (proj2 (proj2 (ledger_rows_well_formed trace))) r Hr)))).
Defined.

(** ** At most one active loan of a book per borrower *)

Lemma filter_filter_length {R : Type} (p q : R -> bool) (l : list R) :
  (List.length (filter p (filter q l)) <= List.length (filter p l))%nat.
Proof.
  induction l as [|x l IH]; simpl; [lia|].
  destruct (q x); simpl; destruct (p x); simpl; lia.
Qed.

Lemma filter_update_length {R : Type} (p c : R -> bool) (g : R -> R)
      (l : list R) :
  (forall x, p (g x) = true -> p x = true) ->
  (List.length (filter p (map (fun x => if c x then g x else x) l))
   <= List.length (filter p l))%nat.
Proof.
  intros Hg. induction l as [|x l IH]; simpl; [lia|].
  destruct (c x).
  - destruct (p (g x)) eqn:E.
    + rewrite (Hg x E). simpl. lia.
    + destruct (p x); simpl; lia.
  - destruct (p x); simpl; lia.
Qed.

(** A checkout request changes the database only when the borrower holds
    no active borrowing of the book, and then as the transaction does. *)
Lemma checkoutBook_guarded (now : Z) (req : BorrowingDTO.CheckoutRequest.t)
      (s : db) :
  let d := BorrowingDTO.fromCheckoutRequest now req in
  snd (BorrowingService.checkoutBook now req s) = s
  \/ (active_loans s (BorrowingDTO.CheckoutData.borrower_id d)
                   (BorrowingDTO.CheckoutData.book_id d) = []
      /\ snd (BorrowingService.checkoutBook now req s)
         = snd (BorrowingRepository.create d s)).
Proof.
  unfold BorrowingService.checkoutBook, BookRepository.findById,
    BorrowerRepository.findById, BorrowingRepository.hasActiveBorrowing,
    BorrowingService.respond.
  unfold_io. cbv zeta. cases; simpl; auto.
  all: right; split; [|reflexivity].
  all: unfold active_loans;
    match goal with
    | H : negb (Nat.eqb (List.length _) 0) = false |- _ =>
        simpl in H; apply negb_false_iff in H;
        destruct (filter _ (borrowings s)); [reflexivity | discriminate]
    end.
Qed.

Lemma one_loan_run (trace : list (Z * request)) (s : db) :
  db_wf s -> one_loan_per_book s ->
  db_wf (run trace s) /\ one_loan_per_book (run trace s).
Proof.
  intros Hwf H.
  assert (forall s s' : db, borrowings s' = borrowings s ->
                            one_loan_per_book s -> one_loan_per_book s') as Qb.
  { unfold one_loan_per_book, active_loans. intros ? ? ->. auto. }
  apply (run_keeps (fun s => db_wf s /\ one_loan_per_book s)); auto.
  - intros d. apply keep_with_wf; [apply book_create_inv|].
    intros s0 _ H0. unfold BookRepository.create. cbv zeta.
    destruct (books_check _); [exact H0|].
    destruct (existsb _ _); [exact H0|].
    eapply Qb; [|exact H0]. reflexivity.
  - intros i u. apply keep_with_wf; [apply book_update_inv|].
    intros s0 _ H0. unfold BookRepository.update.
    destruct (BookRepository.no_fields u); [exact H0|].
    destruct (first_violation books_check _); [exact H0|].
    destruct (map _ _); [exact H0|].
    destruct (BookRepository.isbn_taken _ _ _); [exact H0|].
    eapply Qb; [|exact H0]. reflexivity.
  - intros p. apply keep_with_wf; [apply book_delete_where_inv|].
    intros s0 _ H0 w b. unfold active_loans, cascade_books. simpl.
    etransitivity; [apply filter_filter_length | apply H0].
  - intros w q. apply keep_with_wf; [apply book_add_available_inv|].
    intros s0 _ H0. unfold BookRepository.add_available.
    destruct (first_violation books_check _); [exact H0|].
    eapply Qb; [|exact H0]. reflexivity.
  - intros d. apply keep_with_wf; [apply borrower_create_inv|].
    intros s0 _ H0. unfold BorrowerRepository.create. cbv zeta.
    destruct (existsb _ _); [exact H0|].
    eapply Qb; [|exact H0]. reflexivity.
  - intros i u. apply keep_with_wf; [apply borrower_update_inv|].
    intros s0 _ H0. unfold BorrowerRepository.update.
    destruct (BorrowerRepository.no_fields u); [exact H0|].
    destruct (map _ _); [exact H0|].
    destruct (BorrowerRepository.email_taken _ _ _); [exact H0|].
    eapply Qb; [|exact H0]. reflexivity.
  - intros i. apply keep_with_wf; [apply borrower_delete_inv|].
    intros s0 _ H0 w b. unfold active_loans, cascade_borrowers. simpl.
    etransitivity; [apply filter_filter_length | apply H0].
  - intros now d. apply keep_with_wf; [apply checkoutBook_inv|].
    intros s0 _ H0.
    destruct (checkoutBook_guarded now d s0) as [-> | [Hnone ->]]; [exact H0|].
    destruct (create_cases (BorrowingDTO.fromCheckoutRequest now d) s0)
      as [[e ->] | [o ->]]; [exact H0|].
    intros w b. pose proof (H0 w b) as Hwb.
    unfold active_loans in *. simpl in *.
    rewrite filter_app, length_app. simpl.
    destruct (Z.eqb_spec (BorrowingDTO.CheckoutRequest.borrower_id d) w) as [Ew|Ew];
      destruct (Z.eqb_spec (BorrowingDTO.CheckoutRequest.book_id d) b) as [Eb|Eb];
      simpl; try lia.
    subst w b. rewrite Hnone. simpl. lia.
  - intros i d. apply keep_with_wf; [apply returnBook_inv|].
    intros s0 _ H0.
    destruct (returnBook_cases i d s0) as [[e ->] | [r [Hr ->]]]; [exact H0|].
    intros w b. unfold active_loans. simpl.
    etransitivity; [|apply (H0 w b)].
    apply filter_update_length.
    intros x. unfold Borrowing.active. simpl.
    rewrite andb_false_r. discriminate.
  - intros i d r. apply keep_with_wf; [apply extendDueDate_inv|].
    intros s0 _ H0.
    destruct (extendDueDate_cases i d r s0) as [e ->]. exact H0.
Qed.

(** X3. In every database state reached from the empty database by any
    sequence of requests served one after another, the borrowings table
    holds at most one active borrowing per borrower and book. *)
Theorem one_active_loan_per_book :
  forall (trace : list (Z * request)) (borrowerId bookId : Z),
    (List.length (active_loans (run trace empty_db) borrowerId bookId)
     <= 1)%nat.
Proof.
  intros trace.
  apply (one_loan_run trace empty_db empty_db_wf).
  intros w b. simpl. lia.
Qed.

(** ** A returned borrowing is never modified *)

Section Frozen.
Variable r : Borrowing.t.
Hypothesis r_returned : Borrowing.active r = false.

Lemma frozen_same (s s' : db) :
  borrowings s' = borrowings s ->
  borrowings_id_seq s' = borrowings_id_seq s ->
  frozen r s -> frozen r s'.
Proof. unfold frozen. intros -> ->. auto. Qed.

Lemma frozen_filter (s s' : db) (p : Borrowing.t -> bool) :
  borrowings s' = filter p (borrowings s) ->
  borrowings_id_seq s' = borrowings_id_seq s ->
  frozen r s -> frozen r s'.
Proof.
  unfold frozen. intros -> -> [H1 H2]. split; [assumption|].
  intros x Hx. apply filter_In in Hx. now apply H2.
Qed.

(** An update of the rows with the id of an active borrowing leaves the
    rows with the id of [r] alone. *)
Lemma frozen_update (s s' : db) (i : Z) (g : Borrowing.t -> Borrowing.t)
      (r0 : Borrowing.t) :
  find (fun x => BorrowingRepository.has_id i x && Borrowing.active x)
       (borrowings s) = Some r0 ->
  (forall x, Borrowing.id (g x) = Borrowing.id x) ->
  borrowings s'
  = map (fun x => if BorrowingRepository.has_id i x then g x else x)
        (borrowings s) ->
  borrowings_id_seq s' = borrowings_id_seq s ->
  frozen r s -> frozen r s'.
Proof.
  intros Hr0 Hg Hb Hseq [H1 H2]. unfold frozen. rewrite Hb, Hseq.
  split; [assumption|].
  apply find_some_in in Hr0. destruct Hr0 as [Hin Hp].
  apply andb_true_iff in Hp. destruct Hp as [Hid Hact].
  unfold BorrowingRepository.has_id in Hid. apply Z.eqb_eq in Hid.
  assert (i <> Borrowing.id r) as Hne.
  { intros E. rewrite E in Hid. rewrite (H2 r0 Hin Hid) in Hact. congruence. }
  intros x Hx Ex. apply in_map_update in Hx.
  destruct Hx as [y [Hy [[Hp ->] | [Hp ->]]]].
  - unfold BorrowingRepository.has_id in Hp. apply Z.eqb_eq in Hp.
    rewrite Hg in Ex. congruence.
  - now apply H2.
Qed.

Lemma frozen_run (trace : list (Z * request)) (s : db) :
  db_wf s -> frozen r s -> db_wf (run trace s) /\ frozen r (run trace s).
Proof.
  intros Hwf H.
  apply (run_keeps (fun s => db_wf s /\ frozen r s)); auto.
  - intros d. apply keep_with_wf; [apply book_create_inv|].
    intros s0 _ H0. unfold BookRepository.create. cbv zeta.
    destruct (books_check _); [exact H0|].
    destruct (existsb _ _); [exact H0|].
    eapply frozen_same; [| |exact H0]; reflexivity.
  - intros i u. apply keep_with_wf; [apply book_update_inv|].
    intros s0 _ H0. unfold BookRepository.update.
    destruct (BookRepository.no_fields u); [exact H0|].
    destruct (first_violation books_check _); [exact H0|].
    destruct (map _ _); [exact H0|].
    destruct (BookRepository.isbn_taken _ _ _); [exact H0|].
    eapply frozen_same; [| |exact H0]; reflexivity.
  - intros p. apply keep_with_wf; [apply book_delete_where_inv|].
    intros s0 _ H0.
    eapply frozen_filter; [| |exact H0]; reflexivity.
  - intros w q. apply keep_with_wf; [apply book_add_available_inv|].
    intros s0 _ H0. unfold BookRepository.add_available.
    destruct (first_violation books_check _); [exact H0|].
    eapply frozen_same; [| |exact H0]; reflexivity.
  - intros d. apply keep_with_wf; [apply borrower_create_inv|].
    intros s0 _ H0. unfold BorrowerRepository.create. cbv zeta.
    destruct (existsb _ _); [exact H0|].
    eapply frozen_same; [| |exact H0]; reflexivity.
  - intros i u. apply keep_with_wf; [apply borrower_update_inv|].
    intros s0 _ H0. unfold BorrowerRepository.update.
    destruct (BorrowerRepository.no_fields u); [exact H0|].
    destruct (map _ _); [exact H0|].
    destruct (BorrowerRepository.email_taken _ _ _); [exact H0|].
    eapply frozen_same; [| |exact H0]; reflexivity.
  - intros i. apply keep_with_wf; [apply borrower_delete_inv|].
    intros s0 _ H0.
    eapply frozen_filter; [| |exact H0]; reflexivity.
  - intros now d. apply keep_with_wf; [apply checkoutBook_inv|].
    intros s0 _ H0.
    destruct (checkoutBook_db now d s0) as [-> | ->]; [exact H0|].
    destruct (create_cases (BorrowingDTO.fromCheckoutRequest now d) s0)
      as [[e ->] | [o ->]]; [exact H0|].
    destruct H0 as [H1 H2]. unfold frozen. simpl. split; [lia|].
    intros x Hx Ex. apply in_app_iff in Hx.
    destruct Hx as [Hx | [<- | []]]; [now apply H2|].
    simpl in Ex. lia.
  - intros i d. apply keep_with_wf; [apply returnBook_inv|].
    intros s0 _ H0.
    destruct (returnBook_cases i d s0) as [[e ->] | [r0 [Hr ->]]]; [exact H0|].
    apply (frozen_update s0 _ i (BorrowingRepository.set_return_date d) r0);
      [exact Hr | reflexivity | reflexivity | reflexivity | exact H0].
  - intros i d reason. apply keep_with_wf; [apply extendDueDate_inv|].
    intros s0 _ H0.
    destruct (extendDueDate_cases i d reason s0) as [e ->]. exact H0.
Qed.

End Frozen.

(** X4. A returned borrowing is never modified again: after any sequence
    of requests, a row of the borrowings table with the id of a borrowing
    that had its return_date set is that borrowing, unchanged in every
    column (the row can only disappear, with its book or borrower). *)
Theorem returned_borrowing_is_immutable :
  forall (s : db) (r : Borrowing.t) (d : Z) (trace : list (Z * request))
         (x : Borrowing.t),
    db_wf s -> In r (borrowings s) -> Borrowing.return_date r = Some d ->
    In x (borrowings (run trace s)) -> Borrowing.id x = Borrowing.id r ->
    x = r.
Proof.
  intros s r d trace x Hwf Hr Hd Hx Ex.
  assert (Borrowing.active r = false) as Hact
      by (unfold Borrowing.active; now rewrite Hd).
  assert (frozen r s) as Hf.
  { split; [now apply (borrowings_serial _ _ Hwf)|].
    intros y Hy Ey.
    apply (key_unique Borrowing.id (borrowings s)); auto. apply Hwf. }
  destruct (frozen_run r Hact trace s Hwf Hf) as [_ [_ H]].
  now apply H.
Qed.

Lemma returned_borrowing_is_immutable_witness :
  let r := Borrowing.mk 1 1 1 19723 19737 (Some 19732) in
  let trace :=
    [(Sample.noon Sample.day_2024_01_10,
      ExtendDueDate 1 (Some 19760) (Some "Late"%string));
     (Sample.noon Sample.day_2024_01_10,
      Return (BorrowingDTO.ReturnRequest.mk 1 None));
     (Sample.noon Sample.day_2024_01_10, Checkout (Sample.checkout 2))] in
  In r (borrowings (run trace Sample.returned)) /\ r = r.
Proof.
  intros r trace.
  assert (In r (borrowings (run trace Sample.returned))) as Hx
      by (vm_compute; left; reflexivity).
  split; [exact Hx|].
  refine (returned_borrowing_is_immutable
            Sample.returned r 19732 trace r _ _ _ Hx _).
  - apply db_wfb_sound. vm_compute. reflexivity.
  - vm_compute. left. reflexivity.
  - reflexivity.
  - reflexivity.
Defined.

(** ** When the ledger transactions commit *)

Lemma first_violation_one {R : Type} (check : R -> option string) (x : R) :
  check x = None -> first_violation check [x] = None.
Proof. intros H. simpl. now rewrite H. Qed.

Lemma find_active_present (closed : Z -> Prop) (s : db) (r : Borrowing.t) :
  db_inv closed s -> In r (borrowings s) -> Borrowing.active r = true ->
  find (fun x => BorrowingRepository.has_id (Borrowing.id r) x
                 && Borrowing.active x) (borrowings s) = Some r.
Proof.
  intros Hinv Hr Hact.
  destruct (find _ (borrowings s)) as [x|] eqn:F.
  - apply find_some_in in F. destruct F as [Hx Hp].
    apply andb_true_iff in Hp. destruct Hp as [Hid _].
    apply Z.eqb_eq in Hid. f_equal.
    apply (key_unique Borrowing.id (borrowings s)); auto. apply Hinv.
  - exfalso. apply (find_none _ _ F) in Hr.
    unfold BorrowingRepository.has_id in Hr.
    rewrite Z.eqb_refl, Hact in Hr. discriminate.
Qed.

(** The checkout transaction commits when the book has a copy available,
    the borrower exists and the due date is not before the checkout
    date. *)
Lemma create_commits (d : BorrowingDTO.CheckoutData.t) (s : db)
      (b : Book.t) :
  db_wf s ->
  In b (books s) -> Book.id b = BorrowingDTO.CheckoutData.book_id d ->
  0 < Book.available_quantity b ->
  In (BorrowingDTO.CheckoutData.borrower_id d) (map Borrower.id (borrowers s)) ->
  BorrowingDTO.CheckoutData.checkout_date d
  <= BorrowingDTO.CheckoutData.due_date d ->
  exists row, BorrowingRepository.create d s
              = (Resolved (Some row), snd (BorrowingRepository.create d s))
              /\ snd (BorrowingRepository.create d s) <> s.
Proof.
  intros Hwf Hb Hid Hpos Hbrw Hdates.
  assert (exists o s', BorrowingRepository.create d s = (Resolved o, s')
                       /\ s' <> s) as [o [s' [H Hne]]].
  { destruct (find_borrower_present s _ Hbrw) as [w Hw].
    assert (filter (BookRepository.has_id (BorrowingDTO.CheckoutData.book_id d))
                   (books s) = [b]) as Hsel.
    { rewrite <- Hid. apply (filter_key_unique Book.id); [apply Hwf | assumption]. }
    unfold BorrowingRepository.create,
      BorrowingRepository.insert_into_borrowings, BookRepository.add_available.
    unfold_io.
    pose proof (find_book_present _ s b Hwf Hb) as Hfb. rewrite Hid in Hfb.
    rewrite Hfb.
    destruct (Z.leb_spec (Book.available_quantity b) 0); [lia|].
    rewrite Hw.
    assert (borrowings_check
              (Borrowing.mk (borrowings_id_seq s)
                            (BorrowingDTO.CheckoutData.book_id d)
                            (BorrowingDTO.CheckoutData.borrower_id d)
                            (BorrowingDTO.CheckoutData.checkout_date d)
                            (BorrowingDTO.CheckoutData.due_date d)
                            None) = None) as ->.
    { unfold borrowings_check. simpl.
      destruct (Z.ltb_spec (BorrowingDTO.CheckoutData.due_date d)
                           (BorrowingDTO.CheckoutData.checkout_date d));
        [lia | reflexivity]. }
    assert (existsb (BookRepository.has_id (BorrowingDTO.CheckoutData.book_id d))
                    (books s) = true) as ->.
    { apply (existsb_key Book.id). rewrite <- Hid. now apply in_map. }
    assert (existsb (BorrowerRepository.has_id
                       (BorrowingDTO.CheckoutData.borrower_id d))
                    (borrowers s) = true) as ->
        by (now apply (existsb_key Borrower.id)).
    simpl. rewrite Hsel. simpl.
    assert (books_check (BookRepository.plus_available (-1) b) = None) as ->.
    { apply books_check_none. simpl.
      pose proof (proj1 (books_check_none b) (books_checks _ _ Hwf b Hb)). lia. }
    eexists. eexists. split; [reflexivity|].
    intros E. apply (f_equal borrowings_id_seq) in E. simpl in E. lia. }
  destruct (create_resolved_some d s s' o H) as [row ->].
  exists row. rewrite H. simpl. auto.
Qed.

(** The return transaction commits for an active borrowing when the
    return date is not before the checkout date and the book has a copy
    out. *)
Lemma returnBook_commits (i returnDate : Z) (s : db) (r : Borrowing.t)
      (b : Book.t) :
  db_wf s ->
  In r (borrowings s) -> Borrowing.id r = i -> Borrowing.return_date r = None ->
  Borrowing.checkout_date r <= returnDate ->
  In b (books s) -> Book.id b = Borrowing.book_id r ->
  Book.available_quantity b < Book.total_quantity b ->
  let s' :=
    set_books
      (set_borrowings s
         (map (fun x => if BorrowingRepository.has_id i x
                        then BorrowingRepository.set_return_date returnDate x
                        else x) (borrowings s)))
      (map (fun x => if BookRepository.has_id (Borrowing.book_id r) x
                     then BookRepository.plus_available 1 x
                     else x) (books s)) in
  BorrowingRepository.returnBook i returnDate s
  = (Resolved (hd_error (BorrowingRepository.select_details
                           (BorrowingRepository.has_id i) s')), s').
Proof.
  intros Hwf Hr Hid Hnull Hdate Hb Hbid Hroom s'. subst s' i.
  assert (Borrowing.active r = true) as Hact
      by (unfold Borrowing.active; now rewrite Hnull).
  unfold BorrowingRepository.returnBook,
    BorrowingRepository.select_active_for_update,
    BorrowingRepository.update_borrowings, BookRepository.add_available.
  unfold_io.
  rewrite (find_active_present _ s r Hwf Hr Hact).
  replace (filter (BorrowingRepository.has_id (Borrowing.id r)) (borrowings s))
    with [r]
    by (symmetry; apply (filter_key_unique Borrowing.id);
        [apply Hwf | assumption]).
  simpl.
  assert (borrowings_check (BorrowingRepository.set_return_date returnDate r)
          = None) as ->.
  { pose proof (borrowings_check_dates r (borrowings_checks _ _ Hwf r Hr))
      as [Hd _].
    unfold borrowings_check. simpl.
    destruct (Z.ltb_spec (Borrowing.due_date r) (Borrowing.checkout_date r));
      [lia|].
    destruct (Z.ltb_spec returnDate (Borrowing.checkout_date r));
      [lia | reflexivity]. }
  simpl.
  replace (filter (BookRepository.has_id (Borrowing.book_id r)) (books s))
    with [b]
    by (symmetry; rewrite <- Hbid; apply (filter_key_unique Book.id);
        [apply Hwf | assumption]).
  simpl.
  assert (books_check (BookRepository.plus_available 1 b) = None) as ->.
  { apply books_check_none. simpl.
    pose proof (proj1 (books_check_none b) (books_checks _ _ Hwf b Hb)). lia. }
  reflexivity.
Qed.

(** ** The effect of a return, and the checkout and return round trip *)

(** X5. A successful return closes exactly the borrowing asked for with
    today's date, increments the available_quantity of its book by exactly
    1, leaves every other row of the three tables as it was, and answers
    with the closed borrowing enriched with the book's title, author and
    ISBN and the borrower's name and e-mail. *)
Theorem return_closes_loan_and_restocks :
  forall (now i : Z) (s s' : db) (resp : BorrowingDTO.DetailedBorrowing.t),
    db_wf s ->
    BorrowingService.returnBook now i s = (Resolved resp, s') ->
    exists r b w,
      In r (borrowings s) /\ Borrowing.id r = i
      /\ Borrowing.return_date r = None
      /\ In b (books s) /\ Book.id b = Borrowing.book_id r
      /\ In w (borrowers s) /\ Borrower.id w = Borrowing.borrower_id r
      /\ borrowings s'
         = map (fun x => if Borrowing.id x =? i
                         then Borrowing.mk (Borrowing.id x) (Borrowing.book_id x)
                                           (Borrowing.borrower_id x)
                                           (Borrowing.checkout_date x)
                                           (Borrowing.due_date x)
                                           (Some (today now))
                         else x) (borrowings s)
      /\ books s'
         = map (fun x => if Book.id x =? Borrowing.book_id r
                         then Book.mk (Book.id x) (Book.title x)
                                      (Book.author x) (Book.isbn x)
                                      (Book.available_quantity x + 1)
                                      (Book.total_quantity x)
                                      (Book.shelf_location x)
                         else x) (books s)
      /\ borrowers s' = borrowers s
      /\ BorrowingDTO.DetailedBorrowing.public resp
         = BorrowingDTO.PublicBorrowing.mk
             i (Borrowing.book_id r) (Borrowing.borrower_id r)
             (Borrowing.checkout_date r) (Borrowing.due_date r)
             (Some (today now))
             (Some (BorrowingDTO.BookSummary.mk (Book.title b) (Book.author b)
                                                (Book.isbn b)))
             (Some (BorrowingDTO.BorrowerSummary.mk (Borrower.name w)
                                                    (Borrower.email w))).
Proof.
  intros now i s s' resp Hwf H.
  destruct (returnBook_effect now i s s' resp Hwf H)
    as [r [b [w [H1 [H2 [H3 [H4 [H5 [H6 [H7 [H8 [H9 [H10 H11]]]]]]]]]]]]].
  exists r, b, w.
  unfold BorrowingRepository.set_return_date in H8.
  unfold BookRepository.plus_available in H9.
  repeat (split; [assumption|]). assumption.
Qed.

Lemma return_closes_loan_and_restocks_witness :
  exists r b,
    In r (borrowings (Sample.lent Sample.gatsby))
    /\ In b (books (Sample.lent Sample.gatsby))
    /\ Book.id b = Borrowing.book_id r
    /\ map (fun x => (Book.available_quantity x, Book.total_quantity x))
           (books (Sample.lent Sample.gatsby)) = [(4, 5)]
    /\ map (fun x => (Book.available_quantity x, Book.total_quantity x))
           (books Sample.returned) = [(5, 5)]
    /\ map Borrowing.return_date (borrowings Sample.returned)
       = [Some Sample.day_2024_01_10].
Proof.
  destruct (return_closes_loan_and_restocks
              (Sample.noon Sample.day_2024_01_10) 1
              (Sample.lent Sample.gatsby) Sample.returned
              (BorrowingDTO.DetailedBorrowing.mk
                 (BorrowingDTO.PublicBorrowing.mk
                    1 1 1 19723 19737 (Some 19732)
                    (Some (BorrowingDTO.BookSummary.mk
                             "The Great Gatsby" "F. Scott Fitzgerald"
                             "9780743273565"))
                    (Some (BorrowingDTO.BorrowerSummary.mk
                             "John Smith" "john.smith@email.com")))
                 false 0))
    as [r [b [w [H1 [_ [_ [H2 [H3 [_ [_ [H4 [H5 _]]]]]]]]]]]].
  - apply db_wfb_sound. vm_compute. reflexivity.
  - vm_compute. reflexivity.
  - exists r, b. split; [exact H1|]. split; [exact H2|].
    split; [exact H3|]. split; [reflexivity|].
    split; [|rewrite H4; reflexivity].
    rewrite H5.
    assert (Borrowing.book_id r = 1) as ->.
    { vm_compute in H1. destruct H1 as [<- | []]. reflexivity. }
    reflexivity.
Defined.

(** What a resolved checkout says about the database before and after. *)
Lemma checkoutBook_resolved (now : Z) (req : BorrowingDTO.CheckoutRequest.t)
      (s s' : db) (resp : BorrowingDTO.DetailedBorrowing.t) :
  BorrowingService.checkoutBook now req s = (Resolved resp, s') ->
  let d := BorrowingDTO.fromCheckoutRequest now req in
  let book_id := BorrowingDTO.CheckoutData.book_id d in
  let row := Borrowing.mk (borrowings_id_seq s) book_id
                          (BorrowingDTO.CheckoutData.borrower_id d)
                          (BorrowingDTO.CheckoutData.checkout_date d)
                          (BorrowingDTO.CheckoutData.due_date d)
                          None in
  s' = set_books (insert_borrowing s row)
                 (map (fun b => if BookRepository.has_id book_id b
                                then BookRepository.plus_available (-1) b
                                else b) (books s))
  /\ (exists b, find (BookRepository.has_id book_id) (books s) = Some b
                /\ 0 < Book.available_quantity b)
  /\ BorrowingDTO.PublicBorrowing.id (BorrowingDTO.DetailedBorrowing.public resp)
     = borrowings_id_seq s.
Proof.
  intros H d book_id row. subst d book_id row.
  unfold BorrowingService.checkoutBook, BorrowingRepository.create,
    BorrowingService.respond, BookRepository.findById,
    BorrowerRepository.findById, BorrowingRepository.hasActiveBorrowing,
    BorrowingRepository.insert_into_borrowings,
    BookRepository.add_available in H.
  unfold bind, ret, throw, query, transaction in H. hyp_cases. invert_pairs.
  split; [reflexivity|]. simpl. split.
  - eexists. split; [reflexivity|]. apply Z.leb_gt. assumption.
  - match goal with
    | H : hd_error _ = Some _ |- _ => apply hd_error_in, select_details_in in H;
                                      destruct H as [_ [H _]]
    end.
    unfold BorrowingRepository.has_id in *. simpl in *.
    now apply Z.eqb_eq.
Qed.

Lemma today_mono (a b : Z) : a <= b -> today a <= today b.
Proof. intros H. unfold today. apply Z.div_le_mono; [reflexivity | exact H]. Qed.

Lemma plus_available_undo (k : Z) (l : list Book.t) :
  map (fun x => if BookRepository.has_id k x
                then BookRepository.plus_available 1 x else x)
      (map (fun x => if BookRepository.has_id k x
                     then BookRepository.plus_available (-1) x else x) l)
  = l.
Proof.
  rewrite map_map. rewrite <- (map_id l) at 2. apply map_ext.
  intros x. destruct (BookRepository.has_id k x) eqn:E.
  - unfold BookRepository.has_id in *. simpl. rewrite E.
    destruct x. unfold BookRepository.plus_available. simpl. f_equal. lia.
  - now rewrite E.
Qed.

(** The service's return of an active borrowing succeeds when today is
    not before the checkout date and a copy of the book is out. *)
Lemma service_returnBook_commits (now i : Z) (s : db) (r : Borrowing.t)
      (b : Book.t) :
  db_wf s ->
  In r (borrowings s) -> Borrowing.id r = i -> Borrowing.return_date r = None ->
  Borrowing.checkout_date r <= today now ->
  In b (books s) -> Book.id b = Borrowing.book_id r ->
  Book.available_quantity b < Book.total_quantity b ->
  exists resp,
    BorrowingService.returnBook now i s
    = (Resolved resp,
       set_books
         (set_borrowings s
            (map (fun x => if BorrowingRepository.has_id i x
                           then BorrowingRepository.set_return_date (today now) x
                           else x) (borrowings s)))
         (map (fun x => if BookRepository.has_id (Borrowing.book_id r) x
                        then BookRepository.plus_available 1 x
                        else x) (books s))).
Proof.
  intros Hwf Hr Hid Hnull Hdate Hb Hbid Hroom.
  pose proof (returnBook_commits i (today now) s r b Hwf Hr Hid Hnull Hdate
                                 Hb Hbid Hroom) as Hrepo.
  cbv zeta in Hrepo.
  pose proof (returnBook_inv _ i (today now) s Hwf) as Hwf'.
  rewrite Hrepo in Hwf'. simpl in Hwf'.
  destruct (findById_present _ s r Hwf Hr) as [x [Hx Hxr]].
  rewrite Hid in Hx.
  set (s' := set_books _ _) in *.
  assert (In (BorrowingRepository.set_return_date (today now) r)
             (borrowings s')) as Hr'.
  { subst s'. simpl. apply in_map_iff. exists r. split; [|assumption].
    unfold BorrowingRepository.has_id. rewrite Hid, Z.eqb_refl. reflexivity. }
  destruct (findById_present _ s' _ Hwf' Hr') as [x' [Hx' _]].
  simpl in Hx'. rewrite Hid in Hx'.
  exists (BorrowingDTO.toDetailedBorrowingResponse
            now (BorrowingService.with_summaries x')).
  unfold BorrowingService.returnBook, BorrowingRepository.findById,
    BorrowingDTO.fromReturnRequest.
  unfold bind at 1 2. unfold query at 1. cbv zeta. rewrite Hx, Hxr, Hnull.
  rewrite Hrepo. rewrite Hx'. reflexivity.
Qed.

(** X6. Checking a book out and returning it restores the inventory:
    after a successful checkout, the return of the new borrowing on the
    same or a later day succeeds, and it leaves the books and borrowers
    tables exactly as they were before the checkout, with the same active
    borrowings. *)
Theorem checkout_then_return_restores_inventory :
  forall (now later : Z) (req : BorrowingDTO.CheckoutRequest.t) (s s1 : db)
         (resp : BorrowingDTO.DetailedBorrowing.t),
    db_wf s ->
    BorrowingService.checkoutBook now req s = (Resolved resp, s1) ->
    now <= later ->
    exists resp' s2,
      BorrowingService.returnBook
        later
        (BorrowingDTO.PublicBorrowing.id (BorrowingDTO.DetailedBorrowing.public resp))
        s1
      = (Resolved resp', s2)
      /\ books s2 = books s
      /\ borrowers s2 = borrowers s
      /\ filter Borrowing.active (borrowings s2)
         = filter Borrowing.active (borrowings s).
Proof.
  intros now later req s s1 resp Hwf H Hlater.
  pose proof (checkoutBook_inv _ now req s Hwf) as Hwf1.
  rewrite H in Hwf1. simpl in Hwf1.
  destruct (checkoutBook_resolved now req s s1 resp H)
    as [Hs1 [[b [Hfb Hpos]] Hid]].
  rewrite Hid.
  set (d := BorrowingDTO.fromCheckoutRequest now req) in *.
  set (row := Borrowing.mk (borrowings_id_seq s) _ _ _ _ _) in *.
  apply find_some_in in Hfb. destruct Hfb as [Hb Hbid].
  unfold BookRepository.has_id in Hbid. apply Z.eqb_eq in Hbid.
  pose proof (proj1 (books_check_none b) (books_checks _ _ Hwf b Hb)) as Hq.
  destruct (service_returnBook_commits
              later (borrowings_id_seq s) s1 row
              (BookRepository.plus_available (-1) b) Hwf1)
    as [resp' Hret].
  - subst s1. simpl. apply in_or_app. right. now left.
  - reflexivity.
  - reflexivity.
  - simpl. now apply today_mono.
  - subst s1. simpl. apply in_map_iff. exists b. split; [|assumption].
    replace (BookRepository.has_id _ b) with true; [reflexivity|].
    symmetry. apply Z.eqb_eq. exact Hbid.
  - simpl. exact Hbid.
  - simpl. lia.
  - eexists. eexists. split; [exact Hret|].
    subst s1. simpl. split; [|split].
    + apply plus_available_undo.
    + reflexivity.
    + rewrite map_app, filter_app. simpl.
      unfold BorrowingRepository.has_id at 2. simpl. rewrite Z.eqb_refl.
      simpl. rewrite app_nil_r. f_equal.
      rewrite <- (map_id (borrowings s)) at 2. apply map_ext_in.
      intros x Hx. unfold BorrowingRepository.has_id.
      destruct (Z.eqb_spec (Borrowing.id x) (borrowings_id_seq s)) as [E|E];
        [|reflexivity].
      exfalso. pose proof (borrowings_serial _ _ Hwf x Hx). lia.
Qed.

Lemma checkout_then_return_restores_inventory_witness :
  exists resp' s2,
    BorrowingService.returnBook (Sample.noon Sample.day_2024_01_10) 1
                                (Sample.lent Sample.gatsby)
    = (Resolved resp', s2)
    /\ books s2 = books (Sample.library Sample.gatsby).
Proof.
  destruct (checkout_then_return_restores_inventory
              (Sample.noon Sample.day_2024_01_01)
              (Sample.noon Sample.day_2024_01_10)
              (Sample.checkout 1)
              (Sample.library Sample.gatsby) (Sample.lent Sample.gatsby)
              (BorrowingDTO.DetailedBorrowing.mk
                 (BorrowingDTO.PublicBorrowing.mk
                    1 1 1 19723 19737 None
                    (Some (BorrowingDTO.BookSummary.mk
                             "The Great Gatsby" "F. Scott Fitzgerald"
                             "9780743273565"))
                    (Some (BorrowingDTO.BorrowerSummary.mk
                             "John Smith" "john.smith@email.com")))
                 false 0))
    as [resp' [s2 [H1 [H2 _]]]].
  - apply db_wfb_sound. vm_compute. reflexivity.
  - vm_compute. reflexivity.
  - vm_compute. discriminate.
  - exists resp', s2. split; [exact H1 | exact H2].
Defined.

(** ** The checkout pre-check, and a return that the schema refuses *)

Lemma due_after_today (now d : Z) : now < new_Date d -> today now < d.
Proof.
  unfold new_Date, today. intros H.
  apply Z.div_lt_upper_bound; unfold ms_per_day in *; lia.
Qed.

(** X7. The pre-check validateCheckout never rejects and never changes the
    database, and it predicts the checkout of the same book by the same
    borrower: when it answers isValid, a checkout whose data passes
    validateCheckoutData succeeds; when it answers with a message, the
    checkout rejects with an error of exactly that message and changes
    nothing. *)
Theorem validateCheckout_predicts_checkout :
  forall (now : Z) (req : BorrowingDTO.CheckoutRequest.t) (s : db),
    db_wf s ->
    BorrowingDTO.validateCheckoutData
      now (BorrowingDTO.fromCheckoutRequest now req) = Valid ->
    exists v,
      BorrowingService.validateCheckout
        (BorrowingDTO.CheckoutRequest.book_id req)
        (BorrowingDTO.CheckoutRequest.borrower_id req) s
      = (Resolved v, s)
      /\ match v with
         | Valid =>
             exists resp s',
               BorrowingService.checkoutBook now req s = (Resolved resp, s')
         | Invalid message =>
             BorrowingService.checkoutBook now req s
             = (Rejected (Error message), s)
         end.
Proof.
  intros now req s Hwf Hvalid.
  assert (BorrowingDTO.CheckoutData.checkout_date
            (BorrowingDTO.fromCheckoutRequest now req)
          <= BorrowingDTO.CheckoutData.due_date
               (BorrowingDTO.fromCheckoutRequest now req)) as Hdates.
  { unfold BorrowingDTO.validateCheckoutData in Hvalid.
    destruct (_ =? 0); [discriminate|].
    destruct (_ =? 0); [discriminate|].
    destruct (Z.leb_spec
                (new_Date (BorrowingDTO.CheckoutData.due_date
                             (BorrowingDTO.fromCheckoutRequest now req))) now);
      [discriminate|].
    apply due_after_today in H. simpl in *. lia. }
  unfold BorrowingService.validateCheckout, BorrowingService.checkoutBook.
  cbv zeta. rewrite Hvalid.
  unfold BookRepository.findById, BorrowerRepository.findById,
    BorrowingRepository.hasActiveBorrowing.
  unfold bind, query, ret, throw.
  change (BorrowingDTO.CheckoutData.book_id
            (BorrowingDTO.fromCheckoutRequest now req))
    with (BorrowingDTO.CheckoutRequest.book_id req) in *.
  change (BorrowingDTO.CheckoutData.borrower_id
            (BorrowingDTO.fromCheckoutRequest now req))
    with (BorrowingDTO.CheckoutRequest.borrower_id req) in *.
  destruct (find (BookRepository.has_id _) (books s)) as [b|] eqn:Fb;
    [|eexists; split; reflexivity].
  destruct (Z.leb_spec (Book.available_quantity b) 0) as [Hq|Hq];
    [eexists; split; reflexivity|].
  destruct (find (BorrowerRepository.has_id _) (borrowers s)) as [w|] eqn:Fw;
    [|eexists; split; reflexivity].
  destruct (negb _) eqn:Hloan; [eexists; split; reflexivity|].
  eexists. split; [reflexivity|].
  apply find_some_in in Fb. destruct Fb as [Hb Hbid].
  apply Z.eqb_eq in Hbid.
  apply find_some_in in Fw. destruct Fw as [Hw Hwid].
  apply Z.eqb_eq in Hwid.
  destruct (create_commits (BorrowingDTO.fromCheckoutRequest now req) s b)
    as [row [Hc _]]; auto.
  { simpl. rewrite <- Hwid. now apply in_map. }
  rewrite Hc. simpl. eexists. eexists. reflexivity.
Qed.

Lemma validateCheckout_predicts_checkout_witness :
  (exists resp s',
      BorrowingService.checkoutBook (Sample.noon Sample.day_2024_01_01)
                                    (Sample.checkout 1)
                                    (Sample.library Sample.gatsby)
      = (Resolved resp, s'))
  \/ (exists message,
         BorrowingService.checkoutBook (Sample.noon Sample.day_2024_01_01)
                                       (Sample.checkout 1)
                                       (Sample.library Sample.gatsby)
         = (Rejected (Error message), Sample.library Sample.gatsby)).
Proof.
  destruct (validateCheckout_predicts_checkout
              (Sample.noon Sample.day_2024_01_01) (Sample.checkout 1)
              (Sample.library Sample.gatsby))
    as [[|message] [_ H]].
  - apply db_wfb_sound. vm_compute. reflexivity.
  - vm_compute. reflexivity.
  - left. exact H.
  - right. exists message. exact H.
Defined.

(** X8. An active borrowing cannot be returned while the book's
    available_quantity already equals its total_quantity (the inventory
    was edited while the copy was out): the increment violates the CHECK
    available_quantity <= total_quantity, the transaction is rolled back,
    the borrowing stays active, and the caller gets an internal (database)
    error instead of a domain error. *)
Theorem return_refused_when_shelf_is_full :
  forall (now i : Z) (s : db) (r : Borrowing.t) (b : Book.t),
    db_wf s ->
    In r (borrowings s) -> Borrowing.id r = i ->
    Borrowing.return_date r = None ->
    Borrowing.checkout_date r <= today now ->
    In b (books s) -> Book.id b = Borrowing.book_id r ->
    Book.available_quantity b = Book.total_quantity b ->
    BorrowingService.returnBook now i s
    = (Rejected (PgError "books_available_lte_total"), s)
    /\ error_kind (PgError "books_available_lte_total") = Internal.
Proof.
  intros now i s r b Hwf Hr Hid Hnull Hdate Hb Hbid Hfull.
  split; [|reflexivity]. subst i.
  assert (Borrowing.active r = true) as Hact
      by (unfold Borrowing.active; now rewrite Hnull).
  destruct (findById_present _ s r Hwf Hr) as [x [Hx Hxr]].
  unfold BorrowingService.returnBook, BorrowingRepository.findById,
    BorrowingDTO.fromReturnRequest.
  unfold bind at 1 2. unfold query at 1. cbv zeta. rewrite Hx, Hxr, Hnull.
  unfold BorrowingRepository.returnBook,
    BorrowingRepository.select_active_for_update,
    BorrowingRepository.update_borrowings, BookRepository.add_available.
  unfold_io.
  rewrite (find_active_present _ s r Hwf Hr Hact).
  replace (filter (BorrowingRepository.has_id (Borrowing.id r)) (borrowings s))
    with [r]
    by (symmetry; apply (filter_key_unique Borrowing.id);
        [apply Hwf | assumption]).
  simpl.
  assert (borrowings_check (BorrowingRepository.set_return_date (today now) r)
          = None) as ->.
  { pose proof (borrowings_check_dates r (borrowings_checks _ _ Hwf r Hr))
      as [Hd _].
    unfold borrowings_check. simpl.
    destruct (Z.ltb_spec (Borrowing.due_date r) (Borrowing.checkout_date r));
      [lia|].
    destruct (Z.ltb_spec (today now) (Borrowing.checkout_date r));
      [lia | reflexivity]. }
  simpl.
  replace (filter (BookRepository.has_id (Borrowing.book_id r)) (books s))
    with [b]
    by (symmetry; rewrite <- Hbid; apply (filter_key_unique Book.id);
        [apply Hwf | assumption]).
  simpl.
  assert (books_check (BookRepository.plus_available 1 b)
          = Some "books_available_lte_total"%string) as ->.
  { unfold books_check. simpl.
    destruct (Z.gtb_spec (Book.available_quantity b + 1)
                         (Book.total_quantity b)); [reflexivity | lia]. }
  reflexivity.
Qed.

Lemma return_refused_when_shelf_is_full_witness :
  let s := serve (Sample.noon Sample.day_2024_01_01)
                 (UpdateBookAvailability 1 1) (Sample.lent Sample.gatsby) in
  BorrowingService.returnBook (Sample.noon Sample.day_2024_01_10) 1 s
  = (Rejected (PgError "books_available_lte_total"), s).
Proof.
  intros s.
  refine (proj1 (return_refused_when_shelf_is_full
                   (Sample.noon Sample.day_2024_01_10) 1 s
                   (Borrowing.mk 1 1 1 19723 19737 None)
                   (Book.mk 1 "The Great Gatsby" "F. Scott Fitzgerald"
                            "9780743273565" 5 5 (Some "A1-001"%string))
                   _ _ _ _ _ _ _ _)).
  - apply db_wfb_sound. vm_compute. reflexivity.
  - vm_compute. left. reflexivity.
  - reflexivity.
  - reflexivity.
  - vm_compute. discriminate.
  - vm_compute. left. reflexivity.
  - reflexivity.
  - reflexivity.
Defined.

(** ** The failures of a due-date extension *)

Lemma find_active_absent (s : db) (i : Z) :
  (forall r, In r (borrowings s) -> Borrowing.id r = i ->
             Borrowing.return_date r <> None) ->
  find (fun x => BorrowingRepository.has_id i x && Borrowing.active x)
       (borrowings s) = None.
Proof.
  intros H.
  destruct (find _ (borrowings s)) as [x|] eqn:F; [|reflexivity].
  apply find_some_in in F. destruct F as [Hx Hp].
  apply andb_true_iff in Hp. destruct Hp as [Hid Hact].
  apply Z.eqb_eq in Hid. exfalso. apply (H x Hx Hid).
  unfold Borrowing.active in Hact.
  destruct (Borrowing.return_date x); [discriminate | reflexivity].
Qed.

(** X9. A due-date extension fails without changing the database: with an
    InvalidInput-kind error when the new due date is not a date or its
    midnight is not after the current moment, however the borrowing
    stands; and otherwise with the NotFound-kind error
    [Active borrowing not found] when no borrowing with that id exists or
    the borrowing has been returned. *)
Theorem extendDueDate_failures :
  forall (now i : Z) (reason : option string) (s : db),
    rejects_unchanged (BorrowingService.extendDueDate now i None reason) s
                      "Invalid due date format" InvalidInput
    /\ (forall d, new_Date d <= now ->
          rejects_unchanged
            (BorrowingService.extendDueDate now i (Some d) reason) s
            "New due date must be in the future" InvalidInput)
    /\ (forall d, now < new_Date d ->
          (forall r, In r (borrowings s) -> Borrowing.id r = i ->
                     Borrowing.return_date r <> None) ->
          rejects_unchanged
            (BorrowingService.extendDueDate now i (Some d) reason) s
            "Active borrowing not found" NotFound).
Proof.
  intros now i reason s. split; [|split].
  - split; reflexivity.
  - intros d Hd. split; [|reflexivity].
    unfold BorrowingService.extendDueDate.
    destruct (Z.leb_spec (new_Date d) now); [reflexivity | lia].
  - intros d Hd Hnone. split; [|reflexivity].
    unfold BorrowingService.extendDueDate.
    destruct (Z.leb_spec (new_Date d) now); [lia|].
    unfold BorrowingRepository.extendDueDate,
      BorrowingRepository.select_active_for_update.
    unfold_io. rewrite (find_active_absent s i Hnone). reflexivity.
Qed.

Lemma extendDueDate_failures_witness :
  rejects_unchanged
    (BorrowingService.extendDueDate (Sample.noon Sample.day_2024_01_10) 1
                                    (Some Sample.day_2024_01_10) None)
    Sample.returned "New due date must be in the future" InvalidInput
  /\ rejects_unchanged
       (BorrowingService.extendDueDate (Sample.noon Sample.day_2024_01_10) 1
                                       (Some 19760) None)
       Sample.returned "Active borrowing not found" NotFound.
Proof.
  pose proof (extendDueDate_failures (Sample.noon Sample.day_2024_01_10) 1
                                     None Sample.returned) as [_ [H1 H2]].
  split.
  - apply H1. vm_compute. discriminate.
  - apply H2.
    + vm_compute. reflexivity.
    + intros r Hr _. vm_compute in Hr. destruct Hr as [<- | []].
      discriminate.
Defined.

(** ** ORDER BY and the join of the listing queries *)

Lemma insert_by_perm {R : Type} (le : R -> R -> bool) (x : R) (l : list R) :
  Permutation (insert_by le x l) (x :: l).
Proof.
  induction l as [|y l IH]; simpl; [reflexivity|].
  destruct (le x y); [reflexivity|].
  rewrite IH. apply perm_swap.
Qed.

Lemma order_by_perm {R : Type} (le : R -> R -> bool) (l : list R) :
  Permutation (order_by le l) l.
Proof.
  induction l as [|x l IH]; simpl; [reflexivity|].
  unfold order_by in *. simpl. rewrite insert_by_perm. now constructor.
Qed.

Section OrderBy.
Variable R : Type.
Variable le : R -> R -> bool.
Hypothesis le_total : forall x y, le x y = false -> le y x = true.
Hypothesis le_trans :
  forall x y z, le x y = true -> le y z = true -> le x z = true.

Lemma insert_by_sorted (x : R) (l : list R) :
  StronglySorted (fun a b => le a b = true) l ->
  StronglySorted (fun a b => le a b = true) (insert_by le x l).
Proof.
  induction l as [|y l IH]; simpl; intros Hs.
  - constructor; constructor.
  - inversion Hs as [|? ? Hl Hy]; subst.
    destruct (le x y) eqn:E.
    + constructor; [assumption|]. constructor; [assumption|].
      eapply Forall_impl; [|exact Hy]. intros z Hz. simpl in Hz.
      now apply (le_trans x y z).
    + constructor; [now apply IH|].
      apply (Permutation_Forall (Permutation_sym (insert_by_perm le x l))).
      constructor; [now apply le_total | assumption].
Qed.

Lemma order_by_sorted (l : list R) :
  StronglySorted (fun a b => le a b = true) (order_by le l).
Proof.
  induction l as [|x l IH]; [constructor|].
  unfold order_by in *. simpl. now apply insert_by_sorted.
Qed.

End OrderBy.

Lemma StronglySorted_map {A B : Type} (f : A -> B) (P : B -> B -> Prop)
      (l : list A) :
  StronglySorted (fun a b => P (f a) (f b)) l -> StronglySorted P (map f l).
Proof.
  induction 1 as [|a l Hs IH Ha]; simpl; constructor; [assumption|].
  apply Forall_map. exact Ha.
Qed.

Lemma StronglySorted_impl {A : Type} (P Q : A -> A -> Prop) (l : list A) :
  (forall a b, P a b -> Q a b) ->
  StronglySorted P l -> StronglySorted Q l.
Proof.
  intros H. induction 1 as [|a l Hs IH Ha]; constructor; [assumption|].
  eapply Forall_impl; [|exact Ha]. intros b. apply H.
Qed.

Lemma flat_map_singletons {A B : Type} (f : A -> list B) (g : B -> A)
      (l : list A) :
  (forall x, In x l -> exists y, f x = [y] /\ g y = x) ->
  map g (flat_map f l) = l.
Proof.
  induction l as [|x l IH]; simpl; intros H; [reflexivity|].
  destruct (H x (or_introl eq_refl)) as [y [-> Hy]]. simpl.
  rewrite Hy. f_equal. apply IH. intros z Hz. apply H. now right.
Qed.

(** With the foreign keys in place the join has exactly one row per
    selected borrowing, in the order of the borrowings table. *)
Lemma select_details_borrowings (closed : Z -> Prop)
      (wher : Borrowing.t -> bool) (s : db) :
  db_inv closed s ->
  map BorrowingRow.borrowing (BorrowingRepository.select_details wher s)
  = filter wher (borrowings s).
Proof.
  intros Hinv. unfold BorrowingRepository.select_details.
  apply flat_map_singletons. intros r Hr.
  apply filter_In in Hr. destruct Hr as [Hr _].
  pose proof (borrowings_book_id_fkey _ _ Hinv r Hr) as Hb.
  pose proof (borrowings_borrower_id_fkey _ _ Hinv r Hr) as Hw.
  apply in_map_iff in Hb. destruct Hb as [b [Hbid Hb]].
  apply in_map_iff in Hw. destruct Hw as [w [Hwid Hw]].
  replace (filter (BookRepository.has_id (Borrowing.book_id r)) (books s))
    with [b]
    by (symmetry; rewrite <- Hbid; apply (filter_key_unique Book.id);
        [apply Hinv | assumption]).
  replace (filter (BorrowerRepository.has_id (Borrowing.borrower_id r))
                  (borrowers s))
    with [w]
    by (symmetry; rewrite <- Hwid; apply (filter_key_unique Borrower.id);
        [apply Hinv | assumption]).
  simpl. eexists. split; reflexivity.
Qed.

Lemma overdue_before_now (now d : Z) : d < today now -> new_Date d < now.
Proof.
  unfold today, new_Date. intros H.
  assert (0 < ms_per_day) as Hpos by (unfold ms_per_day; lia).
  pose proof (Z.mul_div_le now ms_per_day Hpos). nia.
Qed.

(** X10. The overdue report lists exactly the borrowings that are active
    and due before today, each once, in ascending order of due date, and
    total_overdue is their number; every listed entry is flagged
    is_overdue with days_overdue at least 1.  The report never rejects and
    never changes the database. *)
Theorem overdue_report_is_exact :
  forall (now : Z) (s : db),
    db_wf s ->
    exists rows,
      BorrowingService.getOverdueBorrowings now s
      = (Resolved (rows, List.length rows), s)
      /\ Permutation
           (map (fun x => BorrowingDTO.PublicBorrowing.id
                            (BorrowingDTO.DetailedBorrowing.public x)) rows)
           (map Borrowing.id
                (filter (fun r => Borrowing.active r
                                  && (Borrowing.due_date r <? today now))
                        (borrowings s)))
      /\ StronglySorted
           Z.le
           (map (fun x => BorrowingDTO.PublicBorrowing.due_date
                            (BorrowingDTO.DetailedBorrowing.public x)) rows)
      /\ Forall (fun x => BorrowingDTO.DetailedBorrowing.is_overdue x = true
                          /\ 1 <= BorrowingDTO.DetailedBorrowing.days_overdue x
                          /\ BorrowingDTO.PublicBorrowing.return_date
                               (BorrowingDTO.DetailedBorrowing.public x) = None)
                rows.
Proof.
  intros now s Hwf.
  unfold BorrowingService.getOverdueBorrowings, BorrowingRepository.findOverdue.
  unfold_io.
  set (le := fun x y : BorrowingRow.t * Z =>
               Borrowing.due_date (BorrowingRow.borrowing (fst x))
               <=? Borrowing.due_date (BorrowingRow.borrowing (fst y))).
  set (wher := fun br => Borrowing.active br
                         && (Borrowing.due_date br <? today now)).
  set (sel := BorrowingRepository.select_details wher s).
  set (l := map (fun row => (row, today now
                                  - Borrowing.due_date
                                      (BorrowingRow.borrowing row))) sel).
  eexists. split; [rewrite length_map; reflexivity|].
  split; [|split].
  - rewrite map_map. simpl.
    rewrite <- (select_details_borrowings _ wher s Hwf). fold sel.
    rewrite map_map.
    transitivity (map (fun x : BorrowingRow.t * Z =>
                         Borrowing.id (BorrowingRow.borrowing (fst x))) l).
    + apply Permutation_map. apply order_by_perm.
    + subst l. rewrite map_map. simpl. reflexivity.
  - rewrite map_map. simpl. apply StronglySorted_map.
    apply StronglySorted_impl with (P := fun a b => le a b = true);
      [|apply order_by_sorted].
    + intros a b H. unfold le in H. now apply Z.leb_le.
    + intros x y H. unfold le in *. apply Z.leb_gt in H. apply Z.leb_le. lia.
    + intros x y z H1 H2. unfold le in *.
      apply Z.leb_le in H1, H2. apply Z.leb_le. lia.
  - apply Forall_forall. intros x Hx.
    apply in_map_iff in Hx. destruct Hx as [[row days] [<- Hin]].
    apply (Permutation_in _ (order_by_perm le l)) in Hin.
    subst l. apply in_map_iff in Hin. destruct Hin as [row' [E Hrow]].
    inversion E; subst row' days; clear E.
    apply select_details_in in Hrow. destruct Hrow as [_ [Hw _]].
    unfold wher in Hw. apply andb_true_iff in Hw. destruct Hw as [Hact Hdue].
    apply Z.ltb_lt in Hdue.
    assert (Borrowing.return_date (BorrowingRow.borrowing row) = None) as Hnull.
    { unfold Borrowing.active in Hact.
      destruct (Borrowing.return_date _); [discriminate | reflexivity]. }
    pose proof (overdue_before_now _ _ Hdue) as Hlt.
    destruct (enriched_overdue_semantics
                now (BorrowingService.with_summaries row) Hnull) as [H1 H2].
    simpl fst. split; [now apply H1|]. split; [|exact Hnull].
    rewrite (H2 Hlt). simpl.
    destruct (now mod ms_per_day =? 0); lia.
Qed.

Lemma overdue_report_is_exact_witness :
  exists rows,
    BorrowingService.getOverdueBorrowings (Sample.noon Sample.day_2024_01_10)
                                          Sample.due_new_year
    = (Resolved (rows, List.length rows), Sample.due_new_year)
    /\ Permutation
         (map (fun x => BorrowingDTO.PublicBorrowing.id
                          (BorrowingDTO.DetailedBorrowing.public x)) rows)
         [1].
Proof.
  destruct (overdue_report_is_exact (Sample.noon Sample.day_2024_01_10)
                                    Sample.due_new_year)
    as [rows [H1 [H2 _]]].
  - apply db_wfb_sound. vm_compute. reflexivity.
  - exists rows. split; [exact H1 | exact H2].
Defined.

(** ** Borrowing statistics *)

Lemma filter_partition_length {A : Type} (p : A -> bool) (l : list A) :
  (List.length (filter p l) + List.length (filter (fun x => negb (p x)) l)
   = List.length l)%nat.
Proof.
  induction l as [|x l IH]; simpl; [reflexivity|].
  destruct (p x); simpl; lia.
Qed.

Lemma filter_and_length {A : Type} (p q : A -> bool) (l : list A) :
  (List.length (filter (fun x => p x && q x) l) <= List.length (filter p l))%nat.
Proof.
  induction l as [|x l IH]; simpl; [lia|].
  destruct (p x), (q x); simpl; lia.
Qed.

Lemma filter_length_bound {A : Type} (p : A -> bool) (l : list A) :
  (List.length (filter p l) <= List.length l)%nat.
Proof.
  induction l as [|x l IH]; simpl; [lia|]. destruct (p x); simpl; lia.
Qed.

Lemma empty_period (startDate endDate : Z) (l : list Borrowing.t) :
  endDate < startDate ->
  filter (fun r => (startDate <=? Borrowing.checkout_date r)
                   && (Borrowing.checkout_date r <=? endDate)) l = [].
Proof.
  intros H. induction l as [|r l IH]; simpl; [reflexivity|].
  destruct (Z.leb_spec startDate (Borrowing.checkout_date r));
    destruct (Z.leb_spec (Borrowing.checkout_date r) endDate);
    simpl; try assumption; lia.
Qed.

(** X11. The statistics of a period never reject and never change the
    database; they echo the period asked for, and their counts are
    coherent: total_borrowings = returned_books + active_borrowings,
    0 <= overdue_books <= active_borrowings, total_borrowings is at most
    the size of the borrowings table, and every count is 0 when the period
    is empty (end before start). *)
Theorem borrowing_statistics_are_coherent :
  forall (now startDate endDate : Z) (s : db),
    exists stats,
      BorrowingService.getBorrowingStatistics now startDate endDate s
      = (Resolved (startDate, endDate, stats), s)
      /\ BorrowingRepository.Statistics.total_borrowings stats
         = BorrowingRepository.Statistics.returned_books stats
           + BorrowingRepository.Statistics.active_borrowings stats
      /\ 0 <= BorrowingRepository.Statistics.overdue_books stats
         <= BorrowingRepository.Statistics.active_borrowings stats
      /\ 0 <= BorrowingRepository.Statistics.returned_books stats
      /\ BorrowingRepository.Statistics.total_borrowings stats
         <= Z.of_nat (List.length (borrowings s))
      /\ (endDate < startDate ->
          BorrowingRepository.Statistics.total_borrowings stats = 0).
Proof.
  intros now startDate endDate s.
  unfold BorrowingService.getBorrowingStatistics,
    BorrowingRepository.getStatistics.
  unfold_io. eexists. split; [reflexivity|]. simpl.
  set (rows := filter _ (borrowings s)).
  pose proof (filter_partition_length Borrowing.active rows) as Hp.
  pose proof (filter_and_length Borrowing.active
                                (fun r => Borrowing.due_date r <? today now)
                                rows) as Ho.
  pose proof (filter_length_bound
                (fun r => (startDate <=? Borrowing.checkout_date r)
                          && (Borrowing.checkout_date r <=? endDate))
                (borrowings s)) as Hb.
  fold rows in Hb. cbv beta in Hp, Ho, Hb.
  split; [lia|]. split; [lia|]. split; [lia|]. split; [lia|].
  intros Hempty. subst rows.
  rewrite (empty_period startDate endDate (borrowings s) Hempty).
  reflexivity.
Qed.

Lemma borrowing_statistics_are_coherent_witness :
  exists stats,
    BorrowingService.getBorrowingStatistics
      (Sample.noon Sample.day_2024_01_10)
      Sample.day_2024_01_10 Sample.day_2024_01_01 (Sample.lent Sample.gatsby)
    = (Resolved (Sample.day_2024_01_10, Sample.day_2024_01_01, stats),
       Sample.lent Sample.gatsby)
    /\ BorrowingRepository.Statistics.total_borrowings stats = 0.
Proof.
  destruct (borrowing_statistics_are_coherent
              (Sample.noon Sample.day_2024_01_10)
              Sample.day_2024_01_10 Sample.day_2024_01_01
              (Sample.lent Sample.gatsby))
    as [stats [H1 [_ [_ [_ [_ H6]]]]]].
  exists stats. split; [exact H1|]. apply H6. vm_compute. reflexivity.
Defined.

(** ** Pages of borrowings *)

Lemma key_le_total (a b : option Z) :
  BorrowingRepository.key_le a b = false ->
  BorrowingRepository.key_le b a = true.
Proof.
  destruct a as [x|], b as [y|]; simpl; try congruence.
  intros H. apply Z.leb_gt in H. apply Z.leb_le. lia.
Qed.

Lemma key_le_trans (a b c : option Z) :
  BorrowingRepository.key_le a b = true ->
  BorrowingRepository.key_le b c = true ->
  BorrowingRepository.key_le a c = true.
Proof.
  destruct a as [x|], b as [y|], c as [z|]; simpl; try congruence.
  intros H1 H2. apply Z.leb_le in H1, H2. apply Z.leb_le. lia.
Qed.

Lemma sort_le_total (sortBy sortOrder : string) (x y : BorrowingRow.t) :
  BorrowingRepository.sort_le sortBy sortOrder x y = false ->
  BorrowingRepository.sort_le sortBy sortOrder y x = true.
Proof.
  unfold BorrowingRepository.sort_le.
  destruct (String.eqb sortOrder "ASC"); apply key_le_total.
Qed.

Lemma sort_le_trans (sortBy sortOrder : string) (x y z : BorrowingRow.t) :
  BorrowingRepository.sort_le sortBy sortOrder x y = true ->
  BorrowingRepository.sort_le sortBy sortOrder y z = true ->
  BorrowingRepository.sort_le sortBy sortOrder x z = true.
Proof.
  unfold BorrowingRepository.sort_le.
  destruct (String.eqb sortOrder "ASC"); intros H1 H2.
  - exact (key_le_trans _ _ _ H1 H2).
  - exact (key_le_trans _ _ _ H2 H1).
Qed.

Lemma in_page {A : Type} (n m : nat) (l : list A) (x : A) :
  In x (firstn n (skipn m l)) -> In x l.
Proof.
  intros H.
  rewrite <- (firstn_skipn m l). apply in_or_app. right.
  rewrite <- (firstn_skipn n (skipn m l)). apply in_or_app. now left.
Qed.

Lemma NoDup_page {A : Type} (n m : nat) (l : list A) :
  NoDup l -> NoDup (firstn n (skipn m l)).
Proof.
  intros H. rewrite <- (firstn_skipn m l) in H.
  apply NoDup_app_remove_l in H.
  rewrite <- (firstn_skipn n (skipn m l)) in H.
  now apply NoDup_app_remove_r in H.
Qed.

Lemma StronglySorted_app {A : Type} (P : A -> A -> Prop) (l1 l2 : list A) :
  StronglySorted P (l1 ++ l2) -> StronglySorted P l1 /\ StronglySorted P l2.
Proof.
  induction l1 as [|a l1 IH]; simpl; intros H.
  - split; [constructor | assumption].
  - inversion H as [|? ? Hs Ha]; subst.
    destruct (IH Hs) as [H1 H2]. split; [|assumption].
    constructor; [assumption|].
    apply Forall_app in Ha. apply Ha.
Qed.

Lemma StronglySorted_page {A : Type} (P : A -> A -> Prop) (n m : nat)
      (l : list A) :
  StronglySorted P l -> StronglySorted P (firstn n (skipn m l)).
Proof.
  intros H. rewrite <- (firstn_skipn m l) in H.
  apply StronglySorted_app in H. destruct H as [_ H].
  rewrite <- (firstn_skipn n (skipn m l)) in H.
  apply StronglySorted_app in H. apply H.
Qed.

(** [findAll] throws before any query when its sortOrder is not a
    string. *)
Lemma findAll_type_error (now : Z) (options : BorrowingDTO.FindAllOptions.t)
      (s : db) :
  BorrowingDTO.default_to (BorrowingDTO.FindAllOptions.sortOrder options)
                          "DESC" = QOther ->
  BorrowingRepository.findAll now options s
  = (Rejected (Error "sortOrder.toUpperCase is not a function"), s).
Proof.
  intros H. unfold BorrowingRepository.findAll. cbv zeta. rewrite H.
  reflexivity.
Qed.

(** With a string for sortOrder, [findAll] either is rejected by the
    database for its parameters and changes nothing, or it answers with a
    page of the sorted join and the count of the matching borrowings. *)
Lemma findAll_cases (now : Z) (options : BorrowingDTO.FindAllOptions.t)
      (s : db) (sortOrder : string) :
  BorrowingDTO.default_to (BorrowingDTO.FindAllOptions.sortOrder options)
                          "DESC" = QString sortOrder ->
  let page := BookRepository.or_else
                (BorrowingDTO.FindAllOptions.page options) 1 in
  let limit := BookRepository.or_else
                 (BorrowingDTO.FindAllOptions.limit options) 10 in
  let offset := (page - 1) * limit in
  let wher := BorrowingRepository.where_clause
                now (BorrowingDTO.FindAllOptions.borrower_id options)
                (BorrowingDTO.FindAllOptions.book_id options)
                (BorrowingDTO.default_to
                   (BorrowingDTO.FindAllOptions.status options) "all") in
  let safeSortBy :=
    qone_of ["checkout_date"; "due_date"; "return_date"]%string
            (BorrowingDTO.default_to
               (BorrowingDTO.FindAllOptions.sortBy options) "checkout_date")
            "checkout_date" in
  let safeSortOrder :=
    if includes ["ASC"; "DESC"]%string (toUpperCase sortOrder)
    then toUpperCase sortOrder else "DESC"%string in
  let bound :=
    BorrowingRepository.filter_param
      (BorrowingDTO.FindAllOptions.borrower_id options)
    && BorrowingRepository.filter_param
         (BorrowingDTO.FindAllOptions.book_id options) in
  ((bound = false
    \/ limit < 0 \/ offset < 0 \/ 2 ^ 63 <= limit \/ 2 ^ 63 <= offset)
   /\ exists c, BorrowingRepository.findAll now options s
                = (Rejected (PgError c), s))
  \/ (bound = true /\ 0 <= limit < 2 ^ 63 /\ 0 <= offset < 2 ^ 63
      /\ BorrowingRepository.findAll now options s
         = (Resolved
              (firstn (Z.to_nat limit)
                      (skipn (Z.to_nat offset)
                             (order_by
                                (BorrowingRepository.sort_le safeSortBy
                                                             safeSortOrder)
                                (BorrowingRepository.select_details wher s))),
               BorrowingDTO.Pagination.mk
                 page limit
                 (Z.of_nat (List.length (filter wher (borrowings s))))
                 (if limit =? 0 then None
                  else Some (ceil_div
                               (Z.of_nat (List.length
                                            (filter wher (borrowings s))))
                               limit))),
            s)).
Proof.
  intros Hso page limit offset wher safeSortBy safeSortOrder bound.
  unfold BorrowingRepository.findAll. cbv zeta. rewrite Hso.
  fold page limit. fold offset. fold wher. fold bound.
  clearbody bound. destruct bound; cbn [andb negb];
    [|left; split; [now left | eexists; reflexivity]].
  destruct (negb (BorrowingRepository.int8 limit
                  && BorrowingRepository.int8 offset)) eqn:E.
  { left. split; [|eexists; reflexivity].
    unfold BorrowingRepository.int8 in E.
    apply negb_true_iff, andb_false_iff in E.
    destruct E as [E|E]; apply andb_false_iff in E; destruct E as [E|E];
      try apply Z.leb_gt in E; try apply Z.ltb_ge in E; lia. }
  apply negb_false_iff, andb_true_iff in E. destruct E as [E1 E2].
  unfold BorrowingRepository.int8 in E1, E2.
  apply andb_true_iff in E1, E2. destruct E1 as [_ E1], E2 as [_ E2].
  apply Z.ltb_lt in E1, E2.
  destruct (Z.ltb_spec offset 0);
    [left; split; [lia | eexists; reflexivity]|].
  destruct (Z.ltb_spec limit 0);
    [left; split; [lia | eexists; reflexivity]|].
  right. split; [reflexivity|]. split; [lia|]. split; [lia|]. reflexivity.
Qed.

(** A page of the sorted join, under the schema invariants. *)
Lemma page_facts (closed : Z -> Prop) (s : db) (wher : Borrowing.t -> bool)
      (le : BorrowingRow.t -> BorrowingRow.t -> bool) (n m : nat) :
  db_inv closed s ->
  (forall x y, le x y = false -> le y x = true) ->
  (forall x y z, le x y = true -> le y z = true -> le x z = true) ->
  let rows := firstn n (skipn m (order_by le
                                   (BorrowingRepository.select_details wher s))) in
  List.length rows
  = Nat.min n (List.length (filter wher (borrowings s)) - m)
  /\ (forall x, In x rows ->
                In (BorrowingRow.borrowing x) (borrowings s)
                /\ wher (BorrowingRow.borrowing x) = true)
  /\ NoDup (map (fun x => Borrowing.id (BorrowingRow.borrowing x)) rows)
  /\ StronglySorted (fun a b => le a b = true) rows.
Proof.
  intros Hinv Htotal Htrans rows. subst rows.
  set (sel := BorrowingRepository.select_details wher s).
  pose proof (order_by_perm le sel) as Hperm.
  pose proof (select_details_borrowings _ wher s Hinv) as Hsel. fold sel in Hsel.
  split; [|split; [|split]].
  - rewrite length_firstn, length_skipn.
    rewrite (Permutation_length Hperm).
    rewrite <- Hsel, length_map. reflexivity.
  - intros x Hx. apply in_page in Hx.
    apply (Permutation_in _ Hperm) in Hx.
    apply select_details_in in Hx. destruct Hx as [H1 [H2 _]]. auto.
  - rewrite <- firstn_map, <- skipn_map. apply NoDup_page.
    apply (Permutation_NoDup
             (Permutation_map _ (Permutation_sym Hperm))).
    rewrite <- (map_map BorrowingRow.borrowing Borrowing.id), Hsel.
    apply (NoDup_map_filter_any Borrowing.id). apply Hinv.
  - apply StronglySorted_page. now apply order_by_sorted.
Qed.

Lemma filter_all {A : Type} (p : A -> bool) (l : list A) :
  (forall x, p x = true) -> filter p l = l.
Proof.
  intros H. induction l as [|x l IH]; simpl; [reflexivity|].
  now rewrite H, IH.
Qed.

(** The options that [fromSearchQuery] builds when sortOrder is a
    string. *)
Lemma fromSearchQuery_resolved (q : BorrowingDTO.SearchQuery.t) :
  BorrowingDTO.SearchQuery.sortOrder q <> Some QOther ->
  exists sortOrder,
    BorrowingDTO.default_to (BorrowingDTO.SearchQuery.sortOrder q) "DESC"
    = QString sortOrder
    /\ (BorrowingDTO.SearchQuery.sortOrder q = None ->
        sortOrder = "DESC"%string)
    /\ BorrowingDTO.fromSearchQuery q
       = Resolved
           (BorrowingDTO.FindAllOptions.mk
              (BorrowingDTO.SearchQuery.borrower_id q)
              (BorrowingDTO.SearchQuery.book_id q)
              (Some (QString
                       (qone_of ["all"; "active"; "returned"; "overdue"]%string
                                (BorrowingDTO.default_to
                                   (BorrowingDTO.SearchQuery.status q) "all")
                                "all")))
              (Some (Z.max 1 (js_or_undef (BorrowingDTO.SearchQuery.page q) 1)))
              (Some (Z.min 100
                           (Z.max 1 (js_or_undef
                                       (BorrowingDTO.SearchQuery.limit q) 10))))
              (Some (QString
                       (qone_of ["checkout_date"; "due_date";
                                 "return_date"]%string
                                (BorrowingDTO.default_to
                                   (BorrowingDTO.SearchQuery.sortBy q)
                                   "checkout_date")
                                "checkout_date")))
              (Some (QString
                       (if includes ["ASC"; "DESC"]%string
                                    (toUpperCase sortOrder)
                        then toUpperCase sortOrder else "DESC"%string)))).
Proof.
  intros H. unfold BorrowingDTO.fromSearchQuery. cbv zeta.
  destruct (BorrowingDTO.SearchQuery.sortOrder q) as [[so|]|]; simpl.
  - exists so. split; [reflexivity|]. split; [discriminate | reflexivity].
  - congruence.
  - exists "DESC"%string. split; [reflexivity|]. split; reflexivity.
Qed.

(** X12. Listing all borrowings.  A sortOrder that is not a string (a
    repeated or bracketed parameter of the query string) makes the
    request fail with a TypeError before any query, and the database is
    left as it was.  With any other sortOrder, the page number being a
    safe integer and the ids to filter by fitting the INTEGER columns,
    the request never rejects and never changes the database: page is at
    least 1 and limit between 1 and 100; total counts the matching
    borrowings and totalPages is total / limit rounded up; the page holds
    exactly the rows that the offset leaves of them, at most limit; every
    row is a borrowing of the table that passes the status filter, no
    borrowing is listed twice, and without a sort parameter the most
    recent checkout comes first. *)
Theorem getAllBorrowings_page :
  forall (now : Z) (q : BorrowingDTO.SearchQuery.t) (s : db),
    (BorrowingDTO.SearchQuery.sortOrder q = Some QOther ->
     BorrowingService.getAllBorrowings now q s
     = (Rejected (Error "sortOrder?.toUpperCase is not a function"), s))
    /\ (db_wf s ->
        js_or_undef (BorrowingDTO.SearchQuery.page q) 1 < 2 ^ 53 ->
        BorrowingRepository.filter_param
          (BorrowingDTO.SearchQuery.borrower_id q) = true ->
        BorrowingRepository.filter_param
          (BorrowingDTO.SearchQuery.book_id q) = true ->
        BorrowingDTO.SearchQuery.sortOrder q <> Some QOther ->
        exists rows pg,
          BorrowingService.getAllBorrowings now q s = (Resolved (rows, pg), s)
          /\ 1 <= BorrowingDTO.Pagination.page pg
          /\ 1 <= BorrowingDTO.Pagination.limit pg <= 100
          /\ 0 <= BorrowingDTO.Pagination.total pg
             <= Z.of_nat (List.length (borrowings s))
          /\ (BorrowingDTO.SearchQuery.borrower_id q = None ->
              BorrowingDTO.SearchQuery.book_id q = None ->
              BorrowingDTO.SearchQuery.status q = None ->
              BorrowingDTO.Pagination.total pg
              = Z.of_nat (List.length (borrowings s)))
          /\ BorrowingDTO.Pagination.totalPages pg
             = Some (ceil_div (BorrowingDTO.Pagination.total pg)
                              (BorrowingDTO.Pagination.limit pg))
          /\ Z.of_nat (List.length rows)
             = Z.max 0 (Z.min (BorrowingDTO.Pagination.limit pg)
                              (BorrowingDTO.Pagination.total pg
                               - (BorrowingDTO.Pagination.page pg - 1)
                                 * BorrowingDTO.Pagination.limit pg))
          /\ NoDup (map BorrowingDTO.PublicBorrowing.id rows)
          /\ Forall
               (fun x =>
                  (exists row,
                      x = BorrowingDTO.toPublicBorrowing
                            (BorrowingService.with_summaries row)
                      /\ In (BorrowingRow.borrowing row) (borrowings s))
                  /\ (BorrowingDTO.SearchQuery.status q
                      = Some (QString "active") ->
                      BorrowingDTO.PublicBorrowing.return_date x = None)
                  /\ (BorrowingDTO.SearchQuery.status q
                      = Some (QString "returned") ->
                      BorrowingDTO.PublicBorrowing.return_date x <> None)
                  /\ (BorrowingDTO.SearchQuery.status q
                      = Some (QString "overdue") ->
                      BorrowingDTO.PublicBorrowing.return_date x = None
                      /\ BorrowingDTO.PublicBorrowing.due_date x < today now))
               rows
          /\ (BorrowingDTO.SearchQuery.sortBy q = None ->
              BorrowingDTO.SearchQuery.sortOrder q = None ->
              StronglySorted
                (fun a b => BorrowingDTO.PublicBorrowing.checkout_date b
                            <= BorrowingDTO.PublicBorrowing.checkout_date a)
                rows)).
Proof.
  intros now q s. split.
  { intros E. unfold BorrowingService.getAllBorrowings,
      BorrowingDTO.fromSearchQuery. cbv zeta. rewrite E. reflexivity. }
  intros Hwf Hpage Hborrower Hbook Hstring.
  destruct (fromSearchQuery_resolved q Hstring) as [so [_ [Hdesc Hopts]]].
  unfold BorrowingService.getAllBorrowings. rewrite Hopts. unfold bind.
  match type of Hopts with
  | _ = Resolved ?o =>
      pose proof (findAll_cases
                    now o s
                    (if includes ["ASC"; "DESC"]%string (toUpperCase so)
                     then toUpperCase so else "DESC"%string) eq_refl) as Hc
  end.
  cbv zeta in Hc.
  cbn [BorrowingDTO.FindAllOptions.borrower_id
         BorrowingDTO.FindAllOptions.book_id
         BorrowingDTO.FindAllOptions.status BorrowingDTO.FindAllOptions.page
         BorrowingDTO.FindAllOptions.limit BorrowingDTO.FindAllOptions.sortBy
         BorrowingDTO.default_to BookRepository.or_else] in Hc.
  set (page := Z.max 1 (js_or_undef (BorrowingDTO.SearchQuery.page q) 1)) in *.
  set (limit := Z.min 100 (Z.max 1 (js_or_undef
                                      (BorrowingDTO.SearchQuery.limit q) 10)))
    in *.
  set (wher := BorrowingRepository.where_clause _ _ _ _) in *.
  assert (1 <= page < 2 ^ 53) as Hp by (subst page; lia).
  assert (1 <= limit <= 100) as Hl by (subst limit; lia).
  assert (0 <= (page - 1) * limit < 2 ^ 63) as Ho.
  { change (2 ^ 53) with 9007199254740992 in Hp.
    change (2 ^ 63) with 9223372036854775808. nia. }
  match type of Hc with
  | context [BorrowingRepository.sort_le ?a ?o] =>
      set (sortBy := a) in *; set (sortOrder := o) in *
  end.
  destruct Hc as [[Hbad _] | (_ & _ & _ & Hf)].
  { exfalso. destruct Hbad as [Hbad | Hbad].
    - rewrite Hborrower, Hbook in Hbad. discriminate.
    - change (2 ^ 63) with 9223372036854775808 in *. lia. }
  rewrite Hf. unfold ret, BorrowingDTO.toBorrowingsListResponse.
  eexists. eexists. split; [reflexivity|]. simpl.
  destruct (page_facts _ s wher
                       (BorrowingRepository.sort_le sortBy sortOrder)
                       (Z.to_nat limit) (Z.to_nat ((page - 1) * limit)) Hwf
                       (sort_le_total sortBy sortOrder)
                       (sort_le_trans sortBy sortOrder))
    as [Hlen [Hin [Hnd Hsorted]]].
  set (rows := firstn _ _) in *.
  pose proof (filter_length_bound wher (borrowings s)) as Hb.
  split; [lia|]. split; [lia|]. split; [lia|].
  split; [|split; [|split; [|split; [|split]]]].
  - intros E1 E2 E3. f_equal. f_equal.
    apply filter_all. intros x. subst wher.
    unfold BorrowingRepository.where_clause.
    rewrite E1, E2, E3. reflexivity.
  - destruct (Z.eqb_spec limit 0); [lia | reflexivity].
  - rewrite !length_map. lia.
  - rewrite !map_map. exact Hnd.
  - apply Forall_forall. intros x Hx.
    apply in_map_iff in Hx. destruct Hx as [d [<- Hx]].
    apply in_map_iff in Hx. destruct Hx as [row [<- Hx]].
    destruct (Hin row Hx) as [Hrow Hw].
    split; [exists row; auto|].
    subst wher. unfold BorrowingRepository.where_clause in Hw.
    apply andb_true_iff in Hw. destruct Hw as [_ Hw].
    unfold Borrowing.active in Hw. simpl.
    split; [|split]; intros E; rewrite E in Hw; simpl in Hw.
    + destruct (Borrowing.return_date _); [discriminate | reflexivity].
    + destruct (Borrowing.return_date _); [discriminate | discriminate].
    + apply andb_true_iff in Hw. destruct Hw as [H1 H2].
      apply Z.ltb_lt in H2.
      destruct (Borrowing.return_date _); [discriminate | auto].
  - intros E1 E2.
    assert (sortBy = "checkout_date"%string) as Esb
        by (subst sortBy; rewrite E1; reflexivity).
    assert (sortOrder = "DESC"%string) as Eso
        by (subst sortOrder; rewrite (Hdesc E2); reflexivity).
    rewrite Esb, Eso in Hsorted.
    rewrite map_map. apply StronglySorted_map.
    eapply StronglySorted_impl; [|exact Hsorted].
    intros a b H. unfold BorrowingRepository.sort_le in H. simpl in H.
    apply Z.leb_le in H. exact H.
Qed.

Lemma getAllBorrowings_page_witness :
  (exists rows pg,
      BorrowingService.getAllBorrowings
        (Sample.noon Sample.day_2024_01_10)
        (BorrowingDTO.SearchQuery.mk None None (Some (QString "active"))
                                     (Some (-3)) (Some 1000) (Some QOther)
                                     (Some (QString "asc")))
        (Sample.lent Sample.gatsby)
      = (Resolved (rows, pg), Sample.lent Sample.gatsby)
      /\ 1 <= BorrowingDTO.Pagination.page pg
      /\ 1 <= BorrowingDTO.Pagination.limit pg <= 100)
  /\ BorrowingService.getAllBorrowings
       (Sample.noon Sample.day_2024_01_10)
       (BorrowingDTO.SearchQuery.mk None None None None None None
                                    (Some QOther))
       (Sample.lent Sample.gatsby)
     = (Rejected (Error "sortOrder?.toUpperCase is not a function"),
        Sample.lent Sample.gatsby).
Proof.
  split.
  - destruct (proj2 (getAllBorrowings_page
                       (Sample.noon Sample.day_2024_01_10)
                       (BorrowingDTO.SearchQuery.mk
                          None None (Some (QString "active"))
                          (Some (-3)) (Some 1000) (Some QOther)
                          (Some (QString "asc")))
                       (Sample.lent Sample.gatsby)))
      as [rows [pg [H1 [H2 [H3 _]]]]].
    + apply db_wfb_sound. vm_compute. reflexivity.
    + vm_compute. reflexivity.
    + reflexivity.
    + reflexivity.
    + discriminate.
    + exists rows, pg. split; [exact H1|]. split; [exact H2 | exact H3].
  - exact (proj1 (getAllBorrowings_page
                    (Sample.noon Sample.day_2024_01_10)
                    (BorrowingDTO.SearchQuery.mk None None None None None
                                                 None (Some QOther))
                    (Sample.lent Sample.gatsby)) eq_refl).
Defined.

(** X13. When the list of a borrower's borrowings resolves, the borrower
    exists and the database is unchanged; every listed row is a borrowing
    of the table made by that borrower, no borrowing is listed twice, the
    page holds at most limit rows and limit is at most 50; without a
    status filter, total is the number of borrowings of the borrower. *)
Theorem borrowings_of_a_borrower :
  forall (now borrowerId : Z) (q : BorrowingDTO.SearchQuery.t) (s s' : db)
         (rows : list BorrowingDTO.DetailedBorrowing.t)
         (pg : BorrowingDTO.Pagination.t),
    db_wf s ->
    borrowerId <> 0 ->
    BorrowingService.getBorrowingsByBorrower now borrowerId q s
    = (Resolved (rows, pg), s') ->
    s' = s
    /\ In borrowerId (map Borrower.id (borrowers s))
    /\ Forall
         (fun x =>
            BorrowingDTO.PublicBorrowing.borrower_id
              (BorrowingDTO.DetailedBorrowing.public x) = borrowerId
            /\ exists row,
                x = BorrowingDTO.toDetailedBorrowingResponse
                      now (BorrowingService.with_summaries row)
                /\ In (BorrowingRow.borrowing row) (borrowings s))
         rows
    /\ NoDup (map (fun x => BorrowingDTO.PublicBorrowing.id
                              (BorrowingDTO.DetailedBorrowing.public x)) rows)
    /\ Z.of_nat (List.length rows) <= BorrowingDTO.Pagination.limit pg <= 50
    /\ (BorrowingDTO.SearchQuery.status q = None ->
        BorrowingDTO.Pagination.total pg
        = Z.of_nat (List.length
                      (filter (fun r => Borrowing.borrower_id r =? borrowerId)
                              (borrowings s)))).
Proof.
  intros now borrowerId q s s' rows pg Hwf Hid H.
  unfold BorrowingService.getBorrowingsByBorrower,
    BorrowerRepository.findById in H.
  unfold bind at 1 in H. unfold query at 1, throw in H. cbv zeta in H.
  destruct (find (BorrowerRepository.has_id borrowerId) (borrowers s))
    as [w|] eqn:Fw; [|discriminate].
  unfold bind, ret in H.
  destruct (BorrowingDTO.default_to
              (BorrowingDTO.FindAllOptions.sortOrder
                 (BorrowingService.list_options (Some borrowerId) None q))
              "DESC") as [so|] eqn:Eso;
    [|rewrite (findAll_type_error now _ s Eso) in H; discriminate].
  pose proof (findAll_cases
                now (BorrowingService.list_options (Some borrowerId) None q) s
                so Eso)
    as Hc.
  cbv zeta in Hc.
  match type of Hc with
  | context [BorrowingRepository.sort_le ?a ?o] =>
      set (sortBy := a) in *; set (sortOrder := o) in *
  end.
  set (wher := BorrowingRepository.where_clause _ _ _ _) in *.
  set (page := BookRepository.or_else _ 1) in *.
  set (limit := BookRepository.or_else _ 10) in *.
  destruct Hc as [[_ [c Hf]] | (_ & Hl & _ & Hf)]; rewrite Hf in H;
    [discriminate|].
  inversion H; subst s' rows pg; clear H.
  destruct (page_facts _ s wher
                       (BorrowingRepository.sort_le sortBy sortOrder)
                       (Z.to_nat limit) (Z.to_nat ((page - 1) * limit)) Hwf
                       (sort_le_total sortBy sortOrder)
                       (sort_le_trans sortBy sortOrder))
    as [Hlen [Hin [Hnd _]]].
  set (rows := firstn _ _) in *.
  split; [reflexivity|]. split.
  { apply find_some_in in Fw. destruct Fw as [Hw Hwid].
    apply Z.eqb_eq in Hwid. rewrite <- Hwid. now apply in_map. }
  split; [|split; [|split]].
  - apply Forall_forall. intros x Hx.
    apply in_map_iff in Hx. destruct Hx as [row [<- Hx]].
    destruct (Hin row Hx) as [Hrow Hw].
    split; [|exists row; auto].
    subst wher. unfold BorrowingRepository.where_clause in Hw. simpl in Hw.
    destruct (Z.eqb_spec borrowerId 0); [contradiction|].
    apply andb_true_iff in Hw. destruct Hw as [Hw _].
    apply andb_true_iff in Hw. destruct Hw as [Hw _].
    apply Z.eqb_eq in Hw. exact Hw.
  - rewrite map_map. exact Hnd.
  - simpl. rewrite length_map.
    assert (limit <= 50)
      by (subst limit; unfold BorrowingService.list_options; simpl; lia).
    lia.
  - intros E. simpl. f_equal. f_equal. apply filter_ext. intros r.
    subst wher. unfold BorrowingRepository.where_clause,
                  BorrowingService.list_options.
    simpl. rewrite E. simpl.
    destruct (Z.eqb_spec borrowerId 0); [contradiction|].
    now rewrite !andb_true_r.
Qed.

Lemma borrowings_of_a_borrower_witness :
  let s := Sample.lent Sample.gatsby in
  let q := BorrowingDTO.SearchQuery.mk None None None None None None None in
  let r := BorrowingService.getBorrowingsByBorrower
             (Sample.noon Sample.day_2024_01_10) 1 q s in
  snd r = s.
Proof.
  intros s q r.
  assert (exists rows pg, r = (Resolved (rows, pg), snd r)) as [rows [pg E]].
  { vm_compute. eexists. eexists. reflexivity. }
  refine (proj1 (borrowings_of_a_borrower
                   (Sample.noon Sample.day_2024_01_10) 1 q s (snd r) rows pg
                   _ _ E)).
  - apply db_wfb_sound. vm_compute. reflexivity.
  - discriminate.
Defined.

(** X14. The lists of one borrower's and of one book's borrowings do not
    clamp the page and limit of the query string from below: with a
    negative page or a negative limit the request fails with an internal
    error, not an input error, and changes nothing.  Unless sortOrder is
    repeated in the query string (then it is an array and the repository
    throws a TypeError before any query), the error is the database's,
    which rejects the negative OFFSET or LIMIT. *)
Theorem list_rejects_negative_paging :
  forall (now i : Z) (q : BorrowingDTO.SearchQuery.t) (s : db),
    (exists p, BorrowingDTO.SearchQuery.page q = Some p /\ p < 0)
    \/ (exists l, BorrowingDTO.SearchQuery.limit q = Some l /\ l < 0) ->
    (In i (map Borrower.id (borrowers s)) ->
     exists e, BorrowingService.getBorrowingsByBorrower now i q s
               = (Rejected e, s)
               /\ error_kind e = Internal
               /\ (BorrowingDTO.SearchQuery.sortOrder q <> Some QOther ->
                   exists c, e = PgError c))
    /\ (In i (map Book.id (books s)) ->
        exists e, BorrowingService.getBorrowingsByBook now i q s
                  = (Rejected e, s)
                  /\ error_kind e = Internal
                  /\ (BorrowingDTO.SearchQuery.sortOrder q <> Some QOther ->
                      exists c, e = PgError c)).
Proof.
  intros now i q s Hneg.
  assert (forall b k,
             let limit := Z.min (js_or_undef (BorrowingDTO.SearchQuery.limit q)
                                             10) 50 in
             let page := js_or_undef (BorrowingDTO.SearchQuery.page q) 1 in
             limit < 0 \/ (page - 1) * limit < 0 \/ b \/ k) as Hbad.
  { intros b k limit page. subst limit page.
    unfold js_or_undef, js_or.
    destruct Hneg as [[p [-> Hp]] | [l [-> Hl]]].
    - destruct (Z.eqb_spec p 0); [lia|].
      destruct (BorrowingDTO.SearchQuery.limit q) as [l|].
      + destruct (Z.eqb_spec l 0); [right; left; lia|].
        destruct (Z_lt_le_dec l 0); [left; lia | right; left; nia].
      + right. left. lia.
    - destruct (Z.eqb_spec l 0); [lia|]. left. lia. }
  assert (forall borrower_id book_id,
             exists e,
               BorrowingRepository.findAll
                 now (BorrowingService.list_options borrower_id book_id q) s
               = (Rejected e, s)
               /\ error_kind e = Internal
               /\ (BorrowingDTO.SearchQuery.sortOrder q <> Some QOther ->
                   exists c, e = PgError c)) as Hall.
  { intros borrower_id book_id.
    destruct (BorrowingDTO.default_to
                (BorrowingDTO.FindAllOptions.sortOrder
                   (BorrowingService.list_options borrower_id book_id q))
                "DESC") as [so|] eqn:Eso.
    - destruct (findAll_cases
                  now (BorrowingService.list_options borrower_id book_id q) s
                  so Eso)
        as [[_ [c Hf]] | (_ & Hl & Ho & _)].
      + exists (PgError c). split; [exact Hf|]. split; [reflexivity|].
        intros _. exists c. reflexivity.
      + exfalso. simpl in Hl, Ho.
        destruct (Hbad False False) as [H | [H | [[] | []]]]; lia.
    - exists (Error "sortOrder.toUpperCase is not a function").
      split; [exact (findAll_type_error now _ s Eso)|].
      split; [reflexivity|].
      intros Hstring. exfalso. apply Hstring.
      unfold BorrowingService.list_options in Eso. simpl in Eso.
      destruct (BorrowingDTO.SearchQuery.sortOrder q) as [[value|]|];
        [|reflexivity|discriminate].
      simpl in Eso. destruct (truthy value); discriminate. }
  split; intros Hi.
  - destruct (find_borrower_present s i Hi) as [w Fw].
    unfold BorrowingService.getBorrowingsByBorrower,
      BorrowerRepository.findById.
    unfold bind at 1. unfold query at 1. cbv zeta. rewrite Fw.
    unfold bind.
    destruct (Hall (Some i) None) as [e [Hf [Hk He]]].
    rewrite Hf. exists e. split; [reflexivity|]. split; assumption.
  - apply in_map_iff in Hi. destruct Hi as [b [Hbid Hb]].
    assert (exists b', find (BookRepository.has_id i) (books s) = Some b')
      as [b' Fb].
    { destruct (find (BookRepository.has_id i) (books s)) eqn:F;
        [eexists; reflexivity|].
      exfalso. apply (find_none _ _ F) in Hb.
      unfold BookRepository.has_id in Hb. apply Z.eqb_neq in Hb. auto. }
    unfold BorrowingService.getBorrowingsByBook, BookRepository.findById.
    unfold bind at 1. unfold query at 1. cbv zeta. rewrite Fb.
    unfold bind.
    destruct (Hall None (Some i)) as [e [Hf [Hk He]]].
    rewrite Hf. exists e. split; [reflexivity|]. split; assumption.
Qed.

Lemma list_rejects_negative_paging_witness :
  exists c,
    BorrowingService.getBorrowingsByBorrower
      (Sample.noon Sample.day_2024_01_10) 1
      (BorrowingDTO.SearchQuery.mk None None None (Some (-1)) None None None)
      (Sample.lent Sample.gatsby)
    = (Rejected (PgError c), Sample.lent Sample.gatsby).
Proof.
  destruct (proj1 (list_rejects_negative_paging
                     (Sample.noon Sample.day_2024_01_10) 1
                     (BorrowingDTO.SearchQuery.mk None None None (Some (-1))
                                                  None None None)
                     (Sample.lent Sample.gatsby)
                     (or_introl (ex_intro _ (-1) (conj eq_refl eq_refl)))))
    as [e [H [_ He]]].
  - vm_compute. left. reflexivity.
  - destruct He as [c ->]; [discriminate|]. exists c. exact H.
Defined.

(** ** Books that run low, and the analytics of a period *)

Section OrderByKey.
Variable R : Type.
Variable le : R -> R -> bool.
Variable P : R -> R -> Prop.
Hypothesis le_P : forall x y, le x y = true -> P x y.
Hypothesis not_le_P : forall x y, le x y = false -> P y x.
Hypothesis P_trans : forall x y z, P x y -> P y z -> P x z.

Lemma insert_by_sorted_by (x : R) (l : list R) :
  StronglySorted P l -> StronglySorted P (insert_by le x l).
Proof.
  induction l as [|y l IH]; simpl; intros Hs.
  - constructor; constructor.
  - inversion Hs as [|? ? Hl Hy]; subst.
    destruct (le x y) eqn:E.
    + constructor; [assumption|]. constructor; [now apply le_P|].
      eapply Forall_impl; [|exact Hy]. intros z Hz.
      apply (P_trans x y z); [now apply le_P | assumption].
    + constructor; [now apply IH|].
      apply (Permutation_Forall (Permutation_sym (insert_by_perm le x l))).
      constructor; [now apply not_le_P | assumption].
Qed.

Lemma order_by_sorted_by (l : list R) : StronglySorted P (order_by le l).
Proof.
  induction l as [|x l IH]; [constructor|].
  unfold order_by in *. simpl. now apply insert_by_sorted_by.
Qed.

End OrderByKey.

(** X15. The low-availability report does not change the database; it
    lists exactly the books with 0 < available_quantity <= threshold
    (threshold 2 when none is given), each once, in ascending order of
    available_quantity, whatever the collation of titles is. *)
Theorem low_availability_report :
  forall (title_le : string -> string -> bool) (threshold : option Z)
         (s s' : db) (rows : list Book.t),
    BookService.getLowAvailabilityBooks title_le threshold s
    = (Resolved rows, s') ->
    s' = s
    /\ Permutation
         rows
         (filter (fun b => (0 <? Book.available_quantity b)
                           && (Book.available_quantity b
                               <=? match threshold with
                                   | Some t => t
                                   | None => 2
                                   end))
                 (books s))
    /\ StronglySorted
         (fun a b => Book.available_quantity a <= Book.available_quantity b)
         rows.
Proof.
  intros title_le threshold s s' rows H.
  unfold BookService.getLowAvailabilityBooks,
    BookRepository.findLowAvailability, query in H.
  inversion H; subst s' rows; clear H.
  split; [reflexivity|]. split.
  - rewrite order_by_perm.
    replace (BookRepository.or_else threshold 2)
      with (match threshold with Some t => t | None => 2 end)
      by (destruct threshold; reflexivity).
    erewrite filter_ext; [reflexivity|].
    intros b. simpl. rewrite andb_comm. f_equal.
    rewrite Z.gtb_ltb. reflexivity.
  - apply order_by_sorted_by.
    + intros x y H. apply orb_true_iff in H. destruct H as [H|H].
      * apply Z.ltb_lt in H. lia.
      * apply andb_true_iff in H. destruct H as [H _].
        apply Z.eqb_eq in H. lia.
    + intros x y H. apply orb_false_iff in H. destruct H as [H _].
      apply Z.ltb_ge in H. exact H.
    + intros x y z H1 H2. cbv beta in *. lia.
Qed.

Lemma low_availability_report_witness :
  let s := Sample.library Sample.catcher in
  Permutation
    (Book.mk 1 "The Catcher in the Rye" "J.D. Salinger" "9780316769174"
             1 2 (Some "A1-003"%string) :: nil)
    (filter (fun b => (0 <? Book.available_quantity b)
                      && (Book.available_quantity b <=? 2))
            (books s)).
Proof.
  intros s.
  refine (proj1 (proj2 (low_availability_report
                          (fun _ _ => true) None s s
                          (Book.mk 1 "The Catcher in the Rye" "J.D. Salinger"
                                   "9780316769174" 1 2
                                   (Some "A1-003"%string) :: nil)
                          _))).
  vm_compute. reflexivity.
Defined.

Lemma filter_filter_le {A : Type} (p q : A -> bool) (l : list A) :
  (List.length (filter p (filter q l)) <= List.length (filter p l))%nat.
Proof.
  induction l as [|x l IH]; simpl; [lia|].
  destruct (q x) eqn:Eq, (p x) eqn:Ep; simpl; rewrite ?Ep; simpl; lia.
Qed.

(** X16. The analytics of a period never reject and never change the
    database.  The overdue_details are not restricted to the period: they
    list every borrowing that is active and due before today, each once,
    with days_overdue = today - due_date, at least 1; so the overdue_books
    count of the period is at most the number of overdue_details. *)
Theorem analytics_overdue_details :
  forall (now startDate endDate : Z) (s : db),
    db_wf s ->
    exists stats details,
      AnalyticsService.getBorrowingAnalytics now startDate endDate s
      = (Resolved (startDate, endDate, stats, details), s)
      /\ BorrowingRepository.Statistics.overdue_books stats
         <= Z.of_nat (List.length details)
      /\ Permutation
           (map AnalyticsService.OverdueDetail.borrowing_id details)
           (map Borrowing.id
                (filter (fun r => Borrowing.active r
                                  && (Borrowing.due_date r <? today now))
                        (borrowings s)))
      /\ Forall
           (fun d =>
              AnalyticsService.OverdueDetail.days_overdue d
              = today now - AnalyticsService.OverdueDetail.due_date d
              /\ 1 <= AnalyticsService.OverdueDetail.days_overdue d)
           details.
Proof.
  intros now startDate endDate s Hwf.
  unfold AnalyticsService.getBorrowingAnalytics,
    BorrowingRepository.getStatistics, BorrowingRepository.findOverdue.
  unfold_io.
  set (le := fun x y : BorrowingRow.t * Z =>
               Borrowing.due_date (BorrowingRow.borrowing (fst x))
               <=? Borrowing.due_date (BorrowingRow.borrowing (fst y))).
  set (wher := fun br => Borrowing.active br
                         && (Borrowing.due_date br <? today now)).
  set (sel := BorrowingRepository.select_details wher s).
  set (l := map (fun row => (row, today now
                                  - Borrowing.due_date
                                      (BorrowingRow.borrowing row))) sel).
  pose proof (select_details_borrowings _ wher s Hwf) as Hsel. fold sel in Hsel.
  eexists. eexists. split; [reflexivity|]. split; [|split].
  - simpl. rewrite length_map.
    rewrite (Permutation_length (order_by_perm le l)).
    subst l. rewrite length_map.
    rewrite <- (length_map BorrowingRow.borrowing sel), Hsel.
    apply Nat2Z.inj_le. apply (filter_filter_le wher).
  - rewrite map_map. simpl.
    rewrite <- Hsel, map_map.
    transitivity (map (fun x : BorrowingRow.t * Z =>
                         Borrowing.id (BorrowingRow.borrowing (fst x))) l).
    + apply Permutation_map. apply order_by_perm.
    + subst l. rewrite map_map. simpl. reflexivity.
  - apply Forall_forall. intros d Hd.
    apply in_map_iff in Hd. destruct Hd as [[row days] [<- Hin]].
    apply (Permutation_in _ (order_by_perm le l)) in Hin.
    subst l. apply in_map_iff in Hin. destruct Hin as [row' [E Hrow]].
    inversion E; subst row' days; clear E.
    apply select_details_in in Hrow. destruct Hrow as [_ [Hw _]].
    unfold wher in Hw. apply andb_true_iff in Hw. destruct Hw as [_ Hdue].
    apply Z.ltb_lt in Hdue. simpl. lia.
Qed.

Lemma analytics_overdue_details_witness :
  exists stats details,
    AnalyticsService.getBorrowingAnalytics
      (Sample.noon Sample.day_2024_01_10)
      Sample.day_2024_01_01 Sample.day_2024_01_10 Sample.due_new_year
    = (Resolved (Sample.day_2024_01_01, Sample.day_2024_01_10, stats, details),
       Sample.due_new_year)
    /\ BorrowingRepository.Statistics.overdue_books stats
       <= Z.of_nat (List.length details).
Proof.
  destruct (analytics_overdue_details
              (Sample.noon Sample.day_2024_01_10)
              Sample.day_2024_01_01 Sample.day_2024_01_10 Sample.due_new_year)
    as [stats [details [H1 [H2 _]]]].
  - apply db_wfb_sound. vm_compute. reflexivity.
  - exists stats, details. split; [exact H1 | exact H2].
Defined.

(** ** Creating and deleting books *)

Lemma find_string_present {R : Type} (f : R -> string) (v : string)
      (l : list R) :
  In v (map f l) -> exists x, find (fun b => String.eqb (f b) v) l = Some x.
Proof.
  intros H. apply in_map_iff in H. destruct H as [x [E Hx]].
  destruct (find (fun b => String.eqb (f b) v) l) eqn:F;
    [eexists; reflexivity|].
  exfalso. apply (find_none _ _ F) in Hx. simpl in Hx.
  apply String.eqb_neq in Hx. auto.
Qed.

Lemma find_string_absent {R : Type} (f : R -> string) (v : string)
      (l : list R) :
  ~ In v (map f l) -> find (fun b => String.eqb (f b) v) l = None.
Proof.
  intros H. destruct (find (fun b => String.eqb (f b) v) l) eqn:F;
    [|reflexivity].
  exfalso. apply find_some_in in F. destruct F as [Hx E].
  apply String.eqb_eq in E. apply H. rewrite <- E. now apply in_map.
Qed.

Lemma existsb_string_present {R : Type} (f : R -> string) (v : string)
      (l : list R) :
  ~ In v (map f l) -> existsb (fun b => String.eqb (f b) v) l = false.
Proof.
  intros H. destruct (existsb (fun b => String.eqb (f b) v) l) eqn:E;
    [|reflexivity].
  exfalso. apply existsb_exists in E. destruct E as [x [Hx E]].
  apply String.eqb_eq in E. apply H. rewrite <- E. now apply in_map.
Qed.

(** X17. Creating a book is decided by its quantities and its ISBN.  A
    falsy (absent or 0) available_quantity counts as 0 and a falsy
    total_quantity as the available_quantity.  If these quantities fail
    validateQuantities the request is rejected with the message of the
    validation; otherwise, if a book has the trimmed ISBN, it is rejected
    with a Conflict-kind error; a rejection changes nothing.  When the
    request succeeds, the quantities satisfy 0 <= available <= total, no
    book had the ISBN, and exactly one book is appended, with a fresh id,
    the trimmed title, author and ISBN and these quantities. *)
Theorem createBook_characterised :
  forall (req : BookDTO.CreateRequest.t) (s : db),
    let available := js_or_undef (BookDTO.CreateRequest.available_quantity req)
                                 0 in
    let total := js_or_undef (BookDTO.CreateRequest.total_quantity req)
                             available in
    let row := Book.mk (books_id_seq s)
                       (trim (BookDTO.CreateRequest.title req))
                       (trim (BookDTO.CreateRequest.author req))
                       (trim (BookDTO.CreateRequest.isbn req))
                       available total
                       (option_map trim
                                   (BookDTO.CreateRequest.shelf_location req)) in
    (forall message,
        BookDTO.validateQuantities available total = Invalid message ->
        BookService.createBook req s = (Rejected (Error message), s))
    /\ (BookDTO.validateQuantities available total = Valid ->
        In (Book.isbn row) (map Book.isbn (books s)) ->
        rejects_unchanged (BookService.createBook req) s
                          "Book with this ISBN already exists" Conflict)
    /\ (forall b s',
          BookService.createBook req s = (Resolved b, s') ->
          0 <= available <= total
          /\ ~ In (Book.isbn row) (map Book.isbn (books s))
          /\ b = row
          /\ s' = insert_book s row).
Proof.
  intros req s available total row.
  unfold BookService.createBook. cbv zeta.
  change (BookDTO.BookData.available_quantity (BookDTO.fromCreateRequest req))
    with available.
  change (BookDTO.BookData.total_quantity (BookDTO.fromCreateRequest req))
    with total.
  change (BookDTO.BookData.isbn (BookDTO.fromCreateRequest req))
    with (Book.isbn row).
  split; [|split].
  - intros message ->. reflexivity.
  - intros -> Hin. split; [|reflexivity].
    unfold BookRepository.findByISBN. unfold_io.
    destruct (find_string_present Book.isbn _ _ Hin) as [x ->]. reflexivity.
  - intros b s' H.
    destruct (BookDTO.validateQuantities available total) eqn:Hvalid;
      [|discriminate].
    assert (0 <= available <= total) as Hq.
    { unfold BookDTO.validateQuantities in Hvalid.
      destruct (Z.ltb_spec available 0); [discriminate|].
      destruct (Z.ltb_spec total 0); [discriminate|].
      destruct (Z.gtb_spec available total); [discriminate|]. lia. }
    unfold BookRepository.findByISBN in H. unfold_io.
    destruct (find _ (books s)) as [x|] eqn:F; [discriminate|].
    assert (~ In (Book.isbn row) (map Book.isbn (books s))) as Hnew.
    { intros Hin.
      destruct (find_string_present Book.isbn _ _ Hin) as [x Hx]. congruence. }
    unfold BookRepository.create in H.
    change (BookDTO.BookData.available_quantity (BookDTO.fromCreateRequest req))
      with available in H.
    change (BookDTO.BookData.total_quantity (BookDTO.fromCreateRequest req))
      with total in H.
    assert (js_or available 0 = available) as Ea
        by (unfold js_or; destruct (Z.eqb_spec available 0); lia).
    assert (js_or total available = total) as Et
        by (unfold js_or; destruct (Z.eqb_spec total 0); lia).
    rewrite Ea, Et in H. cbv zeta in H.
    change (Book.mk (books_id_seq s) _ _ _ available total _) with row in H.
    assert (books_check row = None) as Ec
        by (apply books_check_none; exact Hq).
    rewrite Ec, (existsb_string_present Book.isbn _ _ Hnew) in H.
    inversion H. auto.
Qed.

Lemma createBook_characterised_witness :
  let req := BookDTO.CreateRequest.mk "  Dune " "Frank Herbert"
                                      " 9780441013593 " (Some 3) (Some 0)
                                      None in
  let s := Sample.library Sample.gatsby in
  snd (BookService.createBook req s)
  = insert_book s (Book.mk 2 "Dune" "Frank Herbert" "9780441013593" 3 3 None).
Proof.
  intros req s.
  destruct (proj2 (proj2 (createBook_characterised req s))
                  (Book.mk 2 "Dune" "Frank Herbert" "9780441013593" 3 3 None)
                  (snd (BookService.createBook req s)))
    as [_ [_ [_ H]]].
  - vm_compute. reflexivity.
  - exact H.
Defined.

Lemma existsb_filter_key (i k : Z) (l : list Book.t) :
  In i (map Book.id l) ->
  existsb (fun b => Book.id b =? k) (filter (BookRepository.has_id i) l)
  = (k =? i).
Proof.
  intros Hin. destruct (Z.eqb_spec k i) as [->|Hne].
  - apply existsb_exists. apply in_map_iff in Hin.
    destruct Hin as [b [E Hb]]. exists b. split.
    + apply filter_In. split; [assumption|]. now apply Z.eqb_eq.
    + now apply Z.eqb_eq.
  - destruct (existsb _ _) eqn:E; [|reflexivity].
    exfalso. apply existsb_exists in E. destruct E as [b [Hb E]].
    apply filter_In in Hb. destruct Hb as [_ Hb].
    apply Z.eqb_eq in Hb, E. congruence.
Qed.

Lemma length_zero_filter {A : Type} (p : A -> bool) (l : list A) (x : A) :
  negb (Nat.eqb (List.length (filter p l)) 0) = false ->
  In x l -> p x = false.
Proof.
  intros H Hx. destruct (p x) eqn:E; [|reflexivity].
  exfalso. assert (In x (filter p l)) as Hin by (apply filter_In; auto).
  destruct (filter p l); [contradiction | discriminate].
Qed.

(** X18. A successful deletion of a book removes exactly that book and,
    through ON DELETE CASCADE, every borrowing of it, all of which had
    been returned; the other books, the borrowers and the borrowings of
    other books are untouched. *)
Theorem deleteBook_effect :
  forall (bookId : Z) (s s' : db) (ok : bool),
    BookService.deleteBook bookId s = (Resolved ok, s') ->
    ok = true
    /\ In bookId (map Book.id (books s))
    /\ books s' = filter (fun b => negb (Book.id b =? bookId)) (books s)
    /\ borrowers s' = borrowers s
    /\ borrowings s'
       = filter (fun r => negb (Borrowing.book_id r =? bookId)) (borrowings s)
    /\ (forall r, In r (borrowings s) -> Borrowing.book_id r = bookId ->
                  Borrowing.return_date r <> None).
Proof.
  intros bookId s s' ok H.
  unfold BookService.deleteBook, BookRepository.findById,
    BorrowingRepository.hasActiveBookBorrowings, BookRepository.delete,
    BookRepository.delete_where in H.
  unfold_io. hyp_cases. invert_pairs.
  match goal with
  | F : find (BookRepository.has_id bookId) (books s) = Some ?b |- _ =>
      apply find_some_in in F; destruct F as [Hb Hbid]
  end.
  apply Z.eqb_eq in Hbid.
  assert (In bookId (map Book.id (books s))) as Hin
      by (rewrite <- Hbid; now apply in_map).
  split; [reflexivity|]. split; [exact Hin|].
  split; [reflexivity|]. split; [reflexivity|]. split.
  - simpl. unfold cascade_books. apply filter_ext. intros r.
    now rewrite (existsb_filter_key bookId (Borrowing.book_id r) (books s) Hin).
  - intros r Hr Hrb Hnull.
    match goal with
    | E : negb (Nat.eqb (List.length (filter ?p (borrowings s))) 0) = false
      |- _ => pose proof (length_zero_filter p (borrowings s) r E Hr) as Hp
    end.
    simpl in Hp. unfold Borrowing.active in Hp.
    rewrite Hnull, Hrb, Z.eqb_refl in Hp. discriminate.
Qed.

Lemma deleteBook_effect_witness :
  books (snd (BookService.deleteBook 1 Sample.returned))
  = filter (fun b => negb (Book.id b =? 1)) (books Sample.returned)
  /\ borrowings (snd (BookService.deleteBook 1 Sample.returned)) = [].
Proof.
  destruct (deleteBook_effect 1 Sample.returned
                              (snd (BookService.deleteBook 1 Sample.returned))
                              true)
    as [_ [_ [H1 [_ [H2 _]]]]].
  - vm_compute. reflexivity.
  - split; [exact H1|]. rewrite H2. vm_compute. reflexivity.
Defined.

(** ** Copies and concurrent checkouts *)

(** X19. However many checkout transactions for one book are run one
    after another (in whatever order concurrent requests are serialised),
    at most as many of them commit as the book had available copies. *)
Theorem checkouts_bounded_by_copies :
  forall (ds : list BorrowingDTO.CheckoutData.t) (s : db) (b : Book.t),
    db_wf s ->
    In b (books s) ->
    (forall d, In d ds -> BorrowingDTO.CheckoutData.book_id d = Book.id b) ->
    (committed (map TxCreate ds) s <= Z.to_nat (Book.available_quantity b))%nat.
Proof.
  induction ds as [|d ds IH]; intros s b Hwf Hb Hall; simpl; [lia|].
  assert (BorrowingDTO.CheckoutData.book_id d = Book.id b) as Hd
      by (apply Hall; now left).
  assert (forall d', In d' ds ->
                     BorrowingDTO.CheckoutData.book_id d' = Book.id b) as Hrest
      by (intros d' Hd'; apply Hall; now right).
  pose proof (create_inv _ d s Hwf) as Hwf1.
  destruct (create_cases d s) as [[e He] | [o Ho]].
  - rewrite He in *. simpl in *.
    specialize (IH s b Hwf Hb Hrest). lia.
  - rewrite Ho in *. simpl in Hwf1. simpl.
    set (s1 := set_books _ _) in *.
    assert (In (BookRepository.plus_available (-1) b) (books s1)) as Hb1.
    { subst s1. simpl. apply in_map_iff. exists b. split; [|assumption].
      unfold BookRepository.has_id. rewrite Hd, Z.eqb_refl. reflexivity. }
    pose proof (proj1 (books_check_none _)
                      (books_checks _ _ Hwf1 _ Hb1)) as Hq.
    simpl in Hq.
    specialize (IH s1 (BookRepository.plus_available (-1) b) Hwf1 Hb1 Hrest).
    simpl in IH. lia.
Qed.

Lemma checkouts_bounded_by_copies_witness :
  (committed
     (map TxCreate
          [BorrowingDTO.CheckoutData.mk 1 1 19737 19723;
           BorrowingDTO.CheckoutData.mk 1 1 19737 19723])
     (Sample.library Sample.pride)
   <= 1)%nat.
Proof.
  refine (checkouts_bounded_by_copies
            [BorrowingDTO.CheckoutData.mk 1 1 19737 19723;
             BorrowingDTO.CheckoutData.mk 1 1 19737 19723]
            (Sample.library Sample.pride)
            (Book.mk 1 "Pride and Prejudice" "Jane Austen" "9780141439518"
                     1 1 (Some "C3-001"%string)) _ _ _).
  - apply db_wfb_sound. vm_compute. reflexivity.
  - vm_compute. left. reflexivity.
  - intros d [<- | [<- | []]]; reflexivity.
Defined.

(** ** Registering and deleting borrowers, and reading a borrowing *)

(** X20. Registering a borrower is decided by the e-mail address, trimmed
    and lower-cased.  If validateEmail refuses it the request is rejected
    with the message of the validation; otherwise, if a borrower has that
    address, it is rejected with a Conflict-kind error; a rejection
    changes nothing.  When the request succeeds, no borrower had the
    address, and exactly one borrower is appended, with a fresh id, the
    trimmed name, the normalised address, and the registered_date given,
    or today when none is given. *)
Theorem createBorrower_characterised :
  forall (now : Z) (req : BorrowerDTO.CreateRequest.t) (s : db),
    let email := toLowerCase (trim (BorrowerDTO.CreateRequest.email req)) in
    let row := Borrower.mk (borrowers_id_seq s)
                           (trim (BorrowerDTO.CreateRequest.name req))
                           email
                           (match BorrowerDTO.CreateRequest.registered_date req
                            with
                            | Some d => d
                            | None => today now
                            end) in
    (forall message,
        BorrowerDTO.validateEmail email = Invalid message ->
        BorrowerService.createBorrower now req s
        = (Rejected (Error message), s))
    /\ (BorrowerDTO.validateEmail email = Valid ->
        In email (map Borrower.email (borrowers s)) ->
        rejects_unchanged (BorrowerService.createBorrower now req) s
                          "Borrower with this email already exists" Conflict)
    /\ (forall b s',
          BorrowerService.createBorrower now req s = (Resolved b, s') ->
          BorrowerDTO.validateEmail email = Valid
          /\ ~ In email (map Borrower.email (borrowers s))
          /\ b = row
          /\ s' = insert_borrower s row).
Proof.
  intros now req s email row.
  unfold BorrowerService.createBorrower. cbv zeta.
  change (BorrowerDTO.BorrowerData.email
            (BorrowerDTO.fromCreateRequest now req)) with email.
  split; [|split].
  - intros message ->. reflexivity.
  - intros -> Hin. split; [|reflexivity].
    unfold BorrowerRepository.findByEmail. unfold_io.
    destruct (find_string_present Borrower.email _ _ Hin) as [x ->].
    reflexivity.
  - intros b s' H.
    destruct (BorrowerDTO.validateEmail email) eqn:Hvalid; [|discriminate].
    unfold BorrowerRepository.findByEmail in H. unfold_io.
    destruct (find _ (borrowers s)) as [x|] eqn:F; [discriminate|].
    assert (~ In email (map Borrower.email (borrowers s))) as Hnew.
    { intros Hin.
      destruct (find_string_present Borrower.email _ _ Hin) as [x Hx].
      congruence. }
    unfold BorrowerRepository.create in H. cbv zeta in H.
    change (Borrower.mk (borrowers_id_seq s) _ _ _) with row in H.
    change (Borrower.email row) with email in H.
    rewrite (existsb_string_present Borrower.email _ _ Hnew) in H.
    inversion H. auto.
Qed.

Lemma createBorrower_characterised_witness :
  let req := BorrowerDTO.CreateRequest.mk " Ada Lovelace "
                                          "  Ada@Example.ORG " None in
  let s := Sample.library Sample.gatsby in
  snd (BorrowerService.createBorrower (Sample.noon Sample.day_2024_01_10)
                                      req s)
  = insert_borrower s (Borrower.mk 3 "Ada Lovelace" "ada@example.org" 19732).
Proof.
  intros req s.
  destruct (proj2 (proj2 (createBorrower_characterised
                            (Sample.noon Sample.day_2024_01_10) req s))
                  (Borrower.mk 3 "Ada Lovelace" "ada@example.org" 19732)
                  (snd (BorrowerService.createBorrower
                          (Sample.noon Sample.day_2024_01_10) req s)))
    as [_ [_ [_ H]]].
  - vm_compute. reflexivity.
  - exact H.
Defined.

Lemma existsb_filter_borrower (i k : Z) (l : list Borrower.t) :
  In i (map Borrower.id l) ->
  existsb (fun b => Borrower.id b =? k) (filter (BorrowerRepository.has_id i) l)
  = (k =? i).
Proof.
  intros Hin. destruct (Z.eqb_spec k i) as [->|Hne].
  - apply existsb_exists. apply in_map_iff in Hin.
    destruct Hin as [b [E Hb]]. exists b. split.
    + apply filter_In. split; [assumption|]. now apply Z.eqb_eq.
    + now apply Z.eqb_eq.
  - destruct (existsb _ _) eqn:E; [|reflexivity].
    exfalso. apply existsb_exists in E. destruct E as [b [Hb E]].
    apply filter_In in Hb. destruct Hb as [_ Hb].
    apply Z.eqb_eq in Hb, E. congruence.
Qed.

(** X21. A successful deletion of a borrower removes exactly that
    borrower and, through ON DELETE CASCADE, every borrowing of theirs,
    all of which had been returned; the books, the other borrowers and the
    borrowings of other borrowers are untouched. *)
Theorem deleteBorrower_effect :
  forall (borrowerId : Z) (s s' : db) (ok : bool),
    db_wf s ->
    BorrowerService.deleteBorrower borrowerId s = (Resolved ok, s') ->
    ok = true
    /\ In borrowerId (map Borrower.id (borrowers s))
    /\ borrowers s'
       = filter (fun b => negb (Borrower.id b =? borrowerId)) (borrowers s)
    /\ books s' = books s
    /\ borrowings s'
       = filter (fun r => negb (Borrowing.borrower_id r =? borrowerId))
                (borrowings s)
    /\ (forall r, In r (borrowings s) -> Borrowing.borrower_id r = borrowerId ->
                  Borrowing.return_date r <> None).
Proof.
  intros borrowerId s s' ok Hwf H.
  unfold BorrowerService.deleteBorrower, BorrowerRepository.findById,
    BorrowerRepository.getCurrentBooks, BorrowerRepository.delete in H.
  unfold_io. hyp_cases. invert_pairs.
  match goal with
  | F : find (BorrowerRepository.has_id borrowerId) (borrowers s) = Some ?b
    |- _ => apply find_some_in in F; destruct F as [Hw Hwid]
  end.
  apply Z.eqb_eq in Hwid.
  assert (In borrowerId (map Borrower.id (borrowers s))) as Hin
      by (rewrite <- Hwid; now apply in_map).
  split; [reflexivity|]. split; [exact Hin|].
  split; [reflexivity|]. split; [reflexivity|]. split.
  - simpl. unfold cascade_borrowers. apply filter_ext. intros r.
    now rewrite (existsb_filter_borrower borrowerId (Borrowing.borrower_id r)
                                         (borrowers s) Hin).
  - intros r Hr Hrb Hnull.
    assert (Borrowing.active r = true) as Hact
        by (unfold Borrowing.active; now rewrite Hnull).
    pose proof (borrowings_book_id_fkey _ _ Hwf r Hr) as Hbook.
    apply in_map_iff in Hbook. destruct Hbook as [b [Eb Hb]].
    match goal with
    | E : negb (Nat.eqb (List.length ?l) 0) = false |- _ =>
        rewrite (nonempty_length l) in E; [discriminate|]
    end.
    apply order_by_nonempty.
    apply (in_nonempty _ (BorrowerRepository.CurrentBook.mk
                            (Book.id b) (Book.title b) (Book.author b)
                            (Book.isbn b) (Borrowing.id r)
                            (Borrowing.checkout_date r) (Borrowing.due_date r))).
    apply in_flat_map. exists r. split.
    + apply filter_In. split; [assumption|].
      now rewrite Hrb, Z.eqb_refl, Hact.
    + apply in_map_iff. exists b. split; [reflexivity|].
      apply filter_In. split; [assumption|].
      now apply Z.eqb_eq.
Qed.

Lemma deleteBorrower_effect_witness :
  borrowers (snd (BorrowerService.deleteBorrower 1 Sample.returned))
  = filter (fun b => negb (Borrower.id b =? 1)) (borrowers Sample.returned)
  /\ borrowings (snd (BorrowerService.deleteBorrower 1 Sample.returned)) = [].
Proof.
  destruct (deleteBorrower_effect
              1 Sample.returned
              (snd (BorrowerService.deleteBorrower 1 Sample.returned)) true)
    as [_ [_ [H1 [_ [H2 _]]]]].
  - apply db_wfb_sound. vm_compute. reflexivity.
  - vm_compute. reflexivity.
  - split; [exact H1|]. rewrite H2. vm_compute. reflexivity.
Defined.

(** X22. Reading a borrowing by id never changes the database.  An id
    that no borrowing has is answered with the NotFound-kind error
    [Borrowing not found].  The id of a borrowing is answered with that
    borrowing, its columns as stored, with the title, author and ISBN of
    its book and the name and e-mail of its borrower; a returned
    borrowing is never reported as overdue. *)
Theorem getBorrowingById_characterised :
  forall (now i : Z) (s : db),
    db_wf s ->
    (~ In i (map Borrowing.id (borrowings s)) ->
     rejects_unchanged (BorrowingService.getBorrowingById now i) s
                       "Borrowing not found" NotFound)
    /\ (forall r,
          In r (borrowings s) -> Borrowing.id r = i ->
          exists resp b w,
            BorrowingService.getBorrowingById now i s = (Resolved resp, s)
            /\ In b (books s) /\ Book.id b = Borrowing.book_id r
            /\ In w (borrowers s) /\ Borrower.id w = Borrowing.borrower_id r
            /\ BorrowingDTO.DetailedBorrowing.public resp
               = BorrowingDTO.PublicBorrowing.mk
                   i (Borrowing.book_id r) (Borrowing.borrower_id r)
                   (Borrowing.checkout_date r) (Borrowing.due_date r)
                   (Borrowing.return_date r)
                   (Some (BorrowingDTO.BookSummary.mk
                            (Book.title b) (Book.author b) (Book.isbn b)))
                   (Some (BorrowingDTO.BorrowerSummary.mk
                            (Borrower.name w) (Borrower.email w)))
            /\ (Borrowing.return_date r <> None ->
                BorrowingDTO.DetailedBorrowing.is_overdue resp = false
                /\ BorrowingDTO.DetailedBorrowing.days_overdue resp = 0)).
Proof.
  intros now i s Hwf. split.
  - intros Habsent. split; [|reflexivity].
    unfold BorrowingService.getBorrowingById, BorrowingRepository.findById.
    unfold_io. rewrite (findById_absent s i Habsent). reflexivity.
  - intros r Hr Hid.
    destruct (findById_present _ s r Hwf Hr) as [x [Hx Hxr]].
    rewrite Hid in Hx.
    pose proof Hx as Hsel. apply hd_error_in, select_details_in in Hsel.
    destruct Hsel as [_ [_ [b [w [Hb [Hbid [Hw [Hwid Ex]]]]]]]].
    rewrite Hxr in *.
    exists (BorrowingDTO.toDetailedBorrowingResponse
              now (BorrowingService.with_summaries x)), b, w.
    split.
    { unfold BorrowingService.getBorrowingById, BorrowingRepository.findById.
      unfold_io. rewrite Hx. reflexivity. }
    split; [exact Hb|]. split; [exact Hbid|].
    split; [exact Hw|]. split; [exact Hwid|].
    rewrite Ex. unfold BorrowingDTO.toDetailedBorrowingResponse,
      BorrowingDTO.toPublicBorrowing, BorrowingService.with_summaries.
    simpl. rewrite Hid. split; [reflexivity|].
    intros Hret. unfold Borrowing.active.
    destruct (Borrowing.return_date r); [split; reflexivity | congruence].
Qed.

Lemma getBorrowingById_characterised_witness :
  rejects_unchanged
    (BorrowingService.getBorrowingById (Sample.noon Sample.day_2024_01_10) 7)
    Sample.returned "Borrowing not found" NotFound.
Proof.
  refine (proj1 (getBorrowingById_characterised
                   (Sample.noon Sample.day_2024_01_10) 7 Sample.returned _) _).
  - apply db_wfb_sound. vm_compute. reflexivity.
  - vm_compute. intros [H | []]. discriminate.
Defined.

(** ** Editing a book *)

(** X23. When an update of a book succeeds, the book exists.  With no
    field in the request nothing is written and the answer is null.
    Otherwise exactly the fields given are overwritten (title, author,
    ISBN and shelf location trimmed) in that one book, the result
    satisfies 0 <= available_quantity <= total_quantity, its id is
    unchanged, and the other books, the borrowers and the borrowings are
    untouched. *)
Theorem updateBook_effect :
  forall (bookId : Z) (updateData : BookDTO.UpdateData.t) (s s' : db)
         (o : option Book.t),
    db_wf s ->
    BookService.updateBook bookId updateData s = (Resolved o, s') ->
    exists existing,
      In existing (books s) /\ Book.id existing = bookId
      /\ ((o = None /\ s' = s
           /\ BookRepository.no_fields updateData = true)
          \/ (let b := BookRepository.set_fields
                         (BookDTO.fromUpdateRequest updateData) existing in
              o = Some b
              /\ 0 <= Book.available_quantity b <= Book.total_quantity b
              /\ books s'
                 = map (fun x => if Book.id x =? bookId then b else x) (books s)
              /\ borrowers s' = borrowers s
              /\ borrowings s' = borrowings s)).
Proof.
  intros bookId updateData s s' o Hwf H.
  unfold BookService.updateBook, BookRepository.findById in H.
  unfold bind at 1 in H. unfold query at 1, throw at 1 in H. cbv zeta in H.
  destruct (find (BookRepository.has_id bookId) (books s)) as [existing|]
    eqn:F; [|discriminate].
  apply find_some_in in F. destruct F as [Hb Hbid]. apply Z.eqb_eq in Hbid.
  exists existing. split; [exact Hb|]. split; [exact Hbid|].
  assert (BookRepository.update bookId (BookDTO.fromUpdateRequest updateData) s
          = (Resolved o, s')) as Hu.
  { unfold bind, throw in H.
    destruct (BookService.isbn_changes _ _) as [isbn|];
      [unfold BookRepository.isbnExists, query in H | unfold ret in H];
      cbv beta zeta in H;
      repeat match type of H with
             | context [match ?x with _ => _ end] =>
                 let E := fresh "E" in destruct x eqn:E; try discriminate
             end;
      exact H. }
  clear H. unfold BookRepository.update in Hu.
  destruct (BookRepository.no_fields (BookDTO.fromUpdateRequest updateData))
    eqn:Hnf.
  - left. unfold ret in Hu. inversion Hu. split; [reflexivity|].
    split; [reflexivity|].
    destruct updateData as [t a i q1 q2 l].
    destruct t, a, i, q1, q2, l; simpl in Hnf; try discriminate. reflexivity.
  - right. cbv zeta.
    replace (filter (BookRepository.has_id bookId) (books s))
      with [existing] in Hu
      by (symmetry; rewrite <- Hbid; apply (filter_key_unique Book.id);
          [apply Hwf | assumption]).
    simpl in Hu.
    destruct (books_check _) eqn:Hc; [discriminate|].
    destruct (BookRepository.isbn_taken _ _ _); [discriminate|].
    inversion Hu; subst o s'; clear Hu.
    split; [reflexivity|]. split; [now apply books_check_none|].
    split; [|split; reflexivity].
    simpl. apply map_ext_in. intros x Hx.
    unfold BookRepository.has_id.
    destruct (Z.eqb_spec (Book.id x) bookId) as [E|E]; [|reflexivity].
    f_equal. apply (key_unique Book.id (books s)); auto; [apply Hwf | congruence].
Qed.

Lemma updateBook_effect_witness :
  let u := BookDTO.UpdateData.mk (Some " Gatsby "%string) None None
                                 (Some 2) None None in
  let s := Sample.lent Sample.gatsby in
  books (snd (BookService.updateBook 1 u s))
  = map (fun x => if Book.id x =? 1
                  then Book.mk 1 "Gatsby" "F. Scott Fitzgerald"
                               "9780743273565" 2 5 (Some "A1-001"%string)
                  else x) (books s).
Proof.
  intros u s.
  destruct (updateBook_effect
              1 u s (snd (BookService.updateBook 1 u s))
              (Some (Book.mk 1 "Gatsby" "F. Scott Fitzgerald"
                             "9780743273565" 2 5 (Some "A1-001"%string))))
    as [existing [Hin [_ [[H _] | H]]]].
  - apply db_wfb_sound. vm_compute. reflexivity.
  - vm_compute. reflexivity.
  - discriminate.
  - cbv zeta in H. destruct H as [Ho [_ [Hbooks _]]].
    rewrite Hbooks.
    assert (BookRepository.set_fields (BookDTO.fromUpdateRequest u) existing
            = Book.mk 1 "Gatsby" "F. Scott Fitzgerald" "9780743273565" 2 5
                      (Some "A1-001"%string)) as Hb by congruence.
    rewrite Hb. reflexivity.
Defined.
